(** * english-exam-automation: the vocabulary exam engine of [main.py]

    A shallow embedding of the parts of [main.py] that carry the logic of
    the vocabulary bot and of the Slack notifier:

    - [SlackNotifier._format_mixed_content_message]: the loop that cuts a
      long message into pieces of at most 2500 characters;
    - [VocabBot.check_duplicate], [VocabBot.add_to_sheet] and
      [VocabBot.format_vocab_response]: the word store kept in a
      spreadsheet;
    - [VocabBot.get_random_words]: drawing words from the spreadsheet;
    - [VocabBot.generate_exam], [VocabBot.create_exam_content] and
      [VocabBot.create_answer_content]: distributing the words over the
      five sections and rendering the two documents.

    Python integers are [Z]; list lengths are [nat] and are injected into
    [Z] where the source compares them with an integer argument.  The
    spreadsheet, the random generator and the clock are explicit state. *)

From Stdlib Require Import ZArith String Ascii List Lia DecimalString.
From stdpp Require Import prelude strings.

Local Open Scope string_scope.
Local Open Scope list_scope.

(** ** Python built-ins used by the source *)

Module Py.

(** [len(l)] as a Python integer. *)
Definition len {A} (l : list A) : Z := Z.of_nat (length l).

(** Normalisation of one bound of a slice over a sequence of length [n]:
    a negative bound counts from the end, and every bound is clipped to
    the range [0..n]. *)
Definition clip (n i : Z) : Z :=
  if (i <? 0)%Z then Z.max 0 (i + n) else Z.min i n.

(** [l[lo:hi]]; an omitted bound is [None]. *)
Definition slice {A} (lo hi : option Z) (l : list A) : list A :=
  let n := len l in
  let a := match lo with None => 0%Z | Some i => clip n i end in
  let b := match hi with None => n | Some j => clip n j end in
  take (Z.to_nat (b - a)) (drop (Z.to_nat a) l).

(** [l[:n]], [l[n:]] and [l[a:b]]. *)
Definition slice_to {A} (n : Z) (l : list A) : list A := slice None (Some n) l.
Definition slice_from {A} (n : Z) (l : list A) : list A := slice (Some n) None l.
Definition slice_between {A} (a b : Z) (l : list A) : list A :=
  slice (Some a) (Some b) l.

(** [enumerate(l, start)]. *)
Fixpoint enumerate {A} (start : nat) (l : list A) : list (nat * A) :=
  match l with
  | [] => []
  | x :: l' => (start, x) :: enumerate (S start) l'
  end.

(** [str(n)] for a non-negative integer, as an f-string renders it. *)
Definition dec (n : nat) : string := NilEmpty.string_of_uint (Nat.to_uint n).

(** [sep.join(l)]. *)
Definition join (sep : string) (l : list string) : string := String.concat sep l.

(** [c.lower()] on one character: the letters A..Z, other characters are
    left as they are. *)
Definition lower_ascii (c : ascii) : ascii :=
  let n := nat_of_ascii c in
  if (65 <=? n)%nat && (n <=? 90)%nat then ascii_of_nat (n + 32) else c.

(** [s.lower()]. *)
Fixpoint lower (s : string) : string :=
  match s with
  | EmptyString => EmptyString
  | String c s' => String (lower_ascii c) (lower s')
  end.


(** [s.split(sep)] for a separator that is not empty: the text is cut at
    the occurrences of [sep], found from left to right and not
    overlapping.  [skip] counts the characters of a separator that was
    just recognised and are still to be passed over; [cur] is the piece
    being read. *)
Fixpoint split_go (sep s : string) (skip : nat) (cur : string) : list string :=
  match s with
  | EmptyString => [cur]
  | String c s' =>
      match skip with
      | S k => split_go sep s' k cur
      | O =>
          if String.prefix sep s
          then cur :: split_go sep s' (String.length sep - 1) EmptyString
          else split_go sep s' 0 (cur +:+ String c EmptyString)
      end
  end.

Definition split (sep s : string) : list string := split_go sep s 0 EmptyString.

(** Truth value of a string and of a list: empty is false. *)
Definition truthy_str (s : string) : bool :=
  match s with EmptyString => false | _ => true end.
Definition truthy {A} (l : list A) : bool :=
  match l with [] => false | _ => true end.

(** [range(a, b)]. *)
Definition range (a b : Z) : list Z :=
  map (fun i => (a + Z.of_nat i)%Z) (seq 0 (Z.to_nat (b - a))).

(** [c.isspace()] for one character of ASCII text: tab, line feed,
    vertical tab, form feed, carriage return, the four separators 28 to 31
    and the space. *)
Definition is_space (c : ascii) : bool :=
  let n := nat_of_ascii c in
  ((9 <=? n)%nat && (n <=? 13)%nat) || ((28 <=? n)%nat && (n <=? 32)%nat).

(** [s.lstrip()], [s.rstrip()] and [s.strip()]. *)
Fixpoint lstrip (s : string) : string :=
  match s with
  | EmptyString => EmptyString
  | String c s' => if is_space c then lstrip s' else s
  end.

Fixpoint rstrip (s : string) : string :=
  match s with
  | EmptyString => EmptyString
  | String c s' =>
      match rstrip s' with
      | EmptyString => if is_space c then EmptyString else String c EmptyString
      | r => String c r
      end
  end.

Definition strip (s : string) : string := lstrip (rstrip s).

(** [l.remove(x)]: the first occurrence of [x] leaves the list; [None] is
    the [ValueError] for an [x] that is not in the list. *)
Fixpoint list_remove (x : string) (l : list string) : option (list string) :=
  match l with
  | [] => None
  | y :: l' =>
      if String.eqb y x then Some l'
      else match list_remove x l' with
           | Some r => Some (y :: r)
           | None => None
           end
  end.

(** [sub in s] for a text [sub]. *)
Fixpoint contains (sub s : string) : bool :=
  String.prefix sub s
  || match s with
     | EmptyString => false
     | String _ s' => contains sub s'
     end.

(** [s.split()] without a separator: the runs of characters that are not
    white space. *)
Fixpoint split_ws_go (s cur : string) : list string :=
  match s with
  | EmptyString => if truthy_str cur then [cur] else []
  | String c s' =>
      if is_space c
      then (if truthy_str cur then cur :: split_ws_go s' EmptyString
            else split_ws_go s' EmptyString)
      else split_ws_go s' (cur +:+ String c EmptyString)
  end.

Definition split_ws (s : string) : list string := split_ws_go s EmptyString.

(** The value of a decimal digit. *)
Definition digit_value (c : ascii) : option Z :=
  let n := nat_of_ascii c in
  if (48 <=? n)%nat && (n <=? 57)%nat then Some (Z.of_nat (n - 48)) else None.

Fixpoint int_go (acc : Z) (s : string) : option Z :=
  match s with
  | EmptyString => Some acc
  | String c s' =>
      match digit_value c with
      | Some d => int_go (10 * acc + d) s'
      | None => None
      end
  end.

(** [sys.get_int_max_str_digits()], the default of CPython. *)
Definition int_max_str_digits : nat := 4300.

(** [int(s)] on a text of ASCII characters without sign, blank or
    underscore, as the runs of ASCII digits that the pattern [\d+] matches
    are.  [None] is the [ValueError]: it is raised for the empty text, for
    a text with a character that is not a digit, and for a text of more
    than [int_max_str_digits] digits, the leading zeros counted. *)
Definition int (s : string) : option Z :=
  match s with
  | EmptyString => None
  | _ => if (int_max_str_digits <? String.length s)%nat then None else int_go 0 s
  end.

(** [str(z)] for an integer, as an f-string renders it. *)
Definition str_int (z : Z) : string :=
  if (z <? 0)%Z then "-" +:+ dec (Z.to_nat (- z)) else dec (Z.to_nat z).

(** [c in s] for one character [c]. *)
Fixpoint has_char (c : ascii) (s : string) : bool :=
  match s with
  | EmptyString => false
  | String x s' => Ascii.eqb x c || has_char c s'
  end.

End Py.

(** The line feed, written [\n] in the source. *)
Definition nl : string := String (ascii_of_nat 10) EmptyString.

(** ** The message splitter of [SlackNotifier._format_mixed_content_message]

    Python text is a sequence of characters (code points).  The splitter
    only compares characters with the line feed, so the type of characters
    is left open; [newline] is the line feed. *)

Module Chunker.
Section Chunk.

Context {char : Type} `{EqDecision char}.
Variable newline : char.

(** [s.startswith(sub)]. *)
Fixpoint starts_with (sub s : list char) : bool :=
  match sub, s with
  | [], _ => true
  | _ :: _, [] => false
  | a :: sub', b :: s' => bool_decide (a = b) && starts_with sub' s'
  end.

(** The candidates [lo + cnt - 1], ..., [lo], from the highest down. *)
Fixpoint rfind_down (sub s : list char) (lo cnt : nat) : Z :=
  match cnt with
  | O => (-1)%Z
  | S c =>
      if starts_with sub (drop (lo + c) s) then Z.of_nat (lo + c)
      else rfind_down sub s lo c
  end.

(** [s.rfind(sub, start, end)]: the highest index at which [sub] occurs
    inside [s[start:end]], or -1. *)
Definition rfind (sub s : list char) (start end_ : Z) : Z :=
  let n := Py.len s in
  let a := if (start <? 0)%Z then Z.max 0 (start + n) else start in
  let b := Py.clip n end_ in
  if (b - a <? Py.len sub)%Z then (-1)%Z
  else rfind_down sub s (Z.to_nat a) (Z.to_nat (b - a - Py.len sub + 1)).

(** One turn of the [while] loop: [None] when the loop condition
    [len(full_text) > max_size] is false, otherwise the piece that is
    appended to [chunks] and the new value of [full_text]. *)
Definition chunk_step (max_size : Z) (full_text : list char)
  : option (list char * list char) :=
  if (Py.len full_text >? max_size)%Z then
    let split_pos := rfind [newline; newline] full_text 0 max_size in
    let split_pos := if (split_pos =? -1)%Z then max_size else split_pos in
    Some (Py.slice_to split_pos full_text, Py.slice_from split_pos full_text)
  else None.

(** The loop followed by [chunks.append(full_text)].  [fuel] bounds the
    number of turns; [None] means that the loop has not finished within
    [fuel] turns. *)
Fixpoint chunk_loop (fuel : nat) (max_size : Z) (chunks : list (list char))
    (full_text : list char) : option (list (list char)) :=
  match fuel with
  | O => None
  | S fuel' =>
      match chunk_step max_size full_text with
      | Some (piece, rest) => chunk_loop fuel' max_size (chunks ++ [piece]) rest
      | None => Some (chunks ++ [full_text])
      end
  end.

(** [chunks = []] followed by the loop. *)
Definition chunk (fuel : nat) (max_size : Z) (full_text : list char)
  : option (list (list char)) :=
  chunk_loop fuel max_size [] full_text.

(** The source fixes the size to 2500. *)
Definition split_message (fuel : nat) (full_text : list char)
  : option (list (list char)) :=
  chunk fuel 2500 full_text.

(** A blank line (two line feeds in a row) somewhere in the text. *)
Definition has_blank_line (s : list char) : Prop :=
  exists i, starts_with [newline; newline] (drop i s) = true.

End Chunk.

(** *** Sample texts for the examples *)

(** The line feed as a character. *)
Definition newline_char : ascii := ascii_of_nat 10.

(** A paragraph of 3000 letters, longer than one message may be. *)
Definition long_paragraph : list ascii := replicate 3000 "a"%char.

(** A message made of a short title, a blank line and the long
    paragraph. *)
Definition long_message : list ascii :=
  list_ascii_of_string "title" ++ [newline_char; newline_char] ++ long_paragraph.

(** What is left of [long_message] after its title has been cut off. *)
Definition long_message_rest : list ascii :=
  [newline_char; newline_char] ++ long_paragraph.

End Chunker.

(** ** The vocabulary bot, class [VocabBot] *)

Module VocabBot.

(** *** The environment of the bot *)

(** A reading of the clock, as [datetime.now()] returns it. *)
Record DateTime := mkDateTime {
  year : nat; month : nat; day : nat; hour : nat; minute : nat; second : nat
}.

(** The state outside the bot that its methods read or change.
    - [rows]: the rows of the worksheet, the header row first; a row is
      the list of its cells.
    - [faults]: what the next calls of the spreadsheet service do, in
      order: [Some e] is a call that raises an exception with text [e],
      [None] a call that succeeds; calls beyond the list succeed.
    - [rng]: the next raw draws of the random generator; draws beyond
      the list are 0.
    - [clock], [ticks]: [clock n] is what the clock shows when it is read
      for the [n]-th time, [ticks] counts the readings so far. *)
Record World := mkWorld {
  rows : list (list string);
  faults : list (option string);
  rng : list nat;
  clock : nat -> DateTime;
  ticks : nat
}.

Definition set_rows (rs : list (list string)) (w : World) : World :=
  mkWorld rs (faults w) (rng w) (clock w) (ticks w).
Definition set_faults (fs : list (option string)) (w : World) : World :=
  mkWorld (rows w) fs (rng w) (clock w) (ticks w).
Definition set_rng (r : list nat) (w : World) : World :=
  mkWorld (rows w) (faults w) r (clock w) (ticks w).
Definition set_ticks (n : nat) (w : World) : World :=
  mkWorld (rows w) (faults w) (rng w) (clock w) n.

(** The result of a call that may raise: the text of the exception, or
    the value. *)
Definition raises (A : Type) : Type := (string + A)%type.

(** Every call of the spreadsheet service uses up one entry of
    [faults]. *)
Definition api_call (w : World) : option string * World :=
  match faults w with
  | [] => (None, w)
  | f :: fs => (f, set_faults fs w)
  end.

(** [worksheet.col_values(col)]: the cells of column [col], counted from
    1, one per row. *)
Definition col_values (col : nat) (w : World) : raises (list string) * World :=
  match api_call w with
  | (Some e, w') => (inl e, w')
  | (None, w') => (inr (map (fun r => nth (col - 1) r "") (rows w')), w')
  end.

(** [worksheet.get_all_values()]. *)
Definition get_all_values (w : World) : raises (list (list string)) * World :=
  match api_call w with
  | (Some e, w') => (inl e, w')
  | (None, w') => (inr (rows w'), w')
  end.

(** [worksheet.insert_row(values, index)]: the new row becomes row
    [index], counted from 1. *)
Definition insert_row (values : list string) (index : nat) (w : World)
  : raises unit * World :=
  match api_call w with
  | (Some e, w') => (inl e, w')
  | (None, w') =>
      (inr tt,
       set_rows (take (index - 1) (rows w') ++ values :: drop (index - 1) (rows w')) w')
  end.

(** [random.sample]: one draw below [n] from the generator. *)
Definition randbelow (n : nat) (w : World) : nat * World :=
  match rng w with
  | [] => (0, w)
  | r :: rs => (r mod n, set_rng rs w)
  end.

(** [k] draws from [pool]; a drawn element leaves the pool, so that no
    position of the population is drawn twice. *)
Fixpoint draw {A} (k : nat) (pool : list A) (w : World) : list A * World :=
  match k with
  | O => ([], w)
  | S k' =>
      let (j, w1) := randbelow (length pool) w in
      match pool !! j with
      | Some x => let (rest, w2) := draw k' (delete j pool) w1 in (x :: rest, w2)
      | None => ([], w1)
      end
  end.

(** [random.sample(population, k)] of the Python library, after its
    documentation: a list of [k] elements chosen from the population
    without replacement; [ValueError] when [k] is negative or larger than
    the population. *)
Definition random_sample {A} (population : list A) (k : Z) (w : World)
  : raises (list A) * World :=
  if (k <? 0)%Z || (Py.len population <? k)%Z
  then (inl "Sample larger than population or is negative", w)
  else let (selected, w') := draw (Z.to_nat k) population w in (inr selected, w').

(** [datetime.now()]. *)
Definition datetime_now (w : World) : DateTime * World :=
  (clock w (ticks w), set_ticks (S (ticks w)) w).

(** Two digits, as [%m], [%d], [%H] and [%M] print. *)
Definition pad2 (n : nat) : string :=
  if (n <? 10)%nat then "0" +:+ Py.dec n else Py.dec n.

(** [t.strftime('%Y년 %m월 %d일 %H시 %M분')]. *)
Definition strftime (t : DateTime) : string :=
  Py.dec (year t) +:+ "년 " +:+ pad2 (month t) +:+ "월 " +:+ pad2 (day t)
  +:+ "일 " +:+ pad2 (hour t) +:+ "시 " +:+ pad2 (minute t) +:+ "분".

(** *** The word store *)

(** The dictionary that [get_word_definition] returns; a key that is
    absent reads as the default of [word_info.get]. *)
Record word_info := mkWordInfo {
  wi_word : string;
  wi_korean_meaning : string;
  wi_synonyms : list string;
  wi_example : string;
  wi_korean_example : string
}.

(** The [for] loop of [check_duplicate]: it returns at the first cell
    that equals the word when both are in lower case. *)
Fixpoint scan_cells (word_lower : string) (cell_list : list string) : bool :=
  match cell_list with
  | [] => false
  | cell_value :: rest =>
      if String.eqb (Py.lower cell_value) word_lower then true
      else scan_cells word_lower rest
  end.

(** [check_duplicate]: an exception of the spreadsheet call is logged
    and the method returns [False]. *)
Definition check_duplicate (word : string) (w : World) : bool * World :=
  match col_values 1 w with
  | (inl _, w') => (false, w')
  | (inr cell_list, w') => (scan_cells (Py.lower word) cell_list, w')
  end.

(** [add_to_sheet]: [False] for a duplicate and for every exception. *)
Definition add_to_sheet (info : word_info) (w : World) : bool * World :=
  let word := wi_word info in
  let (dup, w1) := check_duplicate word w in
  if dup then (false, w1)
  else
    match col_values 1 w1 with
    | (inl _, w2) => (false, w2)
    | (inr cells, w2) =>
        let next_row := length cells + 1 in
        let synonyms := wi_synonyms info in
        let synonyms_text := if Py.truthy synonyms then Py.join ", " synonyms else "" in
        let row_data := [wi_word info; wi_korean_meaning info; synonyms_text] in
        match insert_row row_data next_row w2 with
        | (inl _, w3) => (false, w3)
        | (inr _, w3) => (true, w3)
        end
    end.

(** ["=" * n]. *)
Fixpoint repeat_str (s : string) (n : nat) : string :=
  match n with
  | O => ""
  | S n' => s +:+ repeat_str s n'
  end.

(** The closing line of the reply, chosen by [save_success]. *)
Definition save_line (save_success : bool) : string :=
  if save_success then "✅ *Google Sheets에 저장 완료!*"
  else "ℹ️ *이미 저장된 단어입니다.*".

(** [format_vocab_response]. *)
Definition format_vocab_response (info : word_info) (save_success : bool) : string :=
  let response := "📚 *" +:+ wi_word info +:+ "*" +:+ nl in
  let response := response +:+ "🇰🇷 *뜻:* " +:+ wi_korean_meaning info +:+ nl in
  let response :=
    if Py.truthy (wi_synonyms info)
    then response +:+ "🔄 *동의어:* " +:+ Py.join ", " (wi_synonyms info) +:+ nl
    else response in
  let response :=
    if Py.truthy_str (wi_example info)
    then
      let response := response +:+ nl +:+ "💬 *예문:*" +:+ nl +:+ "> "
                      +:+ wi_example info +:+ nl in
      if Py.truthy_str (wi_korean_example info)
      then response +:+ "> _" +:+ wi_korean_example info +:+ "_" +:+ nl
      else response
    else response in
  let response := response +:+ nl +:+ repeat_str "=" 30 +:+ nl in
  response +:+ save_line save_success.

(** The entry point of the [@word] command after the definition has
    been fetched: store the word, then build the reply. *)
Definition handle_vocab_query (info : word_info) (w : World) : string * World :=
  let (success, w') := add_to_sheet info w in
  (format_vocab_response info success, w').

(** *** Drawing words *)

(** A word as the exam uses it. *)
Record word_data := mkWord {
  word : string;
  meaning : string;
  synonyms : list string
}.

(** Two words can be compared. *)
#[global] Instance word_data_eq_dec : EqDecision word_data.
Proof. solve_decision. Defined.

(** The body of the loop over [selected_rows]: a row with fewer than
    three cells is passed over. *)
Definition row_to_word (row : list string) : option word_data :=
  if (3 <=? length row)%nat then
    Some {| word := nth 0 row "";
            meaning := nth 1 row "";
            synonyms := if Py.truthy_str (nth 2 row "")
                        then Py.split ", " (nth 2 row "") else [] |}
  else None.

(** [get_random_words]: every exception gives the empty list. *)
Definition get_random_words (count : Z) (w : World) : list word_data * World :=
  match get_all_values w with
  | (inl _, w1) => ([], w1)
  | (inr values, w1) =>
      let all_data := Py.slice_from 1 values in
      let count := if (Py.len all_data <? count)%Z then Py.len all_data else count in
      match random_sample all_data count w1 with
      | (inl _, w2) => ([], w2)
      | (inr selected_rows, w2) => (omap row_to_word selected_rows, w2)
      end
  end.

(** *** The exam *)

(** Adjacent lines of a template, each ended by a line feed. *)
Definition lines (ls : list string) : string :=
  String.concat "" (map (fun l => l +:+ nl) ls).

(** A [for] loop over [enumerate(ws, 1)] that adds [item i w] to the
    document at every turn. *)
Definition numbered {A} (item : nat -> A -> string) (ws : list A) : string :=
  String.concat "" (map (fun iw => item (fst iw) (snd iw)) (Py.enumerate 1 ws)).

(** The five situations of Section 4. *)
Definition contexts : list string :=
  [ "비즈니스 회의에서";
    "친구와의 일상 대화에서";
    "공식적인 이메일에서";
    "카페에서 주문할 때";
    "여행 중 호텔에서" ].

(** The number that the title of the exam gives as the total. *)
Definition exam_title_total (section1_words section2_words synonym_words : list word_data)
  : nat :=
  length section1_words + length section2_words + 5 + 5 + length synonym_words.

(** The title of the exam, down to the rule under it. *)
Definition exam_title (timestamp : string) (total : nat) : string :=
  nl +:+ lines [ "# 영어 실력 향상 시험지";
                 "**생성일시**: " +:+ timestamp;
                 "**총 문항수**: " +:+ Py.dec total +:+ "문제";
                 "";
                 "---";
                 "" ].

(** Sections 1 to 4 of the exam. *)
Definition exam_sections_1_to_4
    (section1_words section2_words composition_words context_words : list word_data)
  : string :=
  lines [ "## Section 1: 영→한 번역 (" +:+ Py.dec (length section1_words) +:+ "문제)";
          "*다음 영어 단어/표현의 한글 뜻을 쓰시오.*";
          "" ]
  +:+ numbered (fun i w =>
        Py.dec i +:+ ". " +:+ word w +:+ nl
        +:+ "   답: ________________________" +:+ nl +:+ nl) section1_words
  +:+ nl
  +:+ lines [ "---";
              "";
              "## Section 2: 한→영 번역 (" +:+ Py.dec (length section2_words) +:+ "문제)";
              "*다음 한글 뜻에 해당하는 영어 단어/표현을 쓰시오.*";
              "" ]
  +:+ numbered (fun i w =>
        Py.dec i +:+ ". " +:+ meaning w +:+ nl
        +:+ "   답: ________________________" +:+ nl +:+ nl) section2_words
  +:+ nl
  +:+ lines [ "---";
              "";
              "## Section 3: 영어 작문 (5문제)";
              "*제시된 단어를 활용하여 영어 문장을 만드시오.*";
              "" ]
  +:+ numbered (fun i w =>
        Py.dec i +:+ ". 제시어: **" +:+ word w +:+ "**" +:+ nl
        +:+ "   문장: ________________________________________________" +:+ nl +:+ nl)
        (Py.slice_to 5 composition_words)
  +:+ nl
  +:+ lines [ "---";
              "";
              "## Section 4: 문맥 번역 (5문제)";
              "*다음 상황에서 제시된 단어를 사용하여 적절한 영어 표현을 쓰시오.*";
              "" ]
  +:+ numbered (fun i (wc : word_data * string) =>
        Py.dec i +:+ ". 상황: " +:+ snd wc +:+ nl
        +:+ "   단어: **" +:+ word (fst wc) +:+ "**" +:+ nl
        +:+ "   표현: ________________________________________________" +:+ nl +:+ nl)
        (zip (Py.slice_to 5 context_words) contexts).

(** The heading of Section 5 of the exam, from the rule above it. *)
Definition exam_section5_heading (n : nat) : string :=
  nl +:+ lines [ "---";
                 "";
                 "## Section 5: 동의어 선택 (" +:+ Py.dec n +:+ "문제)";
                 "*다음 단어의 동의어를 모두 쓰시오.*";
                 "" ].

(** The questions of Section 5. *)
Definition exam_section5_items (synonym_words : list word_data) : string :=
  numbered (fun i w =>
    Py.dec i +:+ ". **" +:+ word w +:+ "**의 동의어 (최소 2개):" +:+ nl
    +:+ "   답: ________________________________________________" +:+ nl +:+ nl)
    synonym_words.

(** What [if synonym_words:] adds to the exam. *)
Definition exam_section5 (synonym_words : list word_data) : string :=
  if Py.truthy synonym_words
  then exam_section5_heading (length synonym_words) +:+ exam_section5_items synonym_words
  else "".

(** The text of the exam for a given printed time. *)
Definition exam_text (timestamp : string)
    (section1_words section2_words composition_words context_words synonym_words
      : list word_data) : string :=
  exam_title timestamp (exam_title_total section1_words section2_words synonym_words)
  +:+ exam_sections_1_to_4 section1_words section2_words composition_words context_words
  +:+ exam_section5 synonym_words.

(** [create_exam_content]: the clock is read while the title is
    formatted. *)
Definition create_exam_content
    (section1_words section2_words composition_words context_words synonym_words
      : list word_data) (w : World) : string * World :=
  let (now, w') := datetime_now w in
  (exam_text (strftime now) section1_words section2_words composition_words
     context_words synonym_words, w').

(** The title of the answer key. *)
Definition answer_title (timestamp : string) : string :=
  nl +:+ lines [ "# 영어 실력 향상 시험지 - 정답";
                 "**생성일시**: " +:+ timestamp;
                 "";
                 "---";
                 "" ].

(** Section 5 of the answer key. *)
Definition answer_section5 (synonym_words : list word_data) : string :=
  if Py.truthy synonym_words
  then nl +:+ lines [ "---"; ""; "## Section 5: 동의어 정답"; "" ]
       +:+ numbered (fun i w =>
             let synonyms_text := Py.join ", " (synonyms w) in
             Py.dec i +:+ ". " +:+ word w +:+ ": **" +:+ synonyms_text +:+ "**" +:+ nl)
             synonym_words
  else "".

(** The text of the answer key for a given printed time. *)
Definition answer_text (timestamp : string)
    (section1_words section2_words composition_words context_words synonym_words
      : list word_data) : string :=
  answer_title timestamp
  +:+ lines [ "## Section 1: 영→한 번역 정답"; "" ]
  +:+ numbered (fun i w =>
        Py.dec i +:+ ". " +:+ word w +:+ " → **" +:+ meaning w +:+ "**" +:+ nl)
        section1_words
  +:+ nl +:+ lines [ "---"; ""; "## Section 2: 한→영 번역 정답"; "" ]
  +:+ numbered (fun i w =>
        Py.dec i +:+ ". " +:+ meaning w +:+ " → **" +:+ word w +:+ "**" +:+ nl)
        section2_words
  +:+ nl +:+ lines [ "---"; ""; "## Section 3: 영어 작문 예시 답안"; "" ]
  +:+ numbered (fun i w =>
        Py.dec i +:+ ". " +:+ word w +:+ ": (예시) This example shows how to use "
        +:+ word w +:+ " correctly." +:+ nl)
        (Py.slice_to 5 composition_words)
  +:+ nl +:+ lines [ "---"; ""; "## Section 4: 문맥 번역 예시 답안"; "" ]
  +:+ numbered (fun i (wc : word_data * string) =>
        Py.dec i +:+ ". " +:+ snd wc +:+ " - " +:+ word (fst wc)
        +:+ ": (상황에 맞는 표현 사용)" +:+ nl)
        (zip (Py.slice_to 5 context_words) contexts)
  +:+ answer_section5 synonym_words.

(** [create_answer_content]: it reads the clock on its own. *)
Definition create_answer_content
    (section1_words section2_words composition_words context_words synonym_words
      : list word_data) (w : World) : string * World :=
  let (now, w') := datetime_now w in
  (answer_text (strftime now) section1_words section2_words composition_words
     context_words synonym_words, w').

(** The five lists that [generate_exam] hands to the two renderers. *)
Record allocation := mkAllocation {
  section1_words : list word_data;
  section2_words : list word_data;
  composition_words : list word_data;
  context_words : list word_data;
  synonym_words : list word_data
}.

(** The distribution of the drawn words, the part of [generate_exam]
    between the size check and the rendering. *)
Definition distribute
    (total_count section1_count section2_count section3_count section4_count
       section5_count : Z) (words : list word_data) : allocation :=
  let section1_words := Py.slice_to section1_count words in
  let section2_words :=
    if (total_count >=? 30)%Z then Py.slice_between section1_count total_count words
    else Py.slice_from section1_count words in
  let section2_words :=
    if (Py.len section2_words <? section2_count)%Z
    then section2_words ++ Py.slice_to (section2_count - Py.len section2_words) words
    else section2_words in
  let section2_words := Py.slice_to section2_count section2_words in
  let composition_words := Py.slice_to section3_count (section1_words ++ section2_words) in
  let context_words :=
    Py.slice_between section3_count (section3_count + section4_count)
      (section1_words ++ section2_words) in
  let synonym_words :=
    Py.slice_to section5_count
      (filter (fun w => Py.truthy (synonyms w)) (section1_words ++ section2_words)) in
  mkAllocation section1_words section2_words composition_words context_words
    synonym_words.

(** The dictionary that [generate_exam] returns when it succeeds. *)
Record exam := mkExam {
  exam_content : string;
  answer_content : string;
  section1_count : Z;
  section2_count : Z;
  section3_count : Z;
  section4_count : Z;
  section5_count : Z;
  total_questions : Z
}.

(** The result of [generate_exam]: ['success': True] with the exam, or
    ['success': False] with the text of the error. *)
Inductive exam_result :=
| Success (e : exam)
| Failure (error : string).

(** The text of the error for too few words. *)
Definition insufficient_words (available : nat) : string :=
  "저장된 단어가 부족합니다. (현재: " +:+ Py.dec available +:+ "개, 최소: 10개 필요)".

(** The two rendering calls of [generate_exam], in the order of the
    source: the exam first, then the answer key. *)
Definition render_documents (a : allocation) (w : World) : (string * string) * World :=
  let (exam_content, w1) :=
    create_exam_content (section1_words a) (section2_words a) (composition_words a)
      (context_words a) (synonym_words a) w in
  let (answer_content, w2) :=
    create_answer_content (section1_words a) (section2_words a) (composition_words a)
      (context_words a) (synonym_words a) w1 in
  ((exam_content, answer_content), w2).

(** [generate_exam] once the words are drawn. *)
Definition generate_exam_from (words : list word_data)
    (total_count s1 s2 s3 s4 s5 : Z) (w : World) : exam_result * World :=
  if (Py.len words <? 10)%Z then (Failure (insufficient_words (length words)), w)
  else
    let a := distribute total_count s1 s2 s3 s4 s5 words in
    let (documents, w') := render_documents a w in
    (Success {| exam_content := fst documents;
                answer_content := snd documents;
                section1_count := s1;
                section2_count := s2;
                section3_count := s3;
                section4_count := s4;
                section5_count := Py.len (synonym_words a);
                total_questions := (s1 + s2 + s3 + s4 + Py.len (synonym_words a))%Z |},
     w').

(** [generate_exam]. *)
Definition generate_exam (total_count s1 s2 s3 s4 s5 : Z) (w : World)
  : exam_result * World :=
  let (words, w1) := get_random_words total_count w in
  generate_exam_from words total_count s1 s2 s3 s4 s5 w1.

(** The answer key down to the end of Section 4. *)
Definition answer_sections_1_to_4 (timestamp : string)
    (section1_words section2_words composition_words context_words : list word_data)
  : string :=
  answer_title timestamp
  +:+ lines [ "## Section 1: 영→한 번역 정답"; "" ]
  +:+ numbered (fun i w =>
        Py.dec i +:+ ". " +:+ word w +:+ " → **" +:+ meaning w +:+ "**" +:+ nl)
        section1_words
  +:+ nl +:+ lines [ "---"; ""; "## Section 2: 한→영 번역 정답"; "" ]
  +:+ numbered (fun i w =>
        Py.dec i +:+ ". " +:+ meaning w +:+ " → **" +:+ word w +:+ "**" +:+ nl)
        section2_words
  +:+ nl +:+ lines [ "---"; ""; "## Section 3: 영어 작문 예시 답안"; "" ]
  +:+ numbered (fun i w =>
        Py.dec i +:+ ". " +:+ word w +:+ ": (예시) This example shows how to use "
        +:+ word w +:+ " correctly." +:+ nl)
        (Py.slice_to 5 composition_words)
  +:+ nl +:+ lines [ "---"; ""; "## Section 4: 문맥 번역 예시 답안"; "" ]
  +:+ numbered (fun i (wc : word_data * string) =>
        Py.dec i +:+ ". " +:+ snd wc +:+ " - " +:+ word (fst wc)
        +:+ ": (상황에 맞는 표현 사용)" +:+ nl)
        (zip (Py.slice_to 5 context_words) contexts).

(** *** Sample data for the examples *)

(** A word numbered [i], with one synonym. *)
Definition sample_word (i : nat) : word_data :=
  {| word := "word" +:+ Py.dec i;
     meaning := "뜻" +:+ Py.dec i;
     synonyms := ["syn" +:+ Py.dec i] |}.

(** [n] words, numbered from 0. *)
Definition sample_words (n : nat) : list word_data := map sample_word (seq 0 n).

(** The worksheet row of a word. *)
Definition sample_row (i : nat) : list string :=
  ["word" +:+ Py.dec i; "뜻" +:+ Py.dec i; "syn" +:+ Py.dec i].

(** A worksheet with a header and [n] words. *)
Definition sample_sheet (n : nat) : list (list string) :=
  ["word"; "meaning"; "synonyms"] :: map sample_row (seq 0 n).

(** A clock that stands still. *)
Definition frozen_clock (n : nat) : DateTime := mkDateTime 2024 3 5 7 9 0.

(** A clock that is one minute further at every reading. *)
Definition minute_clock (n : nat) : DateTime := mkDateTime 2024 3 5 7 n 0.

(** A world in which every call of the spreadsheet service succeeds. *)
Definition calm_world (sheet : list (list string)) : World :=
  mkWorld sheet [] [] frozen_clock 0.

(** A world in which the next call of the spreadsheet service raises. *)
Definition faulty_world (sheet : list (list string)) : World :=
  mkWorld sheet [Some "APIError"] [] frozen_clock 0.

End VocabBot.

(** ** The article processor, class [AIArticleProcessor] *)

Module Processor.

(** The article as [process_article] takes it from ['article']: the keys
    that the processor reads, ['content']['paragraphs'] among them; a key
    that is absent reads as the default of [get]. *)
Record article := mkArticle {
  title : string;
  topic : string;
  published : string;
  link : string;
  paragraphs : list string
}.

(** The state outside the processor.
    - [answers]: what the next calls of the language model return, in
      order: [Some text] is the text of the response, [None] a call that
      raises; calls beyond the list raise.
    - [clock], [ticks]: as for the vocabulary bot. *)
Record World := mkWorld {
  answers : list (option string);
  clock : nat -> VocabBot.DateTime;
  ticks : nat
}.

(** [self.client.messages.create(...)] followed by
    [response.content[0].text]; the prompt is not part of the model. *)
Definition messages_create (w : World) : option string * World :=
  match answers w with
  | [] => (None, w)
  | r :: rs => (r, mkWorld rs (clock w) (ticks w))
  end.

(** [datetime.now()]. *)
Definition datetime_now (w : World) : VocabBot.DateTime * World :=
  (clock w (ticks w), mkWorld (answers w) (clock w) (S (ticks w))).

(** [_select_translation_paragraphs]. *)
Definition _select_translation_paragraphs (paragraphs : list string) (count : Z)
  : list Z :=
  let total := Py.len paragraphs in
  if (total <=? count)%Z then Py.range 0 total
  else Py.range (total - count) total.

(** [_translate_to_korean]: the stripped text of the response, or the
    original text when the call raises. *)
Definition _translate_to_korean (text context : string) (w : World) : string * World :=
  match messages_create w with
  | (Some response, w') => (Py.strip response, w')
  | (None, w') => (text, w')
  end.

(** An entry of ['paragraphs'] in the mixed content. *)
Record mixed_paragraph := mkMixedParagraph {
  paragraph_number : Z;
  type : string;
  content : string
}.

(** The loop of [_create_mixed_content] over [enumerate(paragraphs)]. *)
Fixpoint mixed_loop (items : list (nat * string)) (translation_indices : list Z)
    (context : string) (w : World) : list mixed_paragraph * World :=
  match items with
  | [] => ([], w)
  | (i, paragraph) :: rest =>
      if bool_decide (Z.of_nat i ∈ translation_indices) then
        let (korean_text, w1) := _translate_to_korean paragraph context w in
        let (more, w2) := mixed_loop rest translation_indices context w1 in
        (mkMixedParagraph (Z.of_nat i + 1) "korean" korean_text :: more, w2)
      else
        let (more, w2) := mixed_loop rest translation_indices context w in
        (mkMixedParagraph (Z.of_nat i + 1) "english" paragraph :: more, w2)
  end.

(** ['content_structure']. *)
Record content_structure := mkStructure {
  total_paragraphs : Z;
  english_paragraphs : Z;
  korean_paragraphs : Z;
  translation_indices : list Z
}.

(** The dictionary that [_create_mixed_content] returns;
    ['processing_date'] is kept as the reading of the clock of which the
    source stores the ISO text. *)
Record mixed_content := mkMixedContent {
  mc_title : string;
  mc_source : string;
  mc_topic : string;
  mc_published_date : string;
  mc_processing_date : VocabBot.DateTime;
  mc_content_structure : content_structure;
  mc_paragraphs : list mixed_paragraph;
  mc_reading_instruction : string
}.

(** [_create_mixed_content]. *)
Definition _create_mixed_content (paragraphs : list string)
    (translation_indices : list Z) (a : article) (w : World) : mixed_content * World :=
  let (mixed_paragraphs, w1) :=
    mixed_loop (Py.enumerate 0 paragraphs) translation_indices (topic a) w in
  let korean_indices := map (fun i => (i + 1)%Z) translation_indices in
  let (now, w2) := datetime_now w1 in
  ({| mc_title := title a;
      mc_source := "New York Times";
      mc_topic := topic a;
      mc_published_date := published a;
      mc_processing_date := now;
      mc_content_structure :=
        {| total_paragraphs := Py.len mixed_paragraphs;
           english_paragraphs := (Py.len paragraphs - Py.len translation_indices)%Z;
           korean_paragraphs := Py.len translation_indices;
           translation_indices := korean_indices |};
      mc_paragraphs := mixed_paragraphs;
      mc_reading_instruction :=
        "영어 문단은 이해하며 읽고, 한글 문단은 영어로 번역해보세요." |},
   w2).

(** The paragraphs of a given type. *)
Definition of_type (t : string) (ps : list mixed_paragraph) : list mixed_paragraph :=
  filter (fun p => type p = t) ps.

End Processor.

(** ** The daily topic and the daily pipeline *)

Module Pipeline.

(** The three topics of [get_daily_topic] and [run_daily_pipeline]. *)
Definition topics : list string := ["medical"; "politics"; "technology"].

(** Leap years of the calendar. *)
Definition is_leap (y : nat) : bool :=
  ((y mod 4 =? 0)%nat && negb (y mod 100 =? 0)%nat) || (y mod 400 =? 0)%nat.

(** The lengths of the twelve months. *)
Definition month_lengths (y : nat) : list nat :=
  [31; if is_leap y then 29 else 28; 31; 30; 31; 30; 31; 31; 30; 31; 30; 31].

(** [t.timetuple().tm_yday]: the day of the year, 1 for the first of
    January. *)
Definition tm_yday (t : VocabBot.DateTime) : nat :=
  sum_list (take (VocabBot.month t - 1) (month_lengths (VocabBot.year t)))
  + VocabBot.day t.

(** [get_daily_topic]; [now] is the reading of the clock and [force_env]
    the environment variable [FORCE_TOPIC], [None] when it is not set. *)
Definition get_daily_topic (now : VocabBot.DateTime) (force_env : option string)
  : string :=
  let day_of_year := tm_yday now in
  let topic := nth (day_of_year mod 3) topics "" in
  let force_topic := Py.lower (default "" force_env) in
  if bool_decide (force_topic ∈ topics) then force_topic else topic.

Section Run.

(** The parts of the pipeline that reach outside: the article, the two
    kinds of material, and the three components.  [run_daily_pipeline]
    asks each topic at most once, processes one article and sends once, so
    that a function stands for each component. *)
Variables (Article Mixed Commentary : Type).

(** The result of [process_article]. *)
Record processed := mkProcessed {
  article_title : string;
  mixed_content_file : string;
  commentary_file : string;
  mixed_content_data : Mixed;
  commentary_data : Commentary
}.

Inductive ai_result :=
| Processed (r : processed)
| NotProcessed (error : string).

(** The result of [send_daily_materials]. *)
Record slack_result := mkSlackResult {
  mixed_content_sent : bool;
  commentary_sent : bool;
  errors : list string
}.

(** The result of [run_daily_pipeline]. *)
Record report := mkReport {
  topic : string;
  report_title : string;
  slack_sent : bool;
  files : string * string
}.

Inductive pipeline_result :=
| Done (r : report)
| Failed (error : string).

Variable extract_articles : string -> list Article.
Variable process_article : Article -> ai_result.
Variable send_daily_materials : Mixed -> Commentary -> slack_result.

(** The loop over the topics: it stops at the first topic that has
    articles; [articles] keeps the last answer. *)
Fixpoint search (topics : list string) (articles : list Article) : list Article :=
  match topics with
  | [] => articles
  | topic :: rest =>
      let articles := extract_articles topic in
      if Py.truthy articles then articles else search rest articles
  end.

(** The topics in the order in which the pipeline asks them; [None] is the
    [ValueError] of [topics.remove]. *)
Definition ordered_topics (daily_topic : string) : option (list string) :=
  match Py.list_remove daily_topic topics with
  | Some rest => Some (daily_topic :: rest)
  | None => None
  end.

(** [run_daily_pipeline]. *)
Definition run_daily_pipeline (now : VocabBot.DateTime) (force_env : option string)
  : pipeline_result :=
  let daily_topic := get_daily_topic now force_env in
  match ordered_topics daily_topic with
  | None => Failed "list.remove(x): x not in list"
  | Some topics =>
      match search topics [] with
      | [] => Failed "Phase 2: 기사 추출 실패"
      | first :: _ =>
          match process_article first with
          | NotProcessed error => Failed ("Phase 3: " +:+ error)
          | Processed ai =>
              let slack := send_daily_materials (mixed_content_data ai)
                             (commentary_data ai) in
              Done {| topic := daily_topic;
                      report_title := article_title ai;
                      slack_sent := mixed_content_sent slack && commentary_sent slack;
                      files := (mixed_content_file ai, commentary_file ai) |}
          end
      end
  end.

End Run.

End Pipeline.

(** ** The commands of the bot, [VocabBot.register_handlers] *)

Module Handlers.

(** What a handler does to the outside: a message said in the channel, a
    file written to the working directory, a file handed to Slack, a file
    removed. *)
Inductive event :=
| Say (text : string)
| WriteFile (filename content : string)
| Upload (channel filename content title initial_comment : string)
| RemoveFile (filename : string).

(** [t.strftime('%Y%m%d_%H%M%S')]. *)
Definition strftime_compact (t : VocabBot.DateTime) : string :=
  Py.dec (VocabBot.year t) +:+ VocabBot.pad2 (VocabBot.month t)
  +:+ VocabBot.pad2 (VocabBot.day t) +:+ "_" +:+ VocabBot.pad2 (VocabBot.hour t)
  +:+ VocabBot.pad2 (VocabBot.minute t) +:+ VocabBot.pad2 (VocabBot.second t).

(** The statements of a [try] block that call the file system or Slack,
    run in order.  [outcomes] tells what these calls do, in order: [Some e]
    is a call that raises an exception with text [e], [None] a call that
    succeeds; calls beyond the list succeed.  The first call that raises
    ends the block, and the [except] clause of [upload_exam_files] logs the
    exception and lets the method return; the result is what has been done
    until then. *)
Fixpoint try_steps (steps : list event) (outcomes : list (option string))
  : list event :=
  match steps with
  | [] => []
  | step :: steps' =>
      match outcomes with
      | Some _ :: _ => []
      | None :: outcomes' => step :: try_steps steps' outcomes'
      | [] => step :: try_steps steps' []
      end
  end.

(** The six calls of [upload_exam_files]: the two files are written,
    handed to Slack and removed. *)
Definition upload_steps (channel_id exam_filename answer_filename : string)
    (e : VocabBot.exam) : list event :=
  [ WriteFile exam_filename (VocabBot.exam_content e);
    WriteFile answer_filename (VocabBot.answer_content e);
    Upload channel_id exam_filename (VocabBot.exam_content e) "영어 시험지"
      "📝 생성된 영어 시험지입니다.";
    Upload channel_id answer_filename (VocabBot.answer_content e) "영어 시험지 답지"
      "✅ 시험지 정답입니다.";
    RemoveFile exam_filename;
    RemoveFile answer_filename ].

(** [upload_exam_files]: the clock is read for the names of the two files;
    the method returns nothing, whether a call raised or not. *)
Definition upload_exam_files (e : VocabBot.exam) (channel_id : string)
    (outcomes : list (option string)) (w : VocabBot.World)
  : list event * VocabBot.World :=
  let (now, w') := VocabBot.datetime_now w in
  let timestamp := strftime_compact now in
  let exam_filename := "영어시험지_" +:+ timestamp +:+ ".txt" in
  let answer_filename := "영어시험지_답지_" +:+ timestamp +:+ ".txt" in
  (try_steps (upload_steps channel_id exam_filename answer_filename e) outcomes, w').

(** [int(group) if group else default] for a group of the pattern; a group
    that did not take part in the match is [None]. *)
Definition int_or (group : option string) (default : Z) : option Z :=
  match group with
  | Some text => if Py.truthy_str text then Py.int text else Some default
  | None => Some default
  end.

(** The six numbers of the command; [None] is the [ValueError]. *)
Definition parse_counts (m0 m1 m2 m3 m4 m5 : option string)
  : option (Z * Z * Z * Z * Z * Z) :=
  match int_or m0 30, int_or m1 15, int_or m2 15, int_or m3 5, int_or m4 5,
        int_or m5 10 with
  | Some total_count, Some s1, Some s2, Some s3, Some s4, Some s5 =>
      Some (total_count, s1, s2, s3, s4, s5)
  | _, _, _, _, _, _ => None
  end.

(** The message that tells the composition of the exam. *)
Definition result_message (e : VocabBot.exam) : string :=
  nl +:+ VocabBot.lines
    [ "📄 **시험지 생성 완료!**";
      "";
      "📊 **구성:**";
      "• Section 1: 영→한 번역 (" +:+ Py.str_int (VocabBot.section1_count e) +:+ "문제)";
      "• Section 2: 한→영 번역 (" +:+ Py.str_int (VocabBot.section2_count e) +:+ "문제)";
      "• Section 3: 영어 작문 (" +:+ Py.str_int (VocabBot.section3_count e) +:+ "문제)";
      "• Section 4: 문맥 번역 (" +:+ Py.str_int (VocabBot.section4_count e) +:+ "문제)";
      "• Section 5: 동의어 선택 (" +:+ Py.str_int (VocabBot.section5_count e) +:+ "문제)";
      "";
      "**총 " +:+ Py.str_int (VocabBot.total_questions e) +:+ "문제**";
      "";
      "✅ 시험지와 답지가 별도 파일로 생성되었습니다." ]
  +:+ "                    ".

(** The handler once the numbers are read and the total is in range;
    [outcomes] is what the calls of [upload_exam_files] do. *)
Definition generate_and_reply (total_count s1 s2 s3 s4 s5 : Z) (channel : string)
    (outcomes : list (option string)) (w : VocabBot.World)
  : list event * VocabBot.World :=
  let progress :=
    Say ("📝 " +:+ Py.str_int total_count
         +:+ "문제 시험지 생성 중... 잠시만 기다려주세요.") in
  match VocabBot.generate_exam total_count s1 s2 s3 s4 s5 w with
  | (VocabBot.Success e, w1) =>
      let (uploads, w2) := upload_exam_files e channel outcomes w1 in
      (progress :: uploads ++ [Say (result_message e)], w2)
  | (VocabBot.Failure error, w1) =>
      ([progress; Say ("❌ 시험지 생성 실패: " +:+ error)], w1)
  end.

(** [handle_exam_generation]; [m0] to [m5] are the groups of the pattern,
    [channel] is [message['channel']], [outcomes] is what the calls of
    [upload_exam_files] do. *)
Definition handle_exam_generation (m0 m1 m2 m3 m4 m5 : option string)
    (channel : string) (outcomes : list (option string)) (w : VocabBot.World)
  : list event * VocabBot.World :=
  match parse_counts m0 m1 m2 m3 m4 m5 with
  | None => ([Say "❌ 올바른 숫자를 입력해주세요. 예: 시험지 30"], w)
  | Some (total_count, s1, s2, s3, s4, s5) =>
      if (total_count <? 10)%Z || (total_count >? 100)%Z
      then ([Say "❌ 문제 수는 10~100개 사이로 입력해주세요. 예: 시험지 30"], w)
      else generate_and_reply total_count s1 s2 s3 s4 s5 channel outcomes w
  end.

(** A run of the digits 0 to 9 that is not empty.  The pattern [\d+]
    matches such a run; it also matches the decimal digits of other
    scripts, which are not ASCII text. *)
Definition is_digits (s : string) : Prop :=
  s <> "" /\ forall c, Py.has_char c s = true -> Py.digit_value c <> None.

End Handlers.

(** ** Sending to Slack, [SlackNotifier.send_daily_materials] *)

Module Notifier.

(** What a call of [chat_postMessage] does: it posts the message, raises
    [SlackApiError] or raises another exception. *)
Inductive outcome :=
| Posted
| SlackApiError (e : string)
| OtherError (e : string).

(** The Slack channel: the outcomes of the next calls, in order (calls
    beyond the list post), and the messages posted so far. *)
Record Slack := mkSlack {
  outcomes : list outcome;
  delivered : list string
}.

(** [self.client.chat_postMessage(channel=..., **message)]; a message is
    given by its text. *)
Definition chat_postMessage (text : string) (s : Slack) : outcome * Slack :=
  match outcomes s with
  | [] => (Posted, mkSlack [] (delivered s ++ [text]))
  | Posted :: rest => (Posted, mkSlack rest (delivered s ++ [text]))
  | failure :: rest => (failure, mkSlack rest (delivered s))
  end.

(** The loop [for message in mixed_messages]: it ends at the first call
    that raises. *)
Fixpoint post_all (messages : list string) (s : Slack) : outcome * Slack :=
  match messages with
  | [] => (Posted, s)
  | message :: rest =>
      match chat_postMessage message s with
      | (Posted, s') => post_all rest s'
      | (failure, s') => (failure, s')
      end
  end.

(** [send_daily_materials]; [mixed_messages] and [commentary_message] are
    the texts of what the two formatting methods returned. *)
Definition send_daily_materials (mixed_messages : list string)
    (commentary_message : string) (s : Slack) : Pipeline.slack_result * Slack :=
  match post_all mixed_messages s with
  | (OtherError e, s1) => (Pipeline.mkSlackResult false false [e], s1)
  | (first, s1) =>
      let mixed_sent := match first with Posted => true | _ => false end in
      let errors :=
        match first with
        | SlackApiError e => ["혼합 콘텐츠 전송 실패: " +:+ e]
        | _ => []
        end in
      match chat_postMessage commentary_message s1 with
      | (Posted, s2) => (Pipeline.mkSlackResult mixed_sent true errors, s2)
      | (SlackApiError e, s2) =>
          (Pipeline.mkSlackResult mixed_sent false
             (errors ++ ["해설 자료 전송 실패: " +:+ e]), s2)
      | (OtherError e, s2) => (Pipeline.mkSlackResult false false [e], s2)
      end
  end.


End Notifier.

(** ** The article extractor, class [NYTimesArticleExtractor] *)

Module Extractor.

(** An entry of [data["response"]["docs"]]: the keys that the extractor
    reads; ['web_url'] may be absent. *)
Record entry := mkEntry {
  web_url : option string;
  headline_main : string;
  pub_date : string
}.

(** The web as the extractor sees it.
    - [search]: the answer of the article search for a topic, [None] when
      the request raises and otherwise the list of ['docs'], empty when
      there is none.
    - [page]: the texts of the paragraphs of the article body at an
      address, [None] when the page cannot be read or has no article
      body. *)
Record Web := mkWeb {
  search : string -> option (list entry);
  page : string -> option (list string)
}.

(** [_get_full_article_text]. *)
Definition _get_full_article_text (web : Web) (url : string) : string :=
  if Py.contains "/interactive/" url || Py.contains "/learning/" url then ""
  else match page web url with
       | Some texts => Py.join (nl +:+ nl) texts
       | None => ""
       end.

(** [[p.strip() for p in full_content.split('\n\n') if p.strip()]]. *)
Definition split_paragraphs (full_content : string) : list string :=
  map Py.strip
    (filter (fun p => Py.truthy_str (Py.strip p)) (Py.split (nl +:+ nl) full_content)).

(** ['content'] of an article. *)
Record content := mkContent {
  paragraphs : list string;
  total_paragraphs : Z;
  word_count : Z
}.

Record article := mkArticle {
  title : string;
  link : string;
  topic : string;
  published : string;
  quality_score : Z;
  article_content : content
}.

(** What [extract_articles] returns for an article. *)
Record article_data := mkArticleData {
  selected_date : string;
  daily_topic : string;
  the_article : article
}.

(** [t.strftime("%Y-%m-%d")]. *)
Definition strftime_date (t : VocabBot.DateTime) : string :=
  Py.dec (VocabBot.year t) +:+ "-" +:+ VocabBot.pad2 (VocabBot.month t)
  +:+ "-" +:+ VocabBot.pad2 (VocabBot.day t).

(** The body of the loop over the entries: the article of an entry that
    has an address, a text and the required size, [None] for an entry that
    is passed over. *)
Definition article_of_entry (web : Web) (now : VocabBot.DateTime) (topic : string)
    (e : entry) : option article_data :=
  match web_url e with
  | None => None
  | Some article_url =>
      if negb (Py.truthy_str article_url) then None
      else
        let full_content := _get_full_article_text web article_url in
        if negb (Py.truthy_str full_content) then None
        else
          let paragraphs := split_paragraphs full_content in
          let word_count := Py.len (Py.split_ws full_content) in
          if (Py.len paragraphs >=? 4)%Z && (word_count >=? 500)%Z then
            Some {| selected_date := strftime_date now;
                    daily_topic := topic;
                    the_article :=
                      {| title := headline_main e;
                         link := article_url;
                         topic := topic;
                         published := pub_date e;
                         quality_score := 100;
                         article_content :=
                           {| paragraphs := paragraphs;
                              total_paragraphs := Py.len paragraphs;
                              word_count := word_count |} |} |}
          else None
  end.

(** The loop over the entries: it returns at the first article. *)
Fixpoint first_article (web : Web) (now : VocabBot.DateTime) (topic : string)
    (entries : list entry) : list article_data :=
  match entries with
  | [] => []
  | e :: rest =>
      match article_of_entry web now topic e with
      | Some a => [a]
      | None => first_article web now topic rest
      end
  end.

(** [extract_articles]; [api_key] is [self.api_key], [now] the reading of
    the clock. *)
Definition extract_articles (api_key : option string) (web : Web)
    (now : VocabBot.DateTime) (topic : string) : list article_data :=
  match api_key with
  | None => []
  | Some key =>
      if negb (Py.truthy_str key) then []
      else match search web topic with
           | None => []
           | Some docs => first_article web now topic docs
           end
  end.

End Extractor.

(** * Properties *)

(** ** Slices *)

Section SliceFacts.
Context {A : Type}.
Implicit Types (l : list A) (n a b : Z).

Lemma clip_range l n : (0 <= Py.clip (Py.len l) n <= Py.len l)%Z.
Proof. unfold Py.clip, Py.len. destruct (Z.ltb_spec n 0); lia. Qed.

Lemma clip_nonneg l n : (0 <= n)%Z -> Py.clip (Py.len l) n = Z.min n (Py.len l).
Proof. unfold Py.clip. destruct (Z.ltb_spec n 0); [lia | done]. Qed.

Lemma slice_to_clip l n : Py.slice_to n l = take (Z.to_nat (Py.clip (Py.len l) n)) l.
Proof. unfold Py.slice_to, Py.slice. by rewrite Z.sub_0_r. Qed.

Lemma slice_from_clip l n : Py.slice_from n l = drop (Z.to_nat (Py.clip (Py.len l) n)) l.
Proof.
  unfold Py.slice_from, Py.slice. apply take_ge.
  rewrite length_drop. pose proof (clip_range l n). unfold Py.len in *. lia.
Qed.

Lemma slice_to_nonneg l n : (0 <= n)%Z -> Py.slice_to n l = take (Z.to_nat n) l.
Proof.
  intros Hn. rewrite slice_to_clip, clip_nonneg by done. unfold Py.len.
  destruct (Z.le_gt_cases n (Z.of_nat (length l))).
  - by rewrite Z.min_l.
  - rewrite Z.min_r, Nat2Z.id by lia. rewrite !take_ge; [done | lia..].
Qed.

Lemma slice_from_nonneg l n : (0 <= n)%Z -> Py.slice_from n l = drop (Z.to_nat n) l.
Proof.
  intros Hn. rewrite slice_from_clip, clip_nonneg by done. unfold Py.len.
  destruct (Z.le_gt_cases n (Z.of_nat (length l))).
  - by rewrite Z.min_l.
  - rewrite Z.min_r, Nat2Z.id by lia. rewrite !drop_ge; [done | lia..].
Qed.

Lemma slice_between_nonneg l a b :
  (0 <= a)%Z -> (0 <= b)%Z ->
  Py.slice_between a b l = take (Z.to_nat b - Z.to_nat a) (drop (Z.to_nat a) l).
Proof.
  intros Ha Hb. unfold Py.slice_between, Py.slice.
  rewrite !clip_nonneg by done. unfold Py.len.
  destruct (Z.le_gt_cases a (Z.of_nat (length l))).
  - rewrite (Z.min_l a) by lia.
    destruct (Z.le_gt_cases b (Z.of_nat (length l))).
    + rewrite Z.min_l by lia. f_equal. lia.
    + rewrite Z.min_r by lia. rewrite !take_ge; [done | rewrite length_drop; lia..].
  - rewrite (Z.min_r a), Nat2Z.id by lia. rewrite !drop_ge by lia. by rewrite !take_nil.
Qed.

Lemma slice_to_from l n : Py.slice_to n l ++ Py.slice_from n l = l.
Proof. rewrite slice_to_clip, slice_from_clip. apply take_drop. Qed.

Lemma slice_to_length l n :
  (0 <= n)%Z -> length (Py.slice_to n l) = Nat.min (Z.to_nat n) (length l).
Proof. intros. rewrite slice_to_nonneg by done. apply length_take. Qed.

End SliceFacts.

(** ** The distribution of the words over the sections *)

Import VocabBot.

(** The tail window of [generate_exam] for non-negative counts, in terms
    of [take] and [drop]. *)
Lemma tail_window (words : list word_data) (total_count s1 : Z) :
  (0 <= s1)%Z ->
  (if (total_count >=? 30)%Z then Py.slice_between s1 total_count words
   else Py.slice_from s1 words)
  = if (total_count >=? 30)%Z
    then take (Z.to_nat total_count - Z.to_nat s1) (drop (Z.to_nat s1) words)
    else drop (Z.to_nat s1) words.
Proof.
  intros Hs1. destruct (Z.geb_spec total_count 30).
  - apply slice_between_nonneg; lia.
  - by apply slice_from_nonneg.
Qed.

(** C1. For non-negative [s1] and [s2], the first section is the sample
    cut after [s1] words (the whole sample when it has fewer), of length
    [min s1 k]; the second section is the tail window, [sample[s1:total]]
    when [total >= 30] and [sample[s1:k]] otherwise, followed when it is
    shorter than [s2] by the first [s2 - len(tail)] words of the sample,
    and cut after [s2] words; it has exactly [s2] words whenever the sample
    has at least [s2].  This holds for every sample, of ten words or
    more in particular. *)
Theorem C1_sections_1_and_2 (words : list word_data) (total_count s1 s2 s3 s4 s5 : Z) :
  (0 <= s1)%Z -> (0 <= s2)%Z ->
  let a := distribute total_count s1 s2 s3 s4 s5 words in
  let k := length words in
  let tail_base :=
    if (total_count >=? 30)%Z
    then take (Z.to_nat total_count - Z.to_nat s1) (drop (Z.to_nat s1) words)
    else drop (Z.to_nat s1) words in
  section1_words a = take (Z.to_nat s1) words
  /\ (k < Z.to_nat s1 -> section1_words a = words)
  /\ length (section1_words a) = Nat.min (Z.to_nat s1) k
  /\ section2_words a
     = take (Z.to_nat s2) (tail_base ++ take (Z.to_nat s2 - length tail_base) words)
  /\ (Z.to_nat s2 <= k -> length (section2_words a) = Z.to_nat s2).
Proof.
  intros Hs1 Hs2 a k tail_base.
  assert (H1 : section1_words a = take (Z.to_nat s1) words).
  { subst a. unfold distribute. cbn [section1_words]. by apply slice_to_nonneg. }
  assert (H2 : section2_words a
               = take (Z.to_nat s2) (tail_base ++ take (Z.to_nat s2 - length tail_base) words)).
  { subst a. unfold distribute. cbn [section2_words].
    rewrite tail_window by done. fold tail_base.
    rewrite slice_to_nonneg by done. f_equal.
    unfold Py.len. destruct (Z.ltb_spec (Z.of_nat (length tail_base)) s2).
    - rewrite slice_to_nonneg by lia. do 2 f_equal. lia.
    - replace (Z.to_nat s2 - length tail_base) with 0 by lia.
      by rewrite take_0, app_nil_r. }
  split_and!; try done.
  - intros Hk. rewrite H1. apply take_ge. lia.
  - rewrite H1. apply length_take.
  - intros Hk. rewrite H2, length_take, length_app, length_take. subst k. lia.
Qed.

(** A witness of C1: ten words, [total = 10], [s1 = 5], [s2 = 7]. *)
Lemma C1_sections_1_and_2_witness :
  (0 <= 5)%Z /\ (0 <= 7)%Z
  /\ map word (section1_words (distribute 10 5 7 5 5 10 (sample_words 10)))
     = ["word0"; "word1"; "word2"; "word3"; "word4"]
  /\ length (section2_words (distribute 10 5 7 5 5 10 (sample_words 10))) = 7.
Proof.
  pose proof (C1_sections_1_and_2 (sample_words 10) 10 5 7 5 5 10) as H.
  split; [lia |]. split; [lia |].
  destruct H as (H1 & _ & _ & _ & H5); [lia | lia |].
  split.
  - rewrite H1. reflexivity.
  - apply H5. vm_compute. lia.
Defined.

(** ** The floor of ten words *)

(** [generate_exam] is [generate_exam_from] on the words that
    [get_random_words] returns. *)
Lemma generate_exam_unfold (total_count s1 s2 s3 s4 s5 : Z) (w : World) :
  generate_exam total_count s1 s2 s3 s4 s5 w
  = generate_exam_from (fst (get_random_words total_count w)) total_count s1 s2 s3 s4 s5
      (snd (get_random_words total_count w)).
Proof. unfold generate_exam. by destruct (get_random_words total_count w). Qed.

(** Below ten words nothing is rendered and the clock is not read. *)
Lemma generate_exam_from_short (words : list word_data) (total_count s1 s2 s3 s4 s5 : Z)
    (w : World) :
  length words < 10 ->
  generate_exam_from words total_count s1 s2 s3 s4 s5 w
  = (Failure (insufficient_words (length words)), w).
Proof.
  intros Hk. unfold generate_exam_from, Py.len.
  destruct (Z.ltb_spec (Z.of_nat (length words)) 10); [done | lia].
Qed.

(** From ten words on the result is the exam made of the distribution. *)
Lemma generate_exam_from_enough (words : list word_data) (total_count s1 s2 s3 s4 s5 : Z)
    (w : World) :
  10 <= length words ->
  let a := distribute total_count s1 s2 s3 s4 s5 words in
  generate_exam_from words total_count s1 s2 s3 s4 s5 w
  = (Success {| exam_content := fst (fst (render_documents a w));
                answer_content := snd (fst (render_documents a w));
                section1_count := s1;
                section2_count := s2;
                section3_count := s3;
                section4_count := s4;
                section5_count := Py.len (synonym_words a);
                total_questions := (s1 + s2 + s3 + s4 + Py.len (synonym_words a))%Z |},
     snd (render_documents a w)).
Proof.
  intros Hk a. unfold generate_exam_from, Py.len.
  destruct (Z.ltb_spec (Z.of_nat (length words)) 10); [lia |].
  fold a. by destruct (render_documents a w) as [documents w'].
Qed.

(** C2. With [k] the number of words drawn, [generate_exam] fails with the
    error that reports [k] available words and 10 required exactly when
    [k < 10], and succeeds with an exam exactly when [k >= 10]. *)
Theorem C2_floor_of_ten_words (total_count s1 s2 s3 s4 s5 : Z) (w : World) :
  let k := length (fst (get_random_words total_count w)) in
  let result := fst (generate_exam total_count s1 s2 s3 s4 s5 w) in
  (k < 10 <-> result = Failure (insufficient_words k))
  /\ (10 <= k <-> exists e, result = Success e).
Proof.
  intros k result. subst result. rewrite generate_exam_unfold. fold k.
  destruct (Nat.lt_ge_cases k 10) as [Hk | Hk].
  - rewrite generate_exam_from_short by done. cbn [fst]. fold k.
    split; split; try done; try lia.
    intros [e He]. discriminate He.
  - rewrite generate_exam_from_enough by done. cbn [fst].
    split; split; try done; try lia; eauto.
Qed.

(** The boundary on a worksheet: nine stored words fail with the error
    that names 9 and 10, ten stored words give an exam. *)
Example generate_exam_nine_words :
  fst (generate_exam 30 15 15 5 5 10 (calm_world (sample_sheet 9)))
  = Failure "저장된 단어가 부족합니다. (현재: 9개, 최소: 10개 필요)".
Proof. vm_compute. reflexivity. Qed.

Example generate_exam_ten_words :
  exists e, fst (generate_exam 30 15 15 5 5 10 (calm_world (sample_sheet 10))) = Success e.
Proof. vm_compute. eauto. Qed.

(** ** Section 5 *)

(** Joining texts is associative. *)
Lemma append_assoc (a b c : string) : (a +:+ b) +:+ c = a +:+ (b +:+ c).
Proof.
  induction a as [| x a IH]; [done |].
  change (String x ((a +:+ b) +:+ c) = String x (a +:+ (b +:+ c))). by rewrite IH.
Qed.

Lemma append_nil_r (a : string) : a +:+ "" = a.
Proof.
  induction a as [| x a IH]; [done |].
  change (String x (a +:+ "") = String x a). by rewrite IH.
Qed.

(** A text that does not grow when another is joined to it: the other
    text is empty. *)
Lemma append_fixed (a b : string) : a +:+ b = a <-> b = "".
Proof.
  split.
  - intros Hab. apply (String.app_inj a). by rewrite append_nil_r.
  - intros ->. apply append_nil_r.
Qed.

(** The truth value of a list. *)
Lemma truthy_true {A} (l : list A) : Py.truthy l <-> l <> [].
Proof. by destruct l. Qed.

(** Section 5 adds nothing to the exam exactly when it has no words. *)
Lemma exam_section5_empty (ws : list word_data) : exam_section5 ws = "" <-> ws = [].
Proof.
  destruct ws as [| x ws]; [done |].
  split; [| done]. unfold exam_section5, exam_section5_heading, nl.
  cbn [Py.truthy String.append]. discriminate.
Qed.

(** No word passes the filter exactly when no word has synonyms. *)
Lemma filter_synonyms_nil (pool : list word_data) :
  filter (fun x => synonyms x <> []) pool = [] <-> Forall (fun x => synonyms x = []) pool.
Proof.
  induction pool as [| x pool IH]; [done |].
  destruct (decide (synonyms x = [])) as [Hx | Hx].
  - rewrite filter_cons_False by tauto. rewrite IH, Forall_cons. tauto.
  - rewrite filter_cons_True by done. rewrite Forall_cons. split; [done | tauto].
Qed.

(** The synonym words for a non-negative [s5]. *)
Lemma synonym_words_distribute (words : list word_data) (total_count s1 s2 s3 s4 s5 : Z) :
  (0 <= s5)%Z ->
  let a := distribute total_count s1 s2 s3 s4 s5 words in
  synonym_words a
  = take (Z.to_nat s5)
      (filter (fun x => synonyms x <> []) (section1_words a ++ section2_words a)).
Proof.
  intros Hs5 a. subst a. unfold distribute. cbn [synonym_words section1_words section2_words].
  rewrite slice_to_nonneg by done. f_equal.
  apply list_filter_iff. intros x. apply truthy_true.
Qed.

(** The exam is its title and Sections 1 to 4, followed by what the
    test on [synonym_words] adds. *)
Lemma create_exam_content_text
    (s1w s2w cw xw yw : list word_data) (w : World) :
  fst (create_exam_content s1w s2w cw xw yw w)
  = (exam_title (strftime (clock w (ticks w))) (exam_title_total s1w s2w yw)
     +:+ exam_sections_1_to_4 s1w s2w cw xw)
    +:+ exam_section5 yw.
Proof.
  unfold create_exam_content, datetime_now, exam_text. cbn [fst].
  by rewrite append_assoc.
Qed.

(** C3, amended. For a non-negative [s5] the synonym words are the words
    of the pool [section1 ++ section2] that have synonyms, in the order of
    the pool, cut after [s5] words.  Section 5 is left out of the exam (the
    document ends with Section 4) exactly when there is no synonym word,
    that is when [s5 = 0] or no word of the pool has synonyms; when it is
    there, its heading is followed by at least one question. *)
Theorem C3_section5 (words : list word_data) (total_count s1 s2 s3 s4 s5 : Z)
    (w : World) :
  (0 <= s5)%Z ->
  let a := distribute total_count s1 s2 s3 s4 s5 words in
  let pool := section1_words a ++ section2_words a in
  let document :=
    fst (create_exam_content (section1_words a) (section2_words a) (composition_words a)
           (context_words a) (synonym_words a) w) in
  let up_to_section4 :=
    exam_title (strftime (clock w (ticks w)))
      (exam_title_total (section1_words a) (section2_words a) (synonym_words a))
    +:+ exam_sections_1_to_4 (section1_words a) (section2_words a) (composition_words a)
          (context_words a) in
  synonym_words a = take (Z.to_nat s5) (filter (fun x => synonyms x <> []) pool)
  /\ length (synonym_words a) <= Z.to_nat s5
  /\ (document = up_to_section4
      <-> s5 = 0%Z \/ Forall (fun x => synonyms x = []) pool)
  /\ (document <> up_to_section4 ->
      1 <= length (synonym_words a)
      /\ document
         = up_to_section4
           +:+ (exam_section5_heading (length (synonym_words a))
                +:+ exam_section5_items (synonym_words a))).
Proof.
  intros Hs5 a pool document up_to_section4.
  pose proof (synonym_words_distribute words total_count s1 s2 s3 s4 s5 Hs5) as Hsyn.
  cbv zeta in Hsyn. fold a pool in Hsyn.
  assert (Hdoc : document = up_to_section4 +:+ exam_section5 (synonym_words a))
    by apply create_exam_content_text.
  assert (Hout : document = up_to_section4 <-> synonym_words a = []).
  { rewrite Hdoc, append_fixed. apply exam_section5_empty. }
  split_and!.
  - done.
  - rewrite Hsyn, length_take. lia.
  - rewrite Hout, Hsyn. split.
    + intros [H0 | Hnil]%take_nil_inv; [left; lia | right].
      by apply filter_synonyms_nil.
    + intros [-> | Hall]; [done |].
      apply filter_synonyms_nil in Hall. rewrite Hall. apply take_nil.
  - intros Hne. rewrite Hout in Hne. split.
    + destruct (synonym_words a); [done | simpl; lia].
    + rewrite Hdoc. f_equal. unfold exam_section5.
      destruct (synonym_words a); done.
Qed.

(** A witness of C3: ten words that all have synonyms, [s5 = 3]. *)
Lemma C3_section5_witness :
  (0 <= 3)%Z
  /\ map word (synonym_words (distribute 10 5 5 5 5 3 (sample_words 10)))
     = ["word0"; "word1"; "word2"].
Proof.
  split; [lia |].
  destruct (C3_section5 (sample_words 10) 10 5 5 5 5 3 (calm_world [])) as (H & _);
    [lia |].
  rewrite H. vm_compute. reflexivity.
Defined.

(** C3 as it was stated fails: with [s5 = 0] every word of the pool
    has synonyms and yet Section 5 is left out. *)
Lemma C3_counterexample :
  let a := distribute 30 15 15 5 5 0 (sample_words 10) in
  let pool := section1_words a ++ section2_words a in
  let w := calm_world [] in
  ~ (fst (create_exam_content (section1_words a) (section2_words a)
            (composition_words a) (context_words a) (synonym_words a) w)
     = exam_title (strftime (clock w (ticks w)))
         (exam_title_total (section1_words a) (section2_words a) (synonym_words a))
       +:+ exam_sections_1_to_4 (section1_words a) (section2_words a)
             (composition_words a) (context_words a)
     <-> Forall (fun x => synonyms x = []) pool).
Proof.
  intros a pool w [Hall _].
  assert (Hpool : pool !! 0 = Some (sample_word 0)) by (vm_compute; reflexivity).
  assert (HF : Forall (fun x => synonyms x = []) pool)
    by (apply Hall; vm_compute; reflexivity).
  pose proof (Forall_lookup_1 _ _ _ _ HF Hpool) as Hfalse.
  discriminate Hfalse.
Qed.

(** ** The counts that the result and the title give *)

(** C4, amended. When at least ten words are drawn, the result gives for
    Sections 1 to 4 the configured counts as they were passed, also when
    the section itself came out shorter; for Section 5 it gives the number
    of synonym words; its total is [s1 + s2 + s3 + s4] plus that number.
    The title of the exam gives as total the lengths of Sections 1 and 2
    as they came out, plus 5, plus 5, plus the number of synonym words. *)
Theorem C4_advertised_counts (total_count s1 s2 s3 s4 s5 : Z) (w : World) :
  let words := fst (get_random_words total_count w) in
  let w1 := snd (get_random_words total_count w) in
  let a := distribute total_count s1 s2 s3 s4 s5 words in
  10 <= length words ->
  exists e,
    fst (generate_exam total_count s1 s2 s3 s4 s5 w) = Success e
    /\ section1_count e = s1 /\ section2_count e = s2
    /\ section3_count e = s3 /\ section4_count e = s4
    /\ section5_count e = Py.len (synonym_words a)
    /\ total_questions e = (s1 + s2 + s3 + s4 + Py.len (synonym_words a))%Z
    /\ exam_content e
       = (exam_title (strftime (clock w1 (ticks w1)))
            (length (section1_words a) + length (section2_words a) + 5 + 5
             + length (synonym_words a))
          +:+ exam_sections_1_to_4 (section1_words a) (section2_words a)
                (composition_words a) (context_words a))
         +:+ exam_section5 (synonym_words a).
Proof.
  intros words w1 a Hk. rewrite generate_exam_unfold. fold words w1.
  rewrite generate_exam_from_enough by done. fold a. cbn [fst].
  eexists. split; [reflexivity |].
  cbn [section1_count section2_count section3_count section4_count section5_count
       total_questions exam_content].
  split_and!; try reflexivity.
  exact (create_exam_content_text (section1_words a) (section2_words a)
           (composition_words a) (context_words a) (synonym_words a) w1).
Qed.

(** A witness of C4: a worksheet of ten words and the default counts. *)
Lemma C4_advertised_counts_witness :
  10 <= length (fst (get_random_words 30 (calm_world (sample_sheet 10))))
  /\ exists e,
       fst (generate_exam 30 15 15 5 5 10 (calm_world (sample_sheet 10))) = Success e
       /\ section1_count e = 15%Z
       /\ total_questions e = 50%Z.
Proof.
  assert (Hk : 10 <= length (fst (get_random_words 30 (calm_world (sample_sheet 10)))))
    by (vm_compute; lia).
  split; [exact Hk |].
  destruct (C4_advertised_counts 30 15 15 5 5 10 (calm_world (sample_sheet 10)) Hk)
    as (e & He & H1 & _ & _ & _ & _ & Ht & _).
  exists e. split; [exact He |]. split; [exact H1 |].
  rewrite Ht. vm_compute. reflexivity.
Defined.

(** C4 as it was stated fails on ten stored words with the counts
    [total = 30], [s1 = 15], [s2 = 15], [s3 = 2], [s4 = 2], [s5 = 10].
    Section 1 has ten words, cut short by the shortage, and the result
    still gives 15 for it.  The title gives 40 questions, which is neither
    [s1 + s2 + min(s3,5) + min(s4,5) + len(synonym words)] = 44 nor the
    number of questions in the document, 34. *)
Lemma C4_counterexample :
  let w := calm_world (sample_sheet 10) in
  let a := distribute 30 15 15 2 2 10 (fst (get_random_words 30 w)) in
  exists e,
    fst (generate_exam 30 15 15 2 2 10 w) = Success e
    /\ length (section1_words a) = 10
    /\ section1_count e = 15%Z
    /\ section1_count e <> Py.len (section1_words a)
    /\ length (synonym_words a) = 10
    /\ exam_title_total (section1_words a) (section2_words a) (synonym_words a) = 40
    /\ Z.of_nat (exam_title_total (section1_words a) (section2_words a) (synonym_words a))
       <> (15 + 15 + Z.min 2 5 + Z.min 2 5 + Py.len (synonym_words a))%Z
    /\ exam_title_total (section1_words a) (section2_words a) (synonym_words a)
       <> length (section1_words a) + length (section2_words a)
          + length (Py.slice_to 5 (composition_words a))
          + length (zip (Py.slice_to 5 (context_words a)) contexts)
          + length (synonym_words a)
    /\ exam_content e
       = exam_text "2024년 03월 05일 07시 09분" (section1_words a) (section2_words a)
           (composition_words a) (context_words a) (synonym_words a).
Proof.
  intros w a.
  destruct (fst (generate_exam 30 15 15 2 2 10 w)) as [e | msg] eqn:He;
    [| vm_compute in He; discriminate He].
  exists e. split; [reflexivity |].
  assert (He' : Success e = fst (generate_exam 30 15 15 2 2 10 w)) by (symmetry; exact He).
  vm_compute in He'. injection He' as ->.
  vm_compute. split_and!; try reflexivity; try discriminate.
Qed.

(** ** The time printed in the two documents *)

(** The two documents of one rendering: each one prints the time of its
    own reading of the clock, the exam the first reading and the answer key
    the second. *)
Lemma render_documents_text (a : allocation) (w : World) :
  fst (render_documents a w)
  = (exam_text (strftime (clock w (ticks w))) (section1_words a) (section2_words a)
       (composition_words a) (context_words a) (synonym_words a),
     answer_text (strftime (clock w (S (ticks w)))) (section1_words a) (section2_words a)
       (composition_words a) (context_words a) (synonym_words a)).
Proof. reflexivity. Qed.

(** C5, amended. The exam prints the time that the clock shows when
    [create_exam_content] reads it and the answer key the time that the
    clock shows when [create_answer_content] reads it afterwards.  Apart
    from these two printed times the documents are determined by the
    lists: two renderings of the same lists during which the clock prints
    the same two times give the same two documents, byte for byte. *)
Theorem C5_same_times_same_documents (a : allocation) (w w' : World) :
  strftime (clock w (ticks w)) = strftime (clock w' (ticks w')) ->
  strftime (clock w (S (ticks w))) = strftime (clock w' (S (ticks w'))) ->
  fst (render_documents a w) = fst (render_documents a w')
  /\ fst (fst (render_documents a w))
     = exam_text (strftime (clock w (ticks w))) (section1_words a) (section2_words a)
         (composition_words a) (context_words a) (synonym_words a)
  /\ snd (fst (render_documents a w))
     = answer_text (strftime (clock w (S (ticks w)))) (section1_words a)
         (section2_words a) (composition_words a) (context_words a) (synonym_words a).
Proof.
  intros H1 H2. rewrite !render_documents_text. cbn [fst snd].
  by rewrite H1, H2.
Qed.

(** A witness of C5: the clock stands still, and the second rendering
    starts where the first ended. *)
Lemma C5_same_times_same_documents_witness :
  let a := distribute 30 15 15 5 5 10 (sample_words 10) in
  let w := calm_world [] in
  let w' := snd (render_documents a w) in
  strftime (clock w (ticks w)) = strftime (clock w' (ticks w'))
  /\ strftime (clock w (S (ticks w))) = strftime (clock w' (S (ticks w')))
  /\ fst (render_documents a w) = fst (render_documents a w').
Proof.
  intros a w w'.
  assert (H1 : strftime (clock w (ticks w)) = strftime (clock w' (ticks w')))
    by reflexivity.
  assert (H2 : strftime (clock w (S (ticks w))) = strftime (clock w' (S (ticks w'))))
    by reflexivity.
  split; [exact H1 |]. split; [exact H2 |].
  exact (proj1 (C5_same_times_same_documents a w w' H1 H2)).
Defined.

(** C5 as it was stated fails when the minute changes between two
    readings of the clock: the exam and the answer key of one rendering
    print different times, and a second rendering of the same lists gives
    other documents than the first. *)
Lemma C5_counterexample :
  let a := distribute 30 15 15 5 5 10 (sample_words 10) in
  let w := mkWorld [] [] [] minute_clock 0 in
  let first := render_documents a w in
  let second := render_documents a (snd first) in
  fst first <> fst second
  /\ fst (fst first)
     = exam_text "2024년 03월 05일 07시 00분" (section1_words a) (section2_words a)
         (composition_words a) (context_words a) (synonym_words a)
  /\ snd (fst first)
     = answer_text "2024년 03월 05일 07시 01분" (section1_words a) (section2_words a)
         (composition_words a) (context_words a) (synonym_words a)
  /\ fst (fst second)
     = exam_text "2024년 03월 05일 07시 02분" (section1_words a) (section2_words a)
         (composition_words a) (context_words a) (synonym_words a).
Proof.
  intros a w first second. split_and!.
  - intros Heq. vm_compute in Heq. discriminate Heq.
  - reflexivity.
  - reflexivity.
  - reflexivity.
Qed.

(** ** The message splitter *)

Section ChunkFacts.

Context {char : Type} `{EqDecision char}.
Variable newline : char.
Implicit Types (s t piece rest : list char) (chunks : list (list char)).

(** An answer of the downward search is -1 or one of its candidates. *)
Lemma rfind_down_range (sub s : list char) (lo cnt : nat) :
  Chunker.rfind_down sub s lo cnt = (-1)%Z
  \/ (Z.of_nat lo <= Chunker.rfind_down sub s lo cnt < Z.of_nat (lo + cnt))%Z.
Proof.
  induction cnt as [| c IH]; [by left |].
  cbn [Chunker.rfind_down].
  destruct (Chunker.starts_with sub (drop (lo + c) s)); [right; lia |].
  destruct IH as [IH | IH]; [by left | right; lia].
Qed.

(** A candidate that the search returns is an occurrence. *)
Lemma rfind_down_found (sub s : list char) (lo cnt p : nat) :
  Chunker.rfind_down sub s lo cnt = Z.of_nat p ->
  Chunker.starts_with sub (drop p s) = true.
Proof.
  induction cnt as [| c IH]; cbn [Chunker.rfind_down]; [lia |].
  destruct (Chunker.starts_with sub (drop (lo + c) s)) eqn:Hocc; [| done].
  intros Hp. by replace p with (lo + c) by lia.
Qed.

(** [rfind(sub, 0, end)]. *)
Lemma rfind_from_0 (sub s : list char) (stop : Z) :
  Chunker.rfind sub s 0 stop
  = if (Py.clip (Py.len s) stop - 0 <? Py.len sub)%Z then (-1)%Z
    else Chunker.rfind_down sub s 0
           (Z.to_nat (Py.clip (Py.len s) stop - 0 - Py.len sub + 1)).
Proof. reflexivity. Qed.

(** [rfind(sub, 0, end)] with [end >= 0] is -1 or the start of an
    occurrence that ends at [end] or before. *)
Lemma rfind_range (sub s : list char) (stop : Z) :
  (0 <= stop)%Z ->
  Chunker.rfind sub s 0 stop = (-1)%Z
  \/ (0 <= Chunker.rfind sub s 0 stop <= stop - Py.len sub)%Z.
Proof.
  intros Hstop. rewrite rfind_from_0, clip_nonneg by done.
  destruct (Z.ltb_spec (Z.min stop (Py.len s) - 0) (Py.len sub)); [by left |].
  destruct (rfind_down_range sub s 0
              (Z.to_nat (Z.min stop (Py.len s) - 0 - Py.len sub + 1))) as [Hr | Hr];
    [by left | right]. lia.
Qed.

(** What [rfind(sub, 0, end)] returns, when it is not -1, is the start of
    an occurrence. *)
Lemma rfind_found (sub s : list char) (stop : Z) (p : nat) :
  Chunker.rfind sub s 0 stop = Z.of_nat p ->
  Chunker.starts_with sub (drop p s) = true.
Proof.
  rewrite rfind_from_0.
  destruct (_ <? Py.len sub)%Z; [lia |]. apply rfind_down_found.
Qed.

(** A turn of the loop cuts the text in two: nothing is lost or added. *)
Lemma chunk_step_app (max_size : Z) t piece rest :
  Chunker.chunk_step newline max_size t = Some (piece, rest) -> piece ++ rest = t.
Proof.
  unfold Chunker.chunk_step. destruct (_ >? _)%Z; [| done].
  intros [= <- <-]. apply slice_to_from.
Qed.

(** The piece of a turn has at most [max_size] characters. *)
Lemma chunk_step_piece (max_size : Z) t piece rest :
  (0 <= max_size)%Z ->
  Chunker.chunk_step newline max_size t = Some (piece, rest) ->
  (Py.len piece <= max_size)%Z.
Proof.
  intros HM. unfold Chunker.chunk_step. destruct (_ >? _)%Z; [| done].
  intros [= <- _].
  destruct (rfind_range [newline; newline] t max_size HM) as [Hr | Hr].
  - rewrite Hr. cbn [Z.eqb Pos.eqb]. unfold Py.len.
    rewrite slice_to_length by done. lia.
  - destruct (Z.eqb_spec (Chunker.rfind [newline; newline] t 0 max_size) (-1)); [lia |].
    unfold Py.len in *. rewrite slice_to_length by lia. cbn [length] in Hr. lia.
Qed.

(** When the loop finishes, the pieces joined in order are the text, and
    every piece has at most [max_size] characters. *)
Lemma chunk_loop_sound (fuel : nat) (max_size : Z) chunks t (result : list (list char)) :
  (0 <= max_size)%Z ->
  Chunker.chunk_loop newline fuel max_size chunks t = Some result ->
  concat result = concat chunks ++ t
  /\ (Forall (fun c => (Py.len c <= max_size)%Z) chunks ->
      Forall (fun c => (Py.len c <= max_size)%Z) result).
Proof.
  intros HM. revert chunks t. induction fuel as [| fuel IH]; intros chunks t; [done |].
  cbn [Chunker.chunk_loop].
  destruct (Chunker.chunk_step newline max_size t) as [[piece rest] |] eqn:Hstep.
  - intros Hloop. apply IH in Hloop as [Hcat Hall]. split.
    + rewrite Hcat, concat_app. cbn [concat]. rewrite app_nil_r, <- app_assoc.
      by rewrite (chunk_step_app _ _ _ _ Hstep).
    + intros Hchunks. apply Hall, Forall_app. split; [done |].
      apply Forall_singleton. by eapply chunk_step_piece.
  - intros [= <-]. split.
    + rewrite concat_app. cbn [concat]. by rewrite app_nil_r.
    + intros Hchunks. apply Forall_app. split; [done |]. apply Forall_singleton.
      unfold Chunker.chunk_step in Hstep.
      destruct (Z.gtb_spec (Py.len t) max_size); [done | lia].
Qed.

(** A text that is not longer than [max_size] is returned as one piece. *)
Lemma chunk_short (fuel : nat) (max_size : Z) t :
  (Py.len t <= max_size)%Z -> Chunker.chunk newline (S fuel) max_size t = Some [t].
Proof.
  intros Hlen. unfold Chunker.chunk. cbn [Chunker.chunk_loop]. unfold Chunker.chunk_step.
  destruct (Z.gtb_spec (Py.len t) max_size); [lia | done].
Qed.

(** A text without a blank line is cut every [max_size] characters. *)
Lemma chunk_step_no_blank (max_size : Z) t :
  ~ Chunker.has_blank_line newline t -> (0 <= max_size < Py.len t)%Z ->
  Chunker.chunk_step newline max_size t
  = Some (take (Z.to_nat max_size) t, drop (Z.to_nat max_size) t).
Proof.
  intros Hblank HM. unfold Chunker.chunk_step.
  destruct (Z.gtb_spec (Py.len t) max_size); [| lia].
  destruct (rfind_range [newline; newline] t max_size) as [Hr | Hr]; [lia | |].
  - rewrite Hr. cbn [Z.eqb Pos.eqb].
    by rewrite slice_to_nonneg, slice_from_nonneg by lia.
  - exfalso. apply Hblank.
    exists (Z.to_nat (Chunker.rfind [newline; newline] t 0 max_size)).
    apply (rfind_found _ _ max_size). lia.
Qed.

(** The part of a text after a cut has no blank line if the text has
    none. *)
Lemma no_blank_drop (n : nat) t :
  ~ Chunker.has_blank_line newline t -> ~ Chunker.has_blank_line newline (drop n t).
Proof.
  intros Hblank [i Hi]. apply Hblank. exists (n + i). by rewrite <- drop_drop.
Qed.

(** On a text without a blank line the loop finishes for every
    [max_size >= 1], within as many turns as the text has characters, plus
    one. *)
Lemma chunk_loop_no_blank (max_size : Z) (n : nat) chunks t :
  (1 <= max_size)%Z -> ~ Chunker.has_blank_line newline t -> length t <= n ->
  exists result, Chunker.chunk_loop newline (S n) max_size chunks t = Some result.
Proof.
  intros HM. revert chunks t. induction n as [| n IH]; intros chunks t Hblank Hlen.
  - cbn [Chunker.chunk_loop]. unfold Chunker.chunk_step, Py.len.
    destruct (Z.gtb_spec (Z.of_nat (length t)) max_size); [lia | eauto].
  - destruct (Z.le_gt_cases (Py.len t) max_size) as [Hshort | Hlong].
    + cbn [Chunker.chunk_loop]. unfold Chunker.chunk_step.
      destruct (Z.gtb_spec (Py.len t) max_size); [lia | eauto].
    + change (Chunker.chunk_loop newline (S (S n)) max_size chunks t)
        with (match Chunker.chunk_step newline max_size t with
              | Some (piece, rest) =>
                  Chunker.chunk_loop newline (S n) max_size (chunks ++ [piece]) rest
              | None => Some (chunks ++ [t])
              end).
      rewrite chunk_step_no_blank by (done || lia).
      apply IH; [by apply no_blank_drop |].
      rewrite length_drop. unfold Py.len in Hlong. lia.
Qed.

(** A turn that cuts at position 0 leaves the text as it is, and so does
    every turn after it: the loop does not finish. *)
Lemma chunk_loop_stuck (max_size : Z) t :
  Chunker.chunk_step newline max_size t = Some ([], t) ->
  forall fuel chunks, Chunker.chunk_loop newline fuel max_size chunks t = None.
Proof.
  intros Hstep fuel. induction fuel as [| fuel IH]; intros chunks; [done |].
  cbn [Chunker.chunk_loop]. rewrite Hstep. apply IH.
Qed.

End ChunkFacts.

(** A short text, a text without blank lines and the empty text. *)
Example chunk_short_text :
  Chunker.chunk Chunker.newline_char 1 10 (list_ascii_of_string "abc")
  = Some [list_ascii_of_string "abc"].
Proof. reflexivity. Qed.

Example chunk_hard_splits :
  Chunker.chunk Chunker.newline_char 3 5 (list_ascii_of_string "abcdefghijkl")
  = Some (map list_ascii_of_string ["abcde"; "fghij"; "kl"]).
Proof. reflexivity. Qed.

Example chunk_empty_text :
  Chunker.chunk Chunker.newline_char 1 10 [] = Some [[]].
Proof. reflexivity. Qed.

(** The first turn on [long_message] cuts off the title. *)
Lemma long_message_first_turn :
  Chunker.chunk_step Chunker.newline_char 2500 Chunker.long_message
  = Some (list_ascii_of_string "title", Chunker.long_message_rest).
Proof. vm_compute. reflexivity. Qed.

(** The second turn cuts at position 0. *)
Lemma long_message_second_turn :
  Chunker.chunk_step Chunker.newline_char 2500 Chunker.long_message_rest
  = Some ([], Chunker.long_message_rest).
Proof. vm_compute. reflexivity. Qed.

(** C6. On a message whose paragraph is longer than 2500 characters the
    splitter returns no list of pieces, whatever the number of turns it is
    given: the loop does not finish. *)
Theorem C6_long_paragraph_never_returns (fuel : nat) :
  Chunker.split_message Chunker.newline_char fuel Chunker.long_message = None.
Proof.
  unfold Chunker.split_message, Chunker.chunk.
  destruct fuel as [| fuel]; [reflexivity |].
  cbn [Chunker.chunk_loop]. rewrite long_message_first_turn.
  apply chunk_loop_stuck, long_message_second_turn.
Qed.

(** C7. After the title of [long_message] has been cut off, a turn of the
    loop runs (the text is longer than 2500 characters), appends an empty
    piece and leaves the text as long as it was. *)
Theorem C7_turn_without_progress :
  exists piece rest,
    Chunker.chunk_step Chunker.newline_char 2500 Chunker.long_message_rest
    = Some (piece, rest)
    /\ piece = []
    /\ length rest = length Chunker.long_message_rest
    /\ length rest = 3002.
Proof.
  exists [], Chunker.long_message_rest.
  split; [apply long_message_second_turn |].
  split; [reflexivity |]. split; [reflexivity |].
  vm_compute. reflexivity.
Qed.

(** ** The word store *)

(** The loop of [check_duplicate] answers [True] exactly when a cell
    equals the word once both are in lower case. *)
Lemma scan_cells_true (word_lower : string) (cells : list string) :
  scan_cells word_lower cells = true
  <-> exists cell, cell ∈ cells /\ Py.lower cell = word_lower.
Proof.
  induction cells as [| c cells IH]; cbn [scan_cells].
  - split; [done |]. intros (cell & Hin & _). by apply elem_of_nil in Hin.
  - destruct (String.eqb_spec (Py.lower c) word_lower) as [Heq | Hne].
    + split; [| done]. intros _. exists c. split; [apply list_elem_of_here | done].
    + rewrite IH. split.
      * intros (cell & Hin & Hcell). exists cell. split; [by apply list_elem_of_further | done].
      * intros (cell & Hin & Hcell). apply elem_of_cons in Hin as [-> | Hin]; [done |].
        by exists cell.
Qed.

(** The loop stops at the first match: what follows it is not looked
    at. *)
Lemma scan_cells_first_match (word_lower cell : string) (before after : list string) :
  Py.lower cell = word_lower ->
  scan_cells word_lower (before ++ cell :: after) = true.
Proof.
  intros Hcell. apply scan_cells_true. exists cell. split; [| done].
  apply elem_of_app. right. apply list_elem_of_here.
Qed.

(** A call of the spreadsheet service in a world without pending
    faults. *)
Lemma api_call_calm (w : World) : faults w = [] -> api_call w = (None, w).
Proof. unfold api_call. by intros ->. Qed.

(** Inserting at the row after the last one appends. *)
Lemma insert_after_last {A} (l : list A) (x : A) :
  take (length l + 1 - 1) l ++ x :: drop (length l + 1 - 1) l = l ++ [x].
Proof.
  replace (length l + 1 - 1) with (length l) by lia.
  by rewrite take_ge, drop_ge by lia.
Qed.




(** A new word goes to the end of the worksheet. *)
Example add_to_sheet_new_word :
  rows (snd (add_to_sheet (mkWordInfo "Pear" "배" ["a"; "b"] "" "")
               (calm_world (sample_sheet 2))))
  = sample_sheet 2 ++ [["Pear"; "배"; "a, b"]].
Proof. vm_compute. reflexivity. Qed.

(** ** Failures of the spreadsheet service *)

(** When the call of the duplicate check raises and the calls after it
    succeed, the append goes ahead as for a new word: the worksheet then
    holds the word twice. *)
Example add_to_sheet_after_failed_check :
  let info := mkWordInfo "word1" "뜻1" ["syn1"] "" "" in
  let w := faulty_world (sample_sheet 2) in
  fst (add_to_sheet info w) = true
  /\ rows (snd (add_to_sheet info w)) = sample_sheet 2 ++ [["word1"; "뜻1"; "syn1"]].
Proof. vm_compute. split; reflexivity. Qed.

(** The reply is a text made from the word, followed by the line that
    [save_success] selects. *)
Lemma format_vocab_response_end (info : word_info) :
  exists body, forall save_success,
    format_vocab_response info save_success = body +:+ save_line save_success.
Proof. unfold format_vocab_response. eexists. intros b. reflexivity. Qed.

(** [add_to_sheet] leaves the worksheet as it is whenever it returns
    [False]. *)
Lemma add_to_sheet_false_rows (info : word_info) (w : World) :
  fst (add_to_sheet info w) = false -> rows (snd (add_to_sheet info w)) = rows w.
Proof.
  destruct w as [rs fs g c t].
  unfold add_to_sheet, check_duplicate, col_values, insert_row, api_call, set_faults,
    set_rows.
  cbn [faults rows rng clock ticks].
  destruct fs as [| [e1 |] [| [e2 |] [| [e3 |] rest]]];
    cbn [fst snd faults rows rng clock ticks];
    try destruct (scan_cells _ _);
    cbn [fst snd faults rows rng clock ticks]; done.
Qed.

(** C10, amended. The two operations of the word store return a bare
    truth value and no reason.  [check_duplicate] returns [False] when its
    call of the spreadsheet service raises, the value it also returns for
    a word that is not stored.  [add_to_sheet] returns [False] when its
    own reading of the column or its insertion raises, the value it also
    returns for a duplicate; whenever it returns [False] the worksheet is
    as before and the reply of the bot is the one for [False], which ends
    with the line saying that the word is already saved. *)
Theorem C10_failures_return_false (info : word_info) (w : World) :
  (forall e rest, faults w = Some e :: rest ->
     check_duplicate (wi_word info) w = (false, set_faults rest w))
  /\ (forall e rest, faults w = None :: Some e :: rest ->
        fst (add_to_sheet info w) = false)
  /\ (forall e rest, faults w = None :: None :: Some e :: rest ->
        fst (add_to_sheet info w) = false)
  /\ (fst (add_to_sheet info w) = false ->
      rows (snd (add_to_sheet info w)) = rows w
      /\ fst (handle_vocab_query info w) = format_vocab_response info false)
  /\ exists body, format_vocab_response info false
                  = body +:+ "ℹ️ *이미 저장된 단어입니다.*".
Proof.
  split_and!.
  - intros e rest Hf. unfold check_duplicate, col_values, api_call. by rewrite Hf.
  - intros e rest Hf.
    unfold add_to_sheet, check_duplicate, col_values, api_call. rewrite Hf.
    cbn [fst snd faults set_faults]. by destruct (scan_cells _ _).
  - intros e rest Hf.
    unfold add_to_sheet, check_duplicate, col_values, insert_row, api_call. rewrite Hf.
    cbn [fst snd faults set_faults]. by destruct (scan_cells _ _).
  - intros Hfalse. split; [by apply add_to_sheet_false_rows |].
    unfold handle_vocab_query. destruct (add_to_sheet info w) as [success w'].
    cbn [fst] in *. by rewrite Hfalse.
  - destruct (format_vocab_response_end info) as [body Hbody].
    exists body. apply (Hbody false).
Qed.

(** C10 as it was stated fails.  A duplicate check whose call raises
    returns what it returns for a word that is not stored.  An append whose
    call raises returns what it returns for a word that is already saved,
    and the bot answers both with the same text, although in the first
    case the word is not in the worksheet. *)
Lemma C10_counterexample :
  let info := mkWordInfo "pear" "배" [] "" "" in
  let stored := mkWordInfo "word1" "뜻1" [] "" "" in
  let down := faulty_world (sample_sheet 3) in
  let down_later := mkWorld (sample_sheet 3) [None; Some "APIError"] [] frozen_clock 0 in
  let up := calm_world (sample_sheet 3) in
  fst (col_values 1 down) = inl "APIError"
  /\ fst (check_duplicate "pear" down) = false
  /\ fst (check_duplicate "pear" up) = false
  /\ fst (add_to_sheet info down_later) = false
  /\ rows (snd (add_to_sheet info down_later)) = sample_sheet 3
  /\ fst (add_to_sheet stored up) = false
  /\ fst (handle_vocab_query info down_later) = format_vocab_response info false
  /\ fst (handle_vocab_query stored up) = format_vocab_response stored false.
Proof. vm_compute. split_and!; reflexivity. Qed.

(** ** Drawing words *)

(** A draw below a positive number is below it. *)
Lemma randbelow_lt (n : nat) (w : World) : 0 < n -> fst (randbelow n w) < n.
Proof.
  intros Hn. unfold randbelow. destruct (rng w) as [| r rs]; cbn [fst]; [done |].
  apply Nat.mod_upper_bound. lia.
Qed.

(** [k] draws from a pool of at least [k] elements give [k] elements,
    and no element is given more often than it is in the pool. *)
Lemma draw_without_replacement {A} (k : nat) (pool : list A) (w : World) :
  k <= length pool ->
  length (fst (draw k pool w)) = k /\ fst (draw k pool w) ⊆+ pool.
Proof.
  revert pool w. induction k as [| k IH]; intros pool w Hk.
  - split; [done |]. apply submseteq_nil_l.
  - cbn [draw].
    pose proof (randbelow_lt (length pool) w ltac:(lia)) as Hj.
    destruct (randbelow (length pool) w) as [j w1]. cbn [fst] in Hj.
    destruct (lookup_lt_is_Some_2 pool j Hj) as [x Hx]. rewrite Hx.
    assert (Hlen : k <= length (delete j pool)).
    { pose proof (length_delete pool j (mk_is_Some _ _ Hx)). lia. }
    destruct (IH (delete j pool) w1 Hlen) as [IHlen IHsub].
    destruct (draw k (delete j pool) w1) as [rest w2]. cbn [fst] in *.
    split; [cbn [length]; lia |].
    rewrite (delete_Permutation pool j x Hx). by apply submseteq_skip.
Qed.




(** The stored words: all rows but the header. *)
Lemma slice_from_1 {A} (l : list A) : Py.slice_from 1 l = drop 1 l.
Proof. by apply slice_from_nonneg. Qed.




(** On an empty bank the result is the empty list in every case. *)
Lemma get_random_words_empty_bank (count : Z) (w : World) :
  drop 1 (rows w) = [] -> fst (get_random_words count w) = [].
Proof.
  intros Hbank. unfold get_random_words, get_all_values, api_call.
  destruct w as [rs fs g c t]. cbn [faults rows] in *.
  destruct fs as [| [e |] fs]; cbn [fst snd rows set_faults faults]; try done;
    rewrite slice_from_1, Hbank; unfold random_sample, Py.len; cbn [length];
    destruct (Z.ltb_spec 0 count); destruct count; done.
Qed.



(** * Further properties *)

(** ** The message splitter when it returns *)

Section ChunkReturns.

Context {char : Type} `{EqDecision char}.
Variable newline : char.
Implicit Types (t piece rest : list char) (chunks : list (list char)).

(** What a turn of the loop leaves is not empty. *)
Lemma chunk_step_rest (max_size : Z) t piece rest :
  (0 <= max_size)%Z ->
  Chunker.chunk_step newline max_size t = Some (piece, rest) -> rest <> [].
Proof.
  intros HM. unfold Chunker.chunk_step.
  destruct (Z.gtb_spec (Py.len t) max_size) as [Hlen |]; [| done].
  intros [= _ <-]. rewrite slice_from_clip.
  assert (Hpos : (Py.clip (Py.len t)
                    (if (Chunker.rfind [newline; newline] t 0 max_size =? -1)%Z
                     then max_size
                     else Chunker.rfind [newline; newline] t 0 max_size)
                  < Py.len t)%Z).
  { destruct (rfind_range [newline; newline] t max_size HM) as [Hr | Hr].
    - rewrite Hr. cbn [Z.eqb Pos.eqb]. rewrite clip_nonneg by done. lia.
    - destruct (Z.eqb_spec (Chunker.rfind [newline; newline] t 0 max_size) (-1)); [lia |].
      rewrite clip_nonneg by lia. unfold Py.len in *. cbn [length] in Hr. lia. }
  intros Hnil. apply (f_equal length) in Hnil. rewrite length_drop in Hnil.
  cbn [length] in Hnil.
  pose proof (clip_range t
                (if (Chunker.rfind [newline; newline] t 0 max_size =? -1)%Z
                 then max_size
                 else Chunker.rfind [newline; newline] t 0 max_size)) as Hrange.
  set (cut := Py.clip (Py.len t) _) in *. unfold Py.len in *. lia.
Qed.

(** When the loop finishes, no piece is empty, provided the text was not
    empty to begin with. *)
Lemma chunk_loop_pieces_nonempty (fuel : nat) (max_size : Z) chunks t
    (result : list (list char)) :
  (0 <= max_size)%Z -> t <> [] -> Forall (fun c => c <> []) chunks ->
  Chunker.chunk_loop newline fuel max_size chunks t = Some result ->
  Forall (fun c => c <> []) result.
Proof.
  intros HM. revert chunks t. induction fuel as [| fuel IH]; intros chunks t Ht Hchunks;
    [done |].
  cbn [Chunker.chunk_loop].
  destruct (Chunker.chunk_step newline max_size t) as [[piece rest] |] eqn:Hstep.
  - destruct piece as [| c piece].
    + pose proof (chunk_step_app _ _ _ _ _ Hstep) as Happ. cbn [app] in Happ. subst rest.
      by rewrite (chunk_loop_stuck newline max_size t Hstep).
    + apply IH.
      * by eapply chunk_step_rest.
      * apply Forall_app. split; [done |]. by apply Forall_singleton.
  - intros [= <-]. apply Forall_app. split; [done |]. by apply Forall_singleton.
Qed.

(** X1. When the splitter returns, the pieces joined in order are the text,
    no character lost or added, and every piece has at most [max_size]
    characters. *)
Theorem chunk_returns_lossless_bounded (fuel : nat) (max_size : Z) t
    (result : list (list char)) :
  (0 <= max_size)%Z ->
  Chunker.chunk newline fuel max_size t = Some result ->
  concat result = t /\ Forall (fun c => (Py.len c <= max_size)%Z) result.
Proof.
  intros HM Hret. unfold Chunker.chunk in Hret.
  destruct (chunk_loop_sound newline fuel max_size [] t result HM Hret) as [Hcat Hall].
  split; [exact Hcat |]. by apply Hall.
Qed.

(** X2. When the splitter returns on a text that is not empty, no piece is
    empty: a turn that would append an empty piece is a turn after which
    the loop never ends. *)
Theorem chunk_returns_no_empty_piece (fuel : nat) (max_size : Z) t
    (result : list (list char)) :
  (0 <= max_size)%Z -> t <> [] ->
  Chunker.chunk newline fuel max_size t = Some result ->
  Forall (fun c => c <> []) result.
Proof.
  intros HM Ht Hret. unfold Chunker.chunk in Hret.
  by eapply chunk_loop_pieces_nonempty.
Qed.

(** X3. On a text without a blank line the splitter returns for every
    [max_size >= 1], within one turn more than the text has characters. *)
Theorem chunk_returns_without_blank_line (max_size : Z) t :
  (1 <= max_size)%Z -> ~ Chunker.has_blank_line newline t ->
  exists result, Chunker.chunk newline (S (length t)) max_size t = Some result.
Proof.
  intros HM Hblank. unfold Chunker.chunk.
  by apply chunk_loop_no_blank.
Qed.

End ChunkReturns.

(** Witnesses on a text of twelve letters cut every five. *)
Lemma chunk_returns_lossless_bounded_witness :
  (0 <= 5)%Z
  /\ Chunker.chunk Chunker.newline_char 3 5 (list_ascii_of_string "abcdefghijkl")
     = Some (map list_ascii_of_string ["abcde"; "fghij"; "kl"])
  /\ concat (map list_ascii_of_string ["abcde"; "fghij"; "kl"])
     = list_ascii_of_string "abcdefghijkl".
Proof.
  assert (Hret : Chunker.chunk Chunker.newline_char 3 5 (list_ascii_of_string "abcdefghijkl")
                 = Some (map list_ascii_of_string ["abcde"; "fghij"; "kl"]))
    by reflexivity.
  split; [lia |]. split; [exact Hret |].
  exact (proj1 (chunk_returns_lossless_bounded Chunker.newline_char 3 5 _ _
                  ltac:(lia) Hret)).
Defined.

Lemma chunk_returns_no_empty_piece_witness :
  (0 <= 5)%Z
  /\ list_ascii_of_string "abcdefghijkl" <> []
  /\ Chunker.chunk Chunker.newline_char 3 5 (list_ascii_of_string "abcdefghijkl")
     = Some (map list_ascii_of_string ["abcde"; "fghij"; "kl"])
  /\ Forall (fun c => c <> []) (map list_ascii_of_string ["abcde"; "fghij"; "kl"]).
Proof.
  assert (Hret : Chunker.chunk Chunker.newline_char 3 5 (list_ascii_of_string "abcdefghijkl")
                 = Some (map list_ascii_of_string ["abcde"; "fghij"; "kl"]))
    by reflexivity.
  assert (Ht : list_ascii_of_string "abcdefghijkl" <> []) by discriminate.
  split; [lia |]. split; [exact Ht |]. split; [exact Hret |].
  exact (chunk_returns_no_empty_piece Chunker.newline_char 3 5 _ _ ltac:(lia) Ht Hret).
Defined.

Lemma chunk_returns_without_blank_line_witness :
  (1 <= 5)%Z
  /\ ~ Chunker.has_blank_line Chunker.newline_char (list_ascii_of_string "abcdefghijkl")
  /\ exists result,
       Chunker.chunk Chunker.newline_char 13 5 (list_ascii_of_string "abcdefghijkl")
       = Some result.
Proof.
  assert (Hblank : ~ Chunker.has_blank_line Chunker.newline_char
                       (list_ascii_of_string "abcdefghijkl")).
  { intros [i Hi]. do 13 (destruct i as [| i]; [discriminate Hi |]).
    cbn in Hi. destruct i; discriminate Hi. }
  split; [lia |]. split; [exact Hblank |].
  exact (chunk_returns_without_blank_line Chunker.newline_char 5 _ ltac:(lia) Hblank).
Defined.

(** ** More on the distribution of the words *)

(** A slice of a list holds only elements of the list. *)
Lemma slice_subseteq {A} (lo hi : option Z) (l : list A) : Py.slice lo hi l ⊆ l.
Proof.
  unfold Py.slice. etrans; [apply subseteq_take | apply subseteq_drop].
Qed.

(** X4. For non-negative [s3] and [s4] the composition words are the
    first [s3] words of the pool [section1 ++ section2] and the context
    words the [s4] words that follow them: the two lists share no position
    of the pool and together are its first [s3 + s4] words. *)
Theorem distribute_composition_then_context
    (words : list word_data) (total_count s1 s2 s3 s4 s5 : Z) :
  (0 <= s3)%Z -> (0 <= s4)%Z ->
  let a := distribute total_count s1 s2 s3 s4 s5 words in
  let pool := section1_words a ++ section2_words a in
  composition_words a = take (Z.to_nat s3) pool
  /\ context_words a = take (Z.to_nat s4) (drop (Z.to_nat s3) pool)
  /\ composition_words a ++ context_words a = take (Z.to_nat s3 + Z.to_nat s4) pool.
Proof.
  intros Hs3 Hs4 a pool.
  assert (Hc : composition_words a = take (Z.to_nat s3) pool).
  { subst a pool. unfold distribute. cbn [composition_words section1_words section2_words].
    by apply slice_to_nonneg. }
  assert (Hx : context_words a = take (Z.to_nat s4) (drop (Z.to_nat s3) pool)).
  { subst a pool. unfold distribute. cbn [context_words section1_words section2_words].
    rewrite slice_between_nonneg by lia. f_equal. lia. }
  split; [exact Hc |]. split; [exact Hx |].
  rewrite Hc, Hx. apply take_take_drop.
Qed.

Lemma distribute_composition_then_context_witness :
  (0 <= 2)%Z /\ (0 <= 3)%Z
  /\ map word (composition_words (distribute 30 15 15 2 3 10 (sample_words 10))
               ++ context_words (distribute 30 15 15 2 3 10 (sample_words 10)))
     = ["word0"; "word1"; "word2"; "word3"; "word4"].
Proof.
  split; [lia |]. split; [lia |].
  destruct (distribute_composition_then_context (sample_words 10) 30 15 15 2 3 10)
    as (_ & _ & H); [lia | lia |].
  rewrite H. vm_compute. reflexivity.
Defined.

(** X5. When the sample has at least [s1 + s2] words, and [total] is below
    30 or at least [s1 + s2], no word is used twice in Sections 1 and 2:
    the two sections are the first [s1 + s2] words of the sample, Section 2
    following Section 1. *)
Theorem distribute_without_reuse
    (words : list word_data) (total_count s1 s2 s3 s4 s5 : Z) :
  (0 <= s1)%Z -> (0 <= s2)%Z ->
  Z.to_nat s1 + Z.to_nat s2 <= length words ->
  (total_count < 30 \/ s1 + s2 <= total_count)%Z ->
  let a := distribute total_count s1 s2 s3 s4 s5 words in
  section2_words a = take (Z.to_nat s2) (drop (Z.to_nat s1) words)
  /\ section1_words a ++ section2_words a = take (Z.to_nat s1 + Z.to_nat s2) words
  /\ (NoDup words -> NoDup (section1_words a ++ section2_words a)).
Proof.
  intros Hs1 Hs2 Hk Htotal a.
  assert (H1 : section1_words a = take (Z.to_nat s1) words).
  { subst a. unfold distribute. cbn [section1_words]. by apply slice_to_nonneg. }
  assert (H2 : section2_words a = take (Z.to_nat s2) (drop (Z.to_nat s1) words)).
  { subst a. unfold distribute. cbn [section2_words]. rewrite tail_window by done.
    destruct (Z.geb_spec total_count 30) as [Hbig | Hsmall].
    - assert (Hlen : length (take (Z.to_nat total_count - Z.to_nat s1)
                               (drop (Z.to_nat s1) words))
                     = Nat.min (Z.to_nat total_count - Z.to_nat s1)
                         (length words - Z.to_nat s1))
        by (by rewrite length_take, length_drop).
      unfold Py.len. rewrite Hlen.
      destruct (Z.ltb_spec
                  (Z.of_nat (Nat.min (Z.to_nat total_count - Z.to_nat s1)
                               (length words - Z.to_nat s1))) s2); [lia |].
      rewrite slice_to_nonneg by done. rewrite take_take. f_equal. lia.
    - unfold Py.len. rewrite length_drop.
      destruct (Z.ltb_spec (Z.of_nat (length words - Z.to_nat s1)) s2); [lia |].
      by apply slice_to_nonneg. }
  split; [exact H2 |]. split.
  - rewrite H1, H2. apply take_take_drop.
  - intros Hnodup. rewrite H1, H2, take_take_drop.
    eapply sublist_NoDup; [exact Hnodup | apply sublist_take].
Qed.

Lemma distribute_without_reuse_witness :
  (0 <= 4)%Z /\ (0 <= 5)%Z
  /\ Z.to_nat 4 + Z.to_nat 5 <= length (sample_words 10)
  /\ (10 < 30 \/ 4 + 5 <= 10)%Z
  /\ map word (section2_words (distribute 10 4 5 5 5 10 (sample_words 10)))
     = ["word4"; "word5"; "word6"; "word7"; "word8"].
Proof.
  assert (Hk : Z.to_nat 4 + Z.to_nat 5 <= length (sample_words 10)) by (vm_compute; lia).
  split; [lia |]. split; [lia |]. split; [exact Hk |]. split; [lia |].
  destruct (distribute_without_reuse (sample_words 10) 10 4 5 5 5 10)
    as (H & _); [lia | lia | exact Hk | lia |].
  rewrite H. vm_compute. reflexivity.
Defined.

(** X6. For all counts, negative ones included, every word of each of the
    five lists is a word of the sample: the distribution invents no
    word. *)
Theorem distribute_only_sample_words
    (words : list word_data) (total_count s1 s2 s3 s4 s5 : Z) :
  let a := distribute total_count s1 s2 s3 s4 s5 words in
  section1_words a ⊆ words /\ section2_words a ⊆ words
  /\ composition_words a ⊆ words /\ context_words a ⊆ words
  /\ synonym_words a ⊆ words.
Proof.
  intros a.
  assert (H1 : section1_words a ⊆ words) by apply slice_subseteq.
  assert (H2 : section2_words a ⊆ words).
  { subst a. unfold distribute. cbn [section2_words].
    etrans; [apply slice_subseteq |].
    set (tail := if (total_count >=? 30)%Z then _ else _).
    assert (Htail : tail ⊆ words).
    { subst tail. destruct (total_count >=? 30)%Z; apply slice_subseteq. }
    destruct (Py.len tail <? s2)%Z; [| done].
    intros x [Hx | Hx]%elem_of_app; [by apply Htail |].
    by eapply slice_subseteq. }
  assert (Hpool : section1_words a ++ section2_words a ⊆ words).
  { intros x [Hx | Hx]%elem_of_app; [by apply H1 | by apply H2]. }
  split_and!; try done.
  - etrans; [apply slice_subseteq | exact Hpool].
  - etrans; [apply slice_subseteq | exact Hpool].
  - etrans; [apply slice_subseteq |]. etrans; [apply list_subseteq_filter | exact Hpool].
Qed.

(** ** What exam generation leaves untouched *)

(** Drawing changes the generator only. *)
Lemma draw_world {A} (k : nat) (pool : list A) (w : World) :
  rows (snd (draw k pool w)) = rows w
  /\ faults (snd (draw k pool w)) = faults w
  /\ ticks (snd (draw k pool w)) = ticks w.
Proof.
  revert pool w. induction k as [| k IH]; intros pool w; [done |].
  cbn [draw]. unfold randbelow.
  destruct (rng w) as [| r rs].
  - destruct (pool !! 0) as [x |]; [| done].
    specialize (IH (delete 0 pool) w). by destruct (draw k (delete 0 pool) w).
  - destruct (pool !! (r mod length pool)) as [x |]; [| done].
    specialize (IH (delete (r mod length pool) pool) (set_rng rs w)).
    by destruct (draw k (delete (r mod length pool) pool) (set_rng rs w)).
Qed.

(** [get_random_words] does not write to the worksheet and does not read
    the clock. *)
Lemma get_random_words_world (count : Z) (w : World) :
  rows (snd (get_random_words count w)) = rows w
  /\ ticks (snd (get_random_words count w)) = ticks w.
Proof.
  unfold get_random_words, get_all_values, api_call.
  destruct (faults w) as [| [e |] fs]; cbn [fst snd]; try done;
    unfold random_sample;
    match goal with
    | |- context [if ?b then _ else _] => destruct b
    end; cbn [fst snd]; try done.
  - pose proof (draw_world
                  (Z.to_nat (if (Py.len (Py.slice_from 1 (rows w)) <? count)%Z
                             then Py.len (Py.slice_from 1 (rows w)) else count))
                  (Py.slice_from 1 (rows w)) w) as (Hr & _ & Ht).
    by destruct (draw _ _ w).
  - pose proof (draw_world
                  (Z.to_nat (if (Py.len (Py.slice_from 1 (rows (set_faults fs w))) <? count)%Z
                             then Py.len (Py.slice_from 1 (rows (set_faults fs w)))
                             else count))
                  (Py.slice_from 1 (rows (set_faults fs w))) (set_faults fs w))
      as (Hr & _ & Ht).
    by destruct (draw _ _ (set_faults fs w)).
Qed.

(** X7. [generate_exam] never writes to the worksheet.  When it fails for
    want of words it has not read the clock; when it succeeds it has read
    the clock exactly twice, once for each document. *)
Theorem generate_exam_reads_only (total_count s1 s2 s3 s4 s5 : Z) (w : World) :
  let result := generate_exam total_count s1 s2 s3 s4 s5 w in
  rows (snd result) = rows w
  /\ ((exists msg, fst result = Failure msg) <-> ticks (snd result) = ticks w)
  /\ ((exists e, fst result = Success e) <-> ticks (snd result) = ticks w + 2).
Proof.
  intros result. subst result. rewrite generate_exam_unfold.
  destruct (get_random_words_world total_count w) as [Hrows Hticks].
  set (words := fst (get_random_words total_count w)).
  set (w1 := snd (get_random_words total_count w)) in *.
  destruct (Nat.lt_ge_cases (length words) 10) as [Hk | Hk].
  - rewrite generate_exam_from_short by done. cbn [fst snd].
    split; [done |]. split; split; eauto; try lia.
    intros [e He]. discriminate He.
  - rewrite generate_exam_from_enough by done. cbn [fst snd].
    assert (Hr : rows (snd (render_documents
                              (distribute total_count s1 s2 s3 s4 s5 words) w1)) = rows w1)
      by reflexivity.
    assert (Ht : ticks (snd (render_documents
                               (distribute total_count s1 s2 s3 s4 s5 words) w1))
                 = S (S (ticks w1))) by reflexivity.
    rewrite Hr, Ht, Hrows, Hticks.
    split; [done |]. split; split; eauto; try lia.
    intros [msg Hmsg]. discriminate Hmsg.
Qed.

(** ** More on the word store *)

(** The first column of the worksheet. *)
Lemma col_values_calm (w : World) :
  faults w = [] -> col_values 1 w = (inr (map (fun r => nth 0 r "") (rows w)), w).
Proof. intros Hcalm. unfold col_values. by rewrite api_call_calm. Qed.

(** [add_to_sheet] while the spreadsheet service answers. *)
Lemma add_to_sheet_calm (info : word_info) (w : World) :
  faults w = [] ->
  add_to_sheet info w
  = if scan_cells (Py.lower (wi_word info)) (map (fun r => nth 0 r "") (rows w))
    then (false, w)
    else (true,
          set_rows (rows w ++ [[wi_word info; wi_korean_meaning info;
                                if Py.truthy (wi_synonyms info)
                                then Py.join ", " (wi_synonyms info) else ""]]) w).
Proof.
  intros Hcalm. unfold add_to_sheet, check_duplicate.
  rewrite col_values_calm by done.
  destruct (scan_cells _ _); [done |].
  rewrite col_values_calm by done. unfold insert_row. rewrite api_call_calm by done.
  by rewrite length_map, insert_after_last.
Qed.

(** X8. While the spreadsheet service answers, [add_to_sheet] keeps the
    worksheet free of words that differ only by letter case: if no two
    cells of the first column are equal in lower case before the call, none
    are after it. *)
Theorem add_to_sheet_keeps_words_distinct (info : word_info) (w : World) :
  faults w = [] ->
  NoDup (map (fun r => Py.lower (nth 0 r "")) (rows w)) ->
  NoDup (map (fun r => Py.lower (nth 0 r "")) (rows (snd (add_to_sheet info w)))).
Proof.
  intros Hcalm Hnodup. rewrite add_to_sheet_calm by done.
  destruct (scan_cells _ _) eqn:Hscan; [done |].
  cbn [snd rows set_rows]. rewrite map_app. cbn [map nth].
  apply NoDup_app. split; [done |]. split; [| apply NoDup_singleton].
  intros x Hx Hlast. apply list_elem_of_singleton in Hlast. subst x.
  assert (Hdup : scan_cells (Py.lower (wi_word info))
                   (map (fun r => nth 0 r "") (rows w)) = true); [| congruence].
  apply scan_cells_true.
  apply list_elem_of_fmap in Hx as (r & Hr & Hin).
  exists (nth 0 r ""). split; [| done].
  apply list_elem_of_fmap. by exists r.
Qed.

Lemma add_to_sheet_keeps_words_distinct_witness :
  let info := mkWordInfo "Pear" "배" ["a"; "b"] "" "" in
  let w := calm_world (sample_sheet 2) in
  faults w = []
  /\ NoDup (map (fun r => Py.lower (nth 0 r "")) (rows w))
  /\ NoDup (map (fun r => Py.lower (nth 0 r "")) (rows (snd (add_to_sheet info w)))).
Proof.
  intros info w.
  assert (Hcalm : faults w = []) by reflexivity.
  assert (Hnodup : NoDup (map (fun r => Py.lower (nth 0 r "")) (rows w))).
  { refine (bool_decide_unpack _ _). vm_compute. exact I. }
  split; [exact Hcalm |]. split; [exact Hnodup |].
  exact (add_to_sheet_keeps_words_distinct info w Hcalm Hnodup).
Defined.

(** X9. While the spreadsheet service answers, a word that has just been
    saved is found by [check_duplicate] in every letter case, and saving it
    again, in any letter case, returns [False] and leaves the worksheet as
    it is. *)
Theorem add_to_sheet_then_duplicate (info again : word_info) (w : World) :
  faults w = [] ->
  fst (add_to_sheet info w) = true ->
  Py.lower (wi_word again) = Py.lower (wi_word info) ->
  let w' := snd (add_to_sheet info w) in
  fst (check_duplicate (wi_word again) w') = true
  /\ add_to_sheet again w' = (false, w').
Proof.
  intros Hcalm Hadded Hsame w'. subst w'.
  rewrite add_to_sheet_calm in Hadded |- * by done.
  destruct (scan_cells _ _) eqn:Hscan; [discriminate Hadded |].
  cbn [snd].
  set (w' := set_rows _ w).
  assert (Hcalm' : faults w' = []) by exact Hcalm.
  assert (Hfound : scan_cells (Py.lower (wi_word again))
                     (map (fun r => nth 0 r "") (rows w')) = true).
  { apply scan_cells_true. exists (wi_word info). split; [| done].
    subst w'. cbn [rows set_rows]. rewrite map_app. apply elem_of_app. right.
    cbn [map nth]. apply list_elem_of_here. }
  split.
  - unfold check_duplicate. rewrite col_values_calm by done. exact Hfound.
  - rewrite add_to_sheet_calm by done. by rewrite Hfound.
Qed.

Lemma add_to_sheet_then_duplicate_witness :
  let info := mkWordInfo "Pear" "배" ["a"; "b"] "" "" in
  let again := mkWordInfo "pEAR" "배" [] "" "" in
  let w := calm_world (sample_sheet 2) in
  faults w = []
  /\ fst (add_to_sheet info w) = true
  /\ Py.lower (wi_word again) = Py.lower (wi_word info)
  /\ add_to_sheet again (snd (add_to_sheet info w)) = (false, snd (add_to_sheet info w)).
Proof.
  intros info again w.
  assert (Hcalm : faults w = []) by reflexivity.
  assert (Hadded : fst (add_to_sheet info w) = true) by (vm_compute; reflexivity).
  assert (Hsame : Py.lower (wi_word again) = Py.lower (wi_word info)) by reflexivity.
  split; [exact Hcalm |]. split; [exact Hadded |]. split; [exact Hsame |].
  exact (proj2 (add_to_sheet_then_duplicate info again w Hcalm Hadded Hsame)).
Defined.

(** ** Synonyms written and read back *)

Section SplitJoin.

Variables (c0 : ascii) (sep_tail : string).
Let sep : string := String c0 sep_tail.

(** The separator is found at the start of a text that starts with it. *)
Lemma prefix_append (s rest : string) : String.prefix s (s +:+ rest) = true.
Proof.
  induction s as [| x s IH]; [by destruct rest |].
  change (String x s +:+ rest) with (String x (s +:+ rest)). cbn [String.prefix].
  destruct (ascii_dec x x); [exact IH | done].
Qed.

(** The rest of a separator that was recognised is passed over. *)
Lemma split_go_skip (s rest cur : string) :
  Py.split_go sep (s +:+ rest) (String.length s) cur = Py.split_go sep rest 0 cur.
Proof.
  induction s as [| x s IH]; [by destruct rest |].
  exact IH.
Qed.

(** A piece without the first character of the separator is read to its
    end. *)
Lemma split_go_piece (p rest cur : string) :
  Py.has_char c0 p = false ->
  Py.split_go sep (p +:+ rest) 0 cur = Py.split_go sep rest 0 (cur +:+ p).
Proof.
  revert cur. induction p as [| x p IH]; intros cur Hp.
  - by rewrite append_nil_r.
  - cbn [Py.has_char] in Hp. apply orb_false_iff in Hp as [Hx Hp].
    change (String x p +:+ rest) with (String x (p +:+ rest)).
    cbn [Py.split_go]. unfold sep at 1. cbn [String.prefix].
    destruct (ascii_dec c0 x) as [-> | Hne].
    + by rewrite Ascii.eqb_refl in Hx.
    + fold sep. rewrite IH by done. f_equal.
      rewrite append_assoc. reflexivity.
Qed.

(** At a separator the piece read so far is given out. *)
Lemma split_go_sep (rest cur : string) :
  Py.split_go sep (sep +:+ rest) 0 cur = cur :: Py.split_go sep rest 0 "".
Proof.
  change (sep +:+ rest) with (String c0 (sep_tail +:+ rest)).
  cbn [Py.split_go].
  change (String c0 (sep_tail +:+ rest)) with (sep +:+ rest).
  rewrite prefix_append. f_equal.
  replace (String.length sep - 1) with (String.length sep_tail)
    by (unfold sep; cbn [String.length]; lia).
  apply split_go_skip.
Qed.

(** Splitting what was joined gives the pieces back, when no piece has the
    first character of the separator. *)
Lemma split_go_join (x : string) (xs : list string) (cur : string) :
  Forall (fun p => Py.has_char c0 p = false) (x :: xs) ->
  Py.split_go sep (Py.join sep (x :: xs)) 0 cur = (cur +:+ x) :: xs.
Proof.
  revert x cur. induction xs as [| y xs IH]; intros x cur Hall.
  - apply Forall_cons in Hall as [Hx _]. cbn [Py.join String.concat].
    rewrite <- (append_nil_r x) at 1. by rewrite split_go_piece.
  - apply Forall_cons in Hall as [Hx Hall].
    change (Py.join sep (x :: y :: xs)) with (x +:+ (sep +:+ Py.join sep (y :: xs))).
    rewrite split_go_piece by done. rewrite split_go_sep. f_equal.
    by rewrite IH.
Qed.

Lemma split_join (x : string) (xs : list string) :
  Forall (fun p => Py.has_char c0 p = false) (x :: xs) ->
  Py.split sep (Py.join sep (x :: xs)) = x :: xs.
Proof. intros Hall. unfold Py.split. by rewrite split_go_join. Qed.

End SplitJoin.

(** X10. The row that [add_to_sheet] writes for a word whose synonyms are
    not empty texts and hold no comma is read back by the row conversion of
    [get_random_words] as the same word, meaning and list of synonyms. *)
Theorem saved_word_reads_back (info : word_info) (w : World) :
  faults w = [] ->
  fst (add_to_sheet info w) = true ->
  Forall (fun s => s <> "" /\ Py.has_char "," s = false) (wi_synonyms info) ->
  last (rows (snd (add_to_sheet info w))) ≫= row_to_word
  = Some {| word := wi_word info;
            meaning := wi_korean_meaning info;
            synonyms := wi_synonyms info |}.
Proof.
  intros Hcalm Hadded Hsyn. rewrite add_to_sheet_calm in Hadded |- * by done.
  destruct (scan_cells _ _); [discriminate Hadded |].
  cbn [snd rows set_rows]. rewrite last_snoc. cbn [mbind option_bind].
  unfold row_to_word. cbn [length Nat.leb nth]. do 2 f_equal.
  destruct (wi_synonyms info) as [| x xs]; [reflexivity |].
  cbn [Py.truthy].
  assert (Hfree : Forall (fun p => Py.has_char "," p = false) (x :: xs)).
  { eapply Forall_impl; [exact Hsyn |]. by intros s [_ Hs]. }
  apply Forall_cons in Hsyn as [[Hx _] _].
  assert (Htext : Py.truthy_str (Py.join ", " (x :: xs)) = true).
  { destruct x as [| c x]; [done |]. by destruct xs. }
  rewrite Htext. by apply (split_join "," " ").
Qed.

Lemma saved_word_reads_back_witness :
  let info := mkWordInfo "Pear" "배" ["fruit"; "pome"] "" "" in
  let w := calm_world (sample_sheet 2) in
  faults w = []
  /\ fst (add_to_sheet info w) = true
  /\ Forall (fun s => s <> "" /\ Py.has_char "," s = false) (wi_synonyms info)
  /\ last (rows (snd (add_to_sheet info w))) ≫= row_to_word
     = Some {| word := "Pear"; meaning := "배"; synonyms := ["fruit"; "pome"] |}.
Proof.
  intros info w.
  assert (Hcalm : faults w = []) by reflexivity.
  assert (Hadded : fst (add_to_sheet info w) = true) by (vm_compute; reflexivity).
  assert (Hsyn : Forall (fun s => s <> "" /\ Py.has_char "," s = false) (wi_synonyms info)).
  { repeat constructor; discriminate. }
  split; [exact Hcalm |]. split; [exact Hadded |]. split; [exact Hsyn |].
  exact (saved_word_reads_back info w Hcalm Hadded Hsyn).
Defined.

(** ** The paragraphs to translate *)

(** The members of a range. *)
Lemma elem_of_range (a b i : Z) : i ∈ Py.range a b <-> (a <= i < b)%Z.
Proof.
  unfold Py.range. rewrite list_elem_of_fmap. split.
  - intros (n & -> & Hn). apply elem_of_seq in Hn. lia.
  - intros Hi. exists (Z.to_nat (i - a)). split; [lia |]. apply elem_of_seq. lia.
Qed.

(** A range has no number twice. *)
Lemma NoDup_range (a b : Z) : NoDup (Py.range a b).
Proof.
  unfold Py.range. apply NoDup_fmap_2; [| apply NoDup_seq].
  intros i j Hij. lia.
Qed.

Lemma length_range (a b : Z) : length (Py.range a b) = Z.to_nat (b - a).
Proof. unfold Py.range. by rewrite length_map, length_seq. Qed.

(** The selected positions have no position twice. *)
Lemma select_nodup (paragraphs : list string) (count : Z) :
  NoDup (Processor._select_translation_paragraphs paragraphs count).
Proof.
  unfold Processor._select_translation_paragraphs.
  destruct (_ <=? _)%Z; apply NoDup_range.
Qed.

(** The selected positions for a count that is not negative. *)
Lemma select_mem (paragraphs : list string) (count i : Z) :
  (0 <= count)%Z ->
  i ∈ Processor._select_translation_paragraphs paragraphs count
  <-> (Py.len paragraphs - Z.min count (Py.len paragraphs) <= i < Py.len paragraphs)%Z.
Proof.
  intros Hcount. unfold Processor._select_translation_paragraphs.
  assert (0 <= Py.len paragraphs)%Z by (unfold Py.len; lia).
  destruct (Z.leb_spec (Py.len paragraphs) count); rewrite elem_of_range; lia.
Qed.

(** X11. For every list of paragraphs and every count, negative ones
    included, the positions that [_select_translation_paragraphs] returns
    are positions of the list, none of them twice; for a count that is not
    negative they are the last [min count total] positions, so many in
    number. *)
Theorem select_translation_paragraphs_valid (paragraphs : list string) (count : Z) :
  let selected := Processor._select_translation_paragraphs paragraphs count in
  let total := Py.len paragraphs in
  (forall i, i ∈ selected -> (0 <= i < total)%Z)
  /\ NoDup selected
  /\ ((0 <= count)%Z ->
      length selected = Nat.min (Z.to_nat count) (length paragraphs)
      /\ forall i, i ∈ selected <-> (total - Z.min count total <= i < total)%Z).
Proof.
  intros selected total.
  assert (Htotal : (0 <= total)%Z) by (unfold total, Py.len; lia).
  split_and!.
  - intros i. subst selected. unfold Processor._select_translation_paragraphs. fold total.
    destruct (Z.leb_spec total count); intros Hi%elem_of_range; lia.
  - apply select_nodup.
  - intros Hcount. split; [| intros i; by apply select_mem].
    subst selected. unfold Processor._select_translation_paragraphs. fold total.
    destruct (Z.leb_spec total count); rewrite length_range;
      unfold total, Py.len in *; lia.
Qed.

(** ** The mixed content *)

(** The loop keeps the number and the order of the paragraphs: the entry
    at position [j] carries the number [start + j + 1]; it is an English
    entry with the text of the paragraph when that position is not among
    the translation indices and a Korean entry when it is. *)
Lemma mixed_loop_entries (paragraphs : list string) (start : nat) (indices : list Z)
    (context : string) (w : Processor.World) :
  let result := fst (Processor.mixed_loop (Py.enumerate start paragraphs) indices context w) in
  length result = length paragraphs
  /\ forall j text, paragraphs !! j = Some text ->
       exists entry, result !! j = Some entry
         /\ Processor.paragraph_number entry = (Z.of_nat (start + j) + 1)%Z
         /\ (Z.of_nat (start + j) ∉ indices ->
             Processor.type entry = "english" /\ Processor.content entry = text)
         /\ (Z.of_nat (start + j) ∈ indices -> Processor.type entry = "korean").
Proof.
  revert start w. induction paragraphs as [| p paragraphs IH]; intros start w result.
  - split; [done |]. intros j text Hj. by rewrite lookup_nil in Hj.
  - subst result. cbn [Py.enumerate Processor.mixed_loop].
    destruct (bool_decide_reflect (Z.of_nat start ∈ indices)) as [Hin | Hout].
    + destruct (Processor._translate_to_korean p context w) as [korean w1].
      specialize (IH (S start) w1). cbv zeta in IH.
      destruct (Processor.mixed_loop _ indices context w1) as [more w2].
      cbn [fst] in *. destruct IH as [IHlen IHent].
      split; [cbn [length]; by rewrite IHlen |].
      intros [| j] text Hj.
      * cbn in Hj. injection Hj as <-. eexists. split; [reflexivity |].
        rewrite Nat.add_0_r. cbn [Processor.paragraph_number Processor.type].
        split; [done |]. split; [done | done].
      * cbn in Hj. destruct (IHent j text Hj) as (entry & He & Hrest).
        exists entry. split; [exact He |].
        by replace (start + S j) with (S start + j) by lia.
    + specialize (IH (S start) w). cbv zeta in IH.
      destruct (Processor.mixed_loop _ indices context w) as [more w2].
      cbn [fst] in *. destruct IH as [IHlen IHent].
      split; [cbn [length]; by rewrite IHlen |].
      intros [| j] text Hj.
      * cbn in Hj. injection Hj as <-. eexists. split; [reflexivity |].
        rewrite Nat.add_0_r.
        cbn [Processor.paragraph_number Processor.type Processor.content].
        split; [done |]. split; [done | done].
      * cbn in Hj. destruct (IHent j text Hj) as (entry & He & Hrest).
        exists entry. split; [exact He |].
        by replace (start + S j) with (S start + j) by lia.
Qed.

(** The paragraphs of the mixed content are those of the loop. *)
Lemma create_mixed_content_paragraphs (paragraphs : list string) (indices : list Z)
    (a : Processor.article) (w : Processor.World) :
  Processor.mc_paragraphs (fst (Processor._create_mixed_content paragraphs indices a w))
  = fst (Processor.mixed_loop (Py.enumerate 0 paragraphs) indices (Processor.topic a) w).
Proof.
  unfold Processor._create_mixed_content.
  by destruct (Processor.mixed_loop _ indices (Processor.topic a) w).
Qed.

(** X12. For every list of translation indices, the mixed content has one
    entry for each paragraph, in the order of the article and numbered from
    1; an entry whose position is not among the indices is an English entry
    with the text of the paragraph unchanged, an entry whose position is
    among them is a Korean entry. *)
Theorem create_mixed_content_entries (paragraphs : list string) (indices : list Z)
    (a : Processor.article) (w : Processor.World) :
  let mixed := Processor.mc_paragraphs
                 (fst (Processor._create_mixed_content paragraphs indices a w)) in
  length mixed = length paragraphs
  /\ forall j text, paragraphs !! j = Some text ->
       exists entry, mixed !! j = Some entry
         /\ Processor.paragraph_number entry = (Z.of_nat j + 1)%Z
         /\ (Z.of_nat j ∉ indices ->
             Processor.type entry = "english" /\ Processor.content entry = text)
         /\ (Z.of_nat j ∈ indices -> Processor.type entry = "korean").
Proof.
  intros mixed. subst mixed. rewrite create_mixed_content_paragraphs.
  exact (mixed_loop_entries paragraphs 0 indices (Processor.topic a) w).
Qed.

(** The entries of each type, counted over the positions. *)
Lemma mixed_loop_types (paragraphs : list string) (start : nat) (indices : list Z)
    (context : string) (w : Processor.World) :
  let result := fst (Processor.mixed_loop (Py.enumerate start paragraphs) indices context w) in
  length (Processor.of_type "korean" result)
  = length (filter (fun j => Z.of_nat j ∈ indices) (seq start (length paragraphs)))
  /\ length (Processor.of_type "english" result)
     = length (filter (fun j => Z.of_nat j ∉ indices) (seq start (length paragraphs))).
Proof.
  revert start w. induction paragraphs as [| p paragraphs IH]; intros start w result;
    [done |].
  subst result. cbn [Py.enumerate Processor.mixed_loop length seq].
  unfold Processor.of_type in *.
  destruct (bool_decide_reflect (Z.of_nat start ∈ indices)) as [Hin | Hout].
  - destruct (Processor._translate_to_korean p context w) as [korean w1].
    specialize (IH (S start) w1). cbv zeta in IH.
    destruct (Processor.mixed_loop _ indices context w1) as [more w2].
    cbn [fst] in *. destruct IH as [IHk IHe].
    rewrite (filter_cons_True (fun j => Z.of_nat j ∈ indices)) by done.
    rewrite (filter_cons_False (fun j => Z.of_nat j ∉ indices)) by tauto.
    rewrite filter_cons_True by done. rewrite filter_cons_False by done.
    cbn [length]. by rewrite IHk, IHe.
  - specialize (IH (S start) w). cbv zeta in IH.
    destruct (Processor.mixed_loop _ indices context w) as [more w2].
    cbn [fst] in *. destruct IH as [IHk IHe].
    rewrite (filter_cons_False (fun j => Z.of_nat j ∈ indices)) by done.
    rewrite (filter_cons_True (fun j => Z.of_nat j ∉ indices)) by done.
    rewrite filter_cons_False by done. rewrite filter_cons_True by done.
    cbn [length]. by rewrite IHk, IHe.
Qed.

(** Distinct positions of a list of [n] elements are as many as the
    positions below [n] that are among them. *)
Lemma count_positions (indices : list Z) (n : nat) :
  NoDup indices -> (forall i, i ∈ indices -> (0 <= i < Z.of_nat n)%Z) ->
  length (filter (fun j => Z.of_nat j ∈ indices) (seq 0 n)) = length indices.
Proof.
  intros Hnodup Hvalid.
  rewrite <- (length_map Z.of_nat). apply Permutation_length.
  apply NoDup_Permutation; [| done |].
  - apply NoDup_fmap_2; [intros i j; lia |]. apply NoDup_filter, NoDup_seq.
  - intros z. rewrite list_elem_of_fmap. split.
    + intros (j & -> & Hj). by apply list_elem_of_filter in Hj as [Hj _].
    + intros Hz. exists (Z.to_nat z). pose proof (Hvalid z Hz).
      split; [lia |]. apply list_elem_of_filter. split.
      * by replace (Z.of_nat (Z.to_nat z)) with z by lia.
      * apply elem_of_seq. lia.
Qed.

(** X13. When the translation indices are distinct positions of the list
    of paragraphs, the counts that the mixed content gives in
    ['content_structure'] are the numbers of its Korean and of its English
    entries, and their sum is the number of paragraphs. *)
Theorem create_mixed_content_counts (paragraphs : list string) (indices : list Z)
    (a : Processor.article) (w : Processor.World) :
  NoDup indices ->
  (forall i, i ∈ indices -> (0 <= i < Py.len paragraphs)%Z) ->
  let mixed := fst (Processor._create_mixed_content paragraphs indices a w) in
  let structure := Processor.mc_content_structure mixed in
  Processor.korean_paragraphs structure
  = Py.len (Processor.of_type "korean" (Processor.mc_paragraphs mixed))
  /\ Processor.english_paragraphs structure
     = Py.len (Processor.of_type "english" (Processor.mc_paragraphs mixed))
  /\ Processor.total_paragraphs structure = Py.len paragraphs
  /\ Processor.total_paragraphs structure
     = (Processor.english_paragraphs structure
        + Processor.korean_paragraphs structure)%Z.
Proof.
  intros Hnodup Hvalid mixed structure.
  pose proof (mixed_loop_types paragraphs 0 indices (Processor.topic a) w) as [Hk He].
  pose proof (mixed_loop_entries paragraphs 0 indices (Processor.topic a) w) as [Hlen _].
  pose proof (count_positions indices (length paragraphs) Hnodup Hvalid) as Hcount.
  assert (Hsplit : length (filter (fun j => Z.of_nat j ∈ indices)
                             (seq 0 (length paragraphs)))
                   + length (filter (fun j => Z.of_nat j ∉ indices)
                               (seq 0 (length paragraphs)))
                   = length paragraphs).
  { rewrite <- length_app, (filter_app_complement _ (seq 0 (length paragraphs))).
    apply length_seq. }
  subst structure mixed. unfold Processor._create_mixed_content.
  destruct (Processor.mixed_loop _ indices (Processor.topic a) w) as [entries w1].
  cbn [fst Processor.mc_content_structure Processor.mc_paragraphs
       Processor.korean_paragraphs Processor.english_paragraphs
       Processor.total_paragraphs Processor.datetime_now] in *.
  unfold Py.len. rewrite Hk, He, Hlen. split_and!; lia.
Qed.

Lemma create_mixed_content_counts_witness :
  let paragraphs := ["one"; "two"; "three"; "four"] in
  let indices := Processor._select_translation_paragraphs paragraphs 2 in
  let w := Processor.mkWorld [Some " 셋 "; Some "넷"] frozen_clock 0 in
  let mixed := fst (Processor._create_mixed_content paragraphs indices
                      (Processor.mkArticle "t" "medical" "" "" paragraphs) w) in
  NoDup indices
  /\ (forall i, i ∈ indices -> (0 <= i < Py.len paragraphs)%Z)
  /\ Processor.korean_paragraphs (Processor.mc_content_structure mixed)
     = Py.len (Processor.of_type "korean" (Processor.mc_paragraphs mixed)).
Proof.
  intros paragraphs indices w mixed.
  assert (Hnodup : NoDup indices).
  { refine (bool_decide_unpack _ _). vm_compute. exact I. }
  assert (Hvalid : forall i, i ∈ indices -> (0 <= i < Py.len paragraphs)%Z).
  { intros i Hi. apply list_elem_of_In in Hi. vm_compute in Hi.
    destruct Hi as [<- | [<- | []]]; vm_compute; split; congruence. }
  split; [exact Hnodup |]. split; [exact Hvalid |].
  exact (proj1 (create_mixed_content_counts paragraphs indices
                  (Processor.mkArticle "t" "medical" "" "" paragraphs) w Hnodup Hvalid)).
Defined.

(** X14. With the indices that [process_article] passes, those of
    [_select_translation_paragraphs] for the count 2, the Korean entries of
    the mixed content are the last two paragraphs (all of them when there
    are fewer than two) and every paragraph before them is an English entry
    with its text unchanged. *)
Theorem mixed_content_of_last_two (paragraphs : list string)
    (a : Processor.article) (w : Processor.World) :
  let indices := Processor._select_translation_paragraphs paragraphs 2 in
  let mixed := fst (Processor._create_mixed_content paragraphs indices a w) in
  let n := length paragraphs in
  length (Processor.of_type "korean" (Processor.mc_paragraphs mixed)) = Nat.min 2 n
  /\ forall j text, paragraphs !! j = Some text ->
       exists entry, Processor.mc_paragraphs mixed !! j = Some entry
         /\ (j + 2 < n ->
             Processor.type entry = "english" /\ Processor.content entry = text)
         /\ (n <= j + 2 -> Processor.type entry = "korean").
Proof.
  intros indices mixed n.
  assert (Hmem : forall i, i ∈ indices
                   <-> (Z.of_nat n - Z.min 2 (Z.of_nat n) <= i < Z.of_nat n)%Z)
    by (intros i; apply (select_mem paragraphs 2 i); lia).
  assert (Hnodup : NoDup indices) by apply select_nodup.
  assert (Hvalid : forall i, i ∈ indices -> (0 <= i < Z.of_nat (length paragraphs))%Z).
  { intros i Hi%Hmem. fold n. lia. }
  assert (Hlen : length indices = Nat.min 2 n).
  { subst indices. unfold Processor._select_translation_paragraphs, Py.len. fold n.
    destruct (Z.leb_spec (Z.of_nat n) 2); rewrite length_range; lia. }
  subst mixed. rewrite create_mixed_content_paragraphs. split.
  - pose proof (mixed_loop_types paragraphs 0 indices (Processor.topic a) w) as [Hk _].
    cbv zeta in Hk. rewrite Hk.
    by rewrite (count_positions indices (length paragraphs) Hnodup Hvalid).
  - intros j text Hj.
    destruct (mixed_loop_entries paragraphs 0 indices (Processor.topic a) w) as [_ Hent].
    destruct (Hent j text Hj) as (entry & He & _ & Heng & Hkor).
    exists entry. split; [exact He |].
    pose proof (lookup_lt_Some _ _ _ Hj) as Hjn. fold n in Hjn.
    split.
    + intros Hbefore. apply Heng. rewrite Hmem. cbn [Nat.add]. lia.
    + intros Hafter. apply Hkor. apply Hmem. cbn [Nat.add]. lia.
Qed.

(** The translation and the service: without an answer the text comes
    back as it was given. *)
Lemma mixed_loop_without_answers (paragraphs : list string) (start : nat)
    (indices : list Z) (context : string) (w : Processor.World) :
  Processor.answers w = [] ->
  map Processor.content
    (fst (Processor.mixed_loop (Py.enumerate start paragraphs) indices context w))
  = paragraphs.
Proof.
  intros Hdown. revert start. induction paragraphs as [| p paragraphs IH]; intros start;
    [done |].
  cbn [Py.enumerate Processor.mixed_loop].
  unfold Processor._translate_to_korean, Processor.messages_create. rewrite Hdown.
  specialize (IH (S start)).
  destruct (Processor.mixed_loop _ indices context w) as [more w2].
  cbn [fst] in IH.
  destruct (bool_decide _); cbn [fst map Processor.content]; by rewrite IH.
Qed.

(** X15. When every call of the language model raises, the mixed content
    still has all its entries, and each of them, the entries marked as
    Korean included, carries the English text of its paragraph. *)
Theorem create_mixed_content_without_translation (paragraphs : list string)
    (indices : list Z) (a : Processor.article) (w : Processor.World) :
  Processor.answers w = [] ->
  map Processor.content
    (Processor.mc_paragraphs (fst (Processor._create_mixed_content paragraphs indices a w)))
  = paragraphs.
Proof.
  intros Hdown. rewrite create_mixed_content_paragraphs.
  by apply mixed_loop_without_answers.
Qed.

Lemma create_mixed_content_without_translation_witness :
  let paragraphs := ["one"; "two"; "three"] in
  let w := Processor.mkWorld [] frozen_clock 0 in
  Processor.answers w = []
  /\ map Processor.content
       (Processor.mc_paragraphs
          (fst (Processor._create_mixed_content paragraphs [1%Z; 2%Z]
                  (Processor.mkArticle "t" "medical" "" "" paragraphs) w)))
     = paragraphs.
Proof.
  intros paragraphs w.
  assert (Hdown : Processor.answers w = []) by reflexivity.
  split; [exact Hdown |].
  exact (create_mixed_content_without_translation paragraphs [1%Z; 2%Z]
           (Processor.mkArticle "t" "medical" "" "" paragraphs) w Hdown).
Defined.

(** ** The daily topic *)

(** The topic of a day of the year is one of the three. *)
Lemma nth_topic (d : nat) : nth (d mod 3) Pipeline.topics "" ∈ Pipeline.topics.
Proof.
  pose proof (Nat.mod_upper_bound d 3 ltac:(lia)) as Hr.
  destruct (d mod 3) as [| [| [| r]]]; [| | | lia]; unfold Pipeline.topics; cbn [nth];
    set_solver.
Qed.

(** X16. [get_daily_topic] always returns one of the three topics, so that
    [topics.remove(daily_topic)] in [run_daily_pipeline] does not raise: the
    pipeline asks the daily topic first and then the two other topics, each
    topic once.  A [FORCE_TOPIC] that is one of the three topics once in
    lower case is the topic returned, whatever the day. *)
Theorem get_daily_topic_is_a_topic (now : DateTime) (force_env : option string) :
  let daily := Pipeline.get_daily_topic now force_env in
  daily ∈ Pipeline.topics
  /\ (exists others, Pipeline.ordered_topics daily = Some (daily :: others)
                     /\ daily :: others ≡ₚ Pipeline.topics)
  /\ (forall forced, force_env = Some forced ->
        Py.lower forced ∈ Pipeline.topics -> daily = Py.lower forced).
Proof.
  intros daily.
  assert (Hin : daily ∈ Pipeline.topics).
  { subst daily. unfold Pipeline.get_daily_topic.
    destruct (bool_decide_reflect
                (Py.lower (default "" force_env) ∈ Pipeline.topics)); [done |].
    apply nth_topic. }
  split; [exact Hin |]. split.
  - unfold Pipeline.topics in Hin.
    apply elem_of_cons in Hin as [-> | Hin]; [eexists; split; [reflexivity | done] |].
    apply elem_of_cons in Hin as [-> | Hin];
      [eexists; split; [reflexivity | apply perm_swap] |].
    apply list_elem_of_singleton in Hin as ->.
    eexists. split; [reflexivity |].
    unfold Pipeline.topics. by rewrite (Permutation_cons_append ["medical"; "politics"]).
  - intros forced -> Hforced. subst daily. unfold Pipeline.get_daily_topic.
    cbn [default]. by rewrite bool_decide_eq_true_2.
Qed.

(** X17. Without a [FORCE_TOPIC] that names a topic, two days that follow
    each other in a year have different topics, and three days in a row
    have the three topics. *)
Theorem get_daily_topic_rotates (d1 d2 d3 : DateTime) (force_env : option string) :
  Py.lower (default "" force_env) ∉ Pipeline.topics ->
  Pipeline.tm_yday d2 = S (Pipeline.tm_yday d1) ->
  Pipeline.tm_yday d3 = S (Pipeline.tm_yday d2) ->
  Pipeline.get_daily_topic d1 force_env <> Pipeline.get_daily_topic d2 force_env
  /\ [Pipeline.get_daily_topic d1 force_env; Pipeline.get_daily_topic d2 force_env;
      Pipeline.get_daily_topic d3 force_env] ≡ₚ Pipeline.topics.
Proof.
  intros Hforce H2 H3. unfold Pipeline.get_daily_topic.
  rewrite bool_decide_eq_false_2 by done. rewrite H3, H2.
  set (d := Pipeline.tm_yday d1).
  replace (S (S d)) with (d + 2) by lia. replace (S d) with (d + 1) by lia.
  rewrite (Nat.Div0.add_mod d 1 3), (Nat.Div0.add_mod d 2 3).
  pose proof (Nat.mod_upper_bound d 3 ltac:(lia)) as Hr.
  destruct (d mod 3) as [| [| [| r]]]; [| | | lia];
    cbn; (split; [discriminate |]);
    refine (bool_decide_unpack _ _); vm_compute; exact I.
Qed.

Lemma get_daily_topic_rotates_witness :
  let d1 := mkDateTime 2024 3 5 7 9 0 in
  let d2 := mkDateTime 2024 3 6 7 9 0 in
  let d3 := mkDateTime 2024 3 7 7 9 0 in
  (Py.lower (default "" None) ∉ Pipeline.topics)
  /\ Pipeline.tm_yday d2 = S (Pipeline.tm_yday d1)
  /\ Pipeline.tm_yday d3 = S (Pipeline.tm_yday d2)
  /\ Pipeline.get_daily_topic d1 None <> Pipeline.get_daily_topic d2 None.
Proof.
  intros d1 d2 d3.
  assert (Hforce : Py.lower (default "" None) ∉ Pipeline.topics).
  { intros Hin. apply list_elem_of_In in Hin. vm_compute in Hin.
    destruct Hin as [H | [H | [H | []]]]; discriminate H. }
  assert (H2 : Pipeline.tm_yday d2 = S (Pipeline.tm_yday d1)) by reflexivity.
  assert (H3 : Pipeline.tm_yday d3 = S (Pipeline.tm_yday d2)) by reflexivity.
  split; [exact Hforce |]. split; [exact H2 |]. split; [exact H3 |].
  exact (proj1 (get_daily_topic_rotates d1 d2 d3 None Hforce H2 H3)).
Defined.

(** ** The daily pipeline *)

Section PipelineFacts.

Variables (Article Mixed Commentary : Type).
Variable extract_articles : string -> list Article.
Variable process_article : Article -> Pipeline.ai_result Mixed Commentary.
Variable send_daily_materials : Mixed -> Commentary -> Pipeline.slack_result.

(** The loop over the topics passes over the topics without articles. *)
Lemma search_first (before after : list string) (topic : string)
    (articles : list Article) :
  Forall (fun t => extract_articles t = []) before ->
  extract_articles topic <> [] ->
  Pipeline.search Article extract_articles (before ++ topic :: after) articles
  = extract_articles topic.
Proof.
  intros Hbefore Hfound. revert articles.
  induction Hbefore as [| t before Ht _ IH]; intros articles; cbn [app Pipeline.search].
  - by destruct (extract_articles topic).
  - rewrite Ht. cbn [Py.truthy]. apply IH.
Qed.

(** When no topic has articles the loop ends with no article. *)
Lemma search_none (topics : list string) :
  Forall (fun t => extract_articles t = []) topics ->
  Pipeline.search Article extract_articles topics [] = [].
Proof.
  induction 1 as [| t topics Ht _ IH]; cbn [Pipeline.search]; [done |].
  rewrite Ht. cbn [Py.truthy]. exact IH.
Qed.

(** Either no topic of a list has articles, or there is a first one that
    has. *)
Lemma first_topic_with_articles (topics : list string) :
  Forall (fun t => extract_articles t = []) topics
  \/ exists before found after first more,
       topics = before ++ found :: after
       /\ Forall (fun t => extract_articles t = []) before
       /\ extract_articles found = first :: more.
Proof.
  induction topics as [| t topics IH]; [by left |].
  destruct (extract_articles t) as [| first more] eqn:Ht.
  - destruct IH as [Hall | (before & found & after & a & l & -> & Hbefore & Hfound)].
    + left. by constructor.
    + right. exists (t :: before), found, after, a, l. split; [done |].
      split; [by constructor | done].
  - right. by exists [], t, topics, first, more.
Qed.

(** The order in which the pipeline asks the topics. *)
Lemma ordered_daily_topic (now : DateTime) (force_env : option string) :
  exists others,
    Pipeline.ordered_topics (Pipeline.get_daily_topic now force_env)
    = Some (Pipeline.get_daily_topic now force_env :: others)
    /\ Pipeline.get_daily_topic now force_env :: others ≡ₚ Pipeline.topics.
Proof.
  set (daily := Pipeline.get_daily_topic now force_env).
  assert (Hin : daily ∈ Pipeline.topics).
  { subst daily. unfold Pipeline.get_daily_topic.
    destruct (bool_decide_reflect
                (Py.lower (default "" force_env) ∈ Pipeline.topics)); [done |].
    apply nth_topic. }
  unfold Pipeline.topics in Hin.
  apply elem_of_cons in Hin as [-> | Hin]; [eexists; split; [reflexivity | done] |].
  apply elem_of_cons in Hin as [-> | Hin];
    [eexists; split; [reflexivity | apply perm_swap] |].
  apply list_elem_of_singleton in Hin as ->.
  eexists. split; [reflexivity |].
  unfold Pipeline.topics. by rewrite (Permutation_cons_append ["medical"; "politics"]).
Qed.

(** X18. The pipeline fails with the error of Phase 2 exactly when none of
    the three topics has an article. *)
Theorem run_daily_pipeline_phase_2 (now : DateTime) (force_env : option string) :
  Pipeline.run_daily_pipeline Article Mixed Commentary extract_articles process_article
    send_daily_materials now force_env
  = Pipeline.Failed "Phase 2: 기사 추출 실패"
  <-> Forall (fun t => extract_articles t = []) Pipeline.topics.
Proof.
  unfold Pipeline.run_daily_pipeline.
  destruct (ordered_daily_topic now force_env) as (others & -> & Hperm).
  rewrite <- Hperm.
  destruct (first_topic_with_articles
              (Pipeline.get_daily_topic now force_env :: others))
    as [Hall | (before & found & after & first & more & -> & Hbefore & Hfound)].
  - by rewrite search_none.
  - rewrite search_first by (done || by rewrite Hfound). rewrite Hfound. split.
    + intros Hfail. destruct (process_article first); discriminate Hfail.
    + intros Hall. apply Forall_app in Hall as [_ Hall].
      apply Forall_cons in Hall as [Hnone _]. by rewrite Hnone in Hfound.
Qed.

(** X19. When a topic has articles, the pipeline processes the first
    article of the first topic that has some, in the order daily topic,
    other topics.  If the processing succeeds the pipeline succeeds,
    whatever the sending to Slack returned: the report names the daily
    topic, also when the article was found under another topic, and
    [slack_sent] is true only when both messages were sent.  If the
    processing fails the pipeline fails with the error of Phase 3. *)
Theorem run_daily_pipeline_first_article (now : DateTime) (force_env : option string)
    (before after : list string) (found : string) (first : Article)
    (more : list Article) :
  Pipeline.ordered_topics (Pipeline.get_daily_topic now force_env)
  = Some (before ++ found :: after) ->
  Forall (fun t => extract_articles t = []) before ->
  extract_articles found = first :: more ->
  Pipeline.run_daily_pipeline Article Mixed Commentary extract_articles process_article
    send_daily_materials now force_env
  = match process_article first with
    | Pipeline.NotProcessed _ _ error => Pipeline.Failed ("Phase 3: " +:+ error)
    | Pipeline.Processed _ _ ai =>
        let slack := send_daily_materials (Pipeline.mixed_content_data _ _ ai)
                       (Pipeline.commentary_data _ _ ai) in
        Pipeline.Done
          {| Pipeline.topic := Pipeline.get_daily_topic now force_env;
             Pipeline.report_title := Pipeline.article_title _ _ ai;
             Pipeline.slack_sent :=
               Pipeline.mixed_content_sent slack && Pipeline.commentary_sent slack;
             Pipeline.files := (Pipeline.mixed_content_file _ _ ai,
                                Pipeline.commentary_file _ _ ai) |}
    end.
Proof.
  intros Horder Hbefore Hfound. unfold Pipeline.run_daily_pipeline. rewrite Horder.
  rewrite search_first by (done || by rewrite Hfound). rewrite Hfound.
  reflexivity.
Qed.

End PipelineFacts.

(** A witness of X19: on a day whose topic is technology only politics has
    an article; the article is processed and the report names
    technology. *)
Lemma run_daily_pipeline_first_article_witness :
  let extract := fun t : string => if String.eqb t "politics" then ["a1"; "a2"] else [] in
  let process := fun a : string =>
    Pipeline.Processed unit unit (Pipeline.mkProcessed unit unit a "m.json" "c.json" tt tt) in
  let send := fun (_ _ : unit) => Pipeline.mkSlackResult true false ["e"] in
  let now := mkDateTime 2024 3 5 7 9 0 in
  Pipeline.ordered_topics (Pipeline.get_daily_topic now None)
  = Some (["technology"; "medical"] ++ "politics" :: [])
  /\ Forall (fun t => extract t = []) ["technology"; "medical"]
  /\ extract "politics" = "a1" :: ["a2"]
  /\ Pipeline.run_daily_pipeline string unit unit extract process send now None
     = Pipeline.Done
         {| Pipeline.topic := "technology";
            Pipeline.report_title := "a1";
            Pipeline.slack_sent := false;
            Pipeline.files := ("m.json", "c.json") |}.
Proof.
  intros extract process send now.
  assert (Horder : Pipeline.ordered_topics (Pipeline.get_daily_topic now None)
                   = Some (["technology"; "medical"] ++ "politics" :: []))
    by reflexivity.
  assert (Hbefore : Forall (fun t => extract t = []) ["technology"; "medical"])
    by (repeat constructor).
  assert (Hfound : extract "politics" = "a1" :: ["a2"]) by reflexivity.
  split; [exact Horder |]. split; [exact Hbefore |]. split; [exact Hfound |].
  exact (run_daily_pipeline_first_article string unit unit extract process send now None
           ["technology"; "medical"] [] "politics" "a1" ["a2"] Horder Hbefore Hfound).
Defined.

(** ** The exam command *)

(** A character of a text is among its characters. *)
Lemma has_char_in (c : ascii) (s : string) :
  Py.has_char c s = true -> In c (list_ascii_of_string s).
Proof.
  induction s as [| x s IH]; cbn [Py.has_char list_ascii_of_string]; [done |].
  intros [Hx | Hs]%orb_true_iff.
  - left. by apply Ascii.eqb_eq.
  - right. by apply IH.
Qed.

(** [int] reads a run of digits as a number that is not negative. *)
Lemma int_go_digits (s : string) (acc : Z) :
  (0 <= acc)%Z ->
  (forall c, Py.has_char c s = true -> Py.digit_value c <> None) ->
  exists z, Py.int_go acc s = Some z /\ (0 <= z)%Z.
Proof.
  revert acc. induction s as [| c s IH]; intros acc Hacc Hdigits; [by exists acc |].
  cbn [Py.int_go].
  assert (Hc : Py.digit_value c <> None).
  { apply Hdigits. cbn [Py.has_char]. by rewrite Ascii.eqb_refl. }
  destruct (Py.digit_value c) as [d |] eqn:Hd; [| done].
  apply IH.
  - unfold Py.digit_value in Hd. destruct (_ && _); [| done].
    injection Hd as <-. lia.
  - intros c' Hc'. apply Hdigits. cbn [Py.has_char]. rewrite Hc'. apply orb_true_r.
Qed.

Lemma int_or_digits (group : option string) (default : Z) :
  (0 <= default)%Z ->
  (forall text, group = Some text ->
     Handlers.is_digits text /\ String.length text <= Py.int_max_str_digits) ->
  exists z, Handlers.int_or group default = Some z /\ (0 <= z)%Z.
Proof.
  intros Hdefault Hgroup. destruct group as [text |]; [| by exists default].
  destruct (Hgroup text eq_refl) as [[Hne Hdigits] Hlen].
  destruct text as [| c text]; [done |]. cbn [Handlers.int_or Py.truthy_str Py.int].
  destruct (Nat.ltb_spec Py.int_max_str_digits (String.length (String c text)));
    [lia |].
  by apply int_go_digits.
Qed.

(** [int] raises on a text of more than [int_max_str_digits]
    characters. *)
Lemma int_too_long (text : string) :
  Py.int_max_str_digits < String.length text -> Py.int text = None.
Proof.
  intros Hlen. destruct text as [| c text]; [done |]. cbn [Py.int].
  by destruct (Nat.ltb_spec Py.int_max_str_digits (String.length (String c text)));
    [| lia].
Qed.

(** X20. For groups that are runs of the digits 0 to 9, none of more than
    4300 digits, the handler never answers that the number is invalid: it
    reads six numbers that are not negative.  It then refuses the command
    with the message about the range, and without reading the worksheet,
    the clock or the random generator, exactly when the total is below 10
    or above 100; otherwise it goes on to generate the exam with these
    numbers. *)
Theorem handle_exam_generation_digits (m0 m1 m2 m3 m4 m5 : option string)
    (channel : string) (outcomes : list (option string)) (w : World) :
  (forall m text, m ∈ [m0; m1; m2; m3; m4; m5] -> m = Some text ->
     Handlers.is_digits text /\ String.length text <= Py.int_max_str_digits) ->
  exists total_count s1 s2 s3 s4 s5,
    Handlers.parse_counts m0 m1 m2 m3 m4 m5 = Some (total_count, s1, s2, s3, s4, s5)
    /\ (0 <= total_count)%Z /\ (0 <= s1)%Z /\ (0 <= s2)%Z /\ (0 <= s3)%Z
    /\ (0 <= s4)%Z /\ (0 <= s5)%Z
    /\ ((total_count < 10 \/ 100 < total_count)%Z ->
        Handlers.handle_exam_generation m0 m1 m2 m3 m4 m5 channel outcomes w
        = ([Handlers.Say "❌ 문제 수는 10~100개 사이로 입력해주세요. 예: 시험지 30"], w))
    /\ ((10 <= total_count <= 100)%Z ->
        Handlers.handle_exam_generation m0 m1 m2 m3 m4 m5 channel outcomes w
        = Handlers.generate_and_reply total_count s1 s2 s3 s4 s5 channel outcomes w).
Proof.
  intros Hgroups.
  assert (Hint : forall m default, m ∈ [m0; m1; m2; m3; m4; m5] -> (0 <= default)%Z ->
                   exists z, Handlers.int_or m default = Some z /\ (0 <= z)%Z).
  { intros m default Hm Hdefault. apply int_or_digits; [done |].
    intros text Htext. by eapply Hgroups. }
  destruct (Hint m0 30%Z) as (t & Ht & Htn); [apply list_elem_of_In; cbn; tauto | lia |].
  destruct (Hint m1 15%Z) as (a1 & H1 & H1n); [apply list_elem_of_In; cbn; tauto | lia |].
  destruct (Hint m2 15%Z) as (a2 & H2 & H2n); [apply list_elem_of_In; cbn; tauto | lia |].
  destruct (Hint m3 5%Z) as (a3 & H3 & H3n); [apply list_elem_of_In; cbn; tauto | lia |].
  destruct (Hint m4 5%Z) as (a4 & H4 & H4n); [apply list_elem_of_In; cbn; tauto | lia |].
  destruct (Hint m5 10%Z) as (a5 & H5 & H5n); [apply list_elem_of_In; cbn; tauto | lia |].
  exists t, a1, a2, a3, a4, a5.
  assert (Hparse : Handlers.parse_counts m0 m1 m2 m3 m4 m5 = Some (t, a1, a2, a3, a4, a5)).
  { unfold Handlers.parse_counts. by rewrite Ht, H1, H2, H3, H4, H5. }
  split; [exact Hparse |]. do 6 (split; [done |]).
  unfold Handlers.handle_exam_generation. rewrite Hparse. split.
  - intros Hout.
    destruct (Z.ltb_spec t 10); [done |].
    destruct (Z.gtb_spec t 100); [done | lia].
  - intros Hin.
    destruct (Z.ltb_spec t 10); [lia |].
    destruct (Z.gtb_spec t 100); [lia | done].
Qed.

Lemma handle_exam_generation_digits_witness :
  let w := calm_world (sample_sheet 12) in
  (forall m text, m ∈ [Some "5"; None; None; None; None; Some "07"] -> m = Some text ->
     Handlers.is_digits text /\ String.length text <= Py.int_max_str_digits)
  /\ Handlers.parse_counts (Some "5") None None None None (Some "07")
     = Some (5, 15, 15, 5, 5, 7)%Z
  /\ Handlers.handle_exam_generation (Some "5") None None None None (Some "07") "C1" [] w
     = ([Handlers.Say "❌ 문제 수는 10~100개 사이로 입력해주세요. 예: 시험지 30"], w).
Proof.
  intros w.
  assert (Hgroups : forall m text,
             m ∈ [Some "5"; None; None; None; None; Some "07"] -> m = Some text ->
             Handlers.is_digits text /\ String.length text <= Py.int_max_str_digits).
  { intros m text Hm Htext. subst m. apply list_elem_of_In in Hm.
    assert (Hcases : text = "5" \/ text = "07").
    { cbn in Hm. destruct Hm as [H | [H | [H | [H | [H | [H | []]]]]]];
        try discriminate H; injection H as <-; tauto. }
    split; [split |].
    - intros Hempty. destruct Hcases as [Hc | Hc]; rewrite Hc in Hempty;
        discriminate Hempty.
    - intros c Hc%has_char_in Hnone. destruct Hcases as [Ht | Ht]; rewrite Ht in Hc;
        cbn in Hc; repeat (destruct Hc as [Hc | Hc];
                           [rewrite <- Hc in Hnone; discriminate Hnone |]);
        destruct Hc.
    - unfold Py.int_max_str_digits.
      destruct Hcases as [-> | ->]; cbn [String.length]; lia. }
  split; [exact Hgroups |].
  destruct (handle_exam_generation_digits (Some "5") None None None None (Some "07")
              "C1" [] w Hgroups)
    as (t & a1 & a2 & a3 & a4 & a5 & Hparse & _ & _ & _ & _ & _ & _ & Hout & _).
  assert (Hvalues : (t, a1, a2, a3, a4, a5) = (5, 15, 15, 5, 5, 7)%Z).
  { vm_compute in Hparse. by injection Hparse as <- <- <- <- <- <-. }
  injection Hvalues as -> -> -> -> -> ->.
  split; [exact Hparse |]. apply Hout. lia.
Defined.

(** A group of more than 4300 digits makes [int] raise [ValueError]: the
    handler answers that the number is invalid and does nothing else. *)
Lemma handle_exam_generation_too_long (m0 m1 m2 m3 m4 m5 : option string)
    (channel : string) (outcomes : list (option string)) (w : World) (text : string) :
  Some text ∈ [m0; m1; m2; m3; m4; m5] ->
  Py.int_max_str_digits < String.length text ->
  Handlers.handle_exam_generation m0 m1 m2 m3 m4 m5 channel outcomes w
  = ([Handlers.Say "❌ 올바른 숫자를 입력해주세요. 예: 시험지 30"], w).
Proof.
  intros Hin Hlen.
  assert (Hint : forall default, Handlers.int_or (Some text) default = None).
  { intros default. cbn [Handlers.int_or].
    destruct text as [| c text]; [cbn [String.length] in Hlen; lia |].
    cbn [Py.truthy_str]. by apply int_too_long. }
  assert (Hparse : Handlers.parse_counts m0 m1 m2 m3 m4 m5 = None).
  { unfold Handlers.parse_counts. apply list_elem_of_In in Hin. cbn [In] in Hin.
    destruct Hin as [-> | [-> | [-> | [-> | [-> | [-> | []]]]]]]; rewrite Hint;
      repeat (match goal with
              | |- context [match ?x with _ => _ end] => destruct x
              end); done. }
  unfold Handlers.handle_exam_generation. by rewrite Hparse.
Qed.

(** The length of two texts joined. *)
Lemma string_length_append (a b : string) :
  String.length (a +:+ b) = String.length a + String.length b.
Proof.
  induction a as [| x a IH]; [done |].
  change (String x a +:+ b) with (String x (a +:+ b)). cbn [String.length].
  by rewrite IH.
Qed.

(** The name of the exam file is never the name of the answer file. *)
Lemma upload_names_differ (timestamp : string) :
  "영어시험지_" +:+ timestamp +:+ ".txt" <> "영어시험지_답지_" +:+ timestamp +:+ ".txt".
Proof.
  intros Heq. apply (f_equal String.length) in Heq.
  rewrite !string_length_append in Heq. cbn [String.length] in Heq. lia.
Qed.

(** X21. When fewer than ten words are drawn, the command is answered by
    the message of progress followed by the message of failure that
    carries the reason, with the number of words available; no file is
    uploaded and the worksheet is as before. *)
Theorem exam_command_too_few_words (total_count s1 s2 s3 s4 s5 : Z) (channel : string)
    (outcomes : list (option string)) (w : World) :
  let k := length (fst (get_random_words total_count w)) in
  k < 10 ->
  fst (Handlers.generate_and_reply total_count s1 s2 s3 s4 s5 channel outcomes w)
  = [Handlers.Say ("📝 " +:+ Py.str_int total_count
                   +:+ "문제 시험지 생성 중... 잠시만 기다려주세요.");
     Handlers.Say ("❌ 시험지 생성 실패: " +:+ insufficient_words k)]
  /\ rows (snd (Handlers.generate_and_reply total_count s1 s2 s3 s4 s5 channel
                  outcomes w))
     = rows w.
Proof.
  intros k Hk. unfold Handlers.generate_and_reply. rewrite generate_exam_unfold.
  rewrite generate_exam_from_short by done. cbn [fst snd]. split; [done |].
  apply get_random_words_world.
Qed.

Lemma exam_command_too_few_words_witness :
  let w := calm_world (sample_sheet 3) in
  length (fst (get_random_words 30 w)) < 10
  /\ fst (Handlers.generate_and_reply 30 15 15 5 5 10 "C1" [] w)
     = [Handlers.Say "📝 30문제 시험지 생성 중... 잠시만 기다려주세요.";
        Handlers.Say "❌ 시험지 생성 실패: 저장된 단어가 부족합니다. (현재: 3개, 최소: 10개 필요)"].
Proof.
  intros w.
  assert (Hk : length (fst (get_random_words 30 w)) < 10) by (vm_compute; lia).
  split; [exact Hk |].
  exact (proj1 (exam_command_too_few_words 30 15 15 5 5 10 "C1" [] w Hk)).
Defined.

(** [generate_exam] with at least ten words drawn. *)
Lemma generate_exam_reads_only_helper (total_count s1 s2 s3 s4 s5 : Z) (w : World) :
  10 <= length (fst (get_random_words total_count w)) ->
  exists e,
    fst (generate_exam total_count s1 s2 s3 s4 s5 w) = Success e
    /\ rows (snd (generate_exam total_count s1 s2 s3 s4 s5 w)) = rows w
    /\ ticks (snd (generate_exam total_count s1 s2 s3 s4 s5 w)) = ticks w + 2.
Proof.
  intros Hk. rewrite generate_exam_unfold.
  rewrite generate_exam_from_enough by done. cbn [fst snd].
  destruct (get_random_words_world total_count w) as [Hrows Hticks].
  eexists. split; [reflexivity |].
  change (rows (snd (render_documents ?a ?w1))) with (rows w1).
  change (ticks (snd (render_documents ?a ?w1))) with (S (S (ticks w1))).
  rewrite Hrows, Hticks. split; [done | lia].
Qed.

(** What a [try] block has done is a beginning of its statements. *)
Lemma try_steps_prefix (steps : list Handlers.event) (outcomes : list (option string)) :
  Handlers.try_steps steps outcomes `prefix_of` steps.
Proof.
  revert outcomes. induction steps as [| step steps IH]; intros outcomes; [done |].
  cbn [Handlers.try_steps]. destruct outcomes as [| [e |] outcomes].
  - by apply prefix_cons.
  - apply prefix_nil.
  - by apply prefix_cons.
Qed.

(** When no call raises, every statement of the block is carried out. *)
Lemma try_steps_all (steps : list Handlers.event) (outcomes : list (option string)) :
  (forall j e, j < length steps -> outcomes !! j <> Some (Some e)) ->
  Handlers.try_steps steps outcomes = steps.
Proof.
  revert outcomes. induction steps as [| step steps IH]; intros outcomes Hcalm; [done |].
  cbn [Handlers.try_steps]. destruct outcomes as [| [e |] outcomes].
  - f_equal. apply IH. intros j e _. by rewrite lookup_nil.
  - exfalso. apply (Hcalm 0 e); [cbn [length]; lia | done].
  - f_equal. apply IH. intros j e Hj. apply (Hcalm (S j) e). cbn [length]. lia.
Qed.

(** The call that raises and the statements after it are not carried
    out. *)
Lemma try_steps_raise (steps : list Handlers.event) (outcomes : list (option string))
    (j : nat) (e : string) :
  outcomes !! j = Some (Some e) -> length (Handlers.try_steps steps outcomes) <= j.
Proof.
  revert outcomes j. induction steps as [| step steps IH]; intros outcomes j Hj;
    [cbn [Handlers.try_steps length]; lia |].
  cbn [Handlers.try_steps]. destruct outcomes as [| [e' |] outcomes].
  - by rewrite lookup_nil in Hj.
  - cbn [length]. lia.
  - destruct j as [| j]; [done |]. cbn [length].
    specialize (IH outcomes j Hj). lia.
Qed.

(** X22. When at least ten words are drawn, the command is answered by the
    message of progress and, in every case, by the message with the counts
    of the result; between the two, [upload_exam_files] carries out a
    beginning of its six calls: the exam and the answer key are written to
    two files of different names, the two files are handed to Slack, the
    two files are removed.  All six are carried out when none raises; the
    call that raises and the calls after it are not carried out, since the
    exception is logged and the method returns.  The worksheet is as before
    and the clock has been read three times. *)
Theorem exam_command_uploads_documents (total_count s1 s2 s3 s4 s5 : Z)
    (channel : string) (outcomes : list (option string)) (w : World) :
  10 <= length (fst (get_random_words total_count w)) ->
  let outcome :=
    Handlers.generate_and_reply total_count s1 s2 s3 s4 s5 channel outcomes w in
  exists e exam_name answer_name carried,
    let steps := Handlers.upload_steps channel exam_name answer_name e in
    fst (generate_exam total_count s1 s2 s3 s4 s5 w) = Success e
    /\ fst outcome
       = Handlers.Say ("📝 " +:+ Py.str_int total_count
                       +:+ "문제 시험지 생성 중... 잠시만 기다려주세요.")
         :: carried ++ [Handlers.Say (Handlers.result_message e)]
    /\ carried `prefix_of` steps
    /\ ((forall j err, j < 6 -> outcomes !! j <> Some (Some err)) -> carried = steps)
    /\ (forall j err, outcomes !! j = Some (Some err) -> length carried <= j)
    /\ exam_name <> answer_name
    /\ rows (snd outcome) = rows w
    /\ ticks (snd outcome) = ticks w + 3.
Proof.
  intros Hk outcome. subst outcome.
  pose proof (generate_exam_reads_only_helper total_count s1 s2 s3 s4 s5 w Hk)
    as (e & He & Hrows & Hticks).
  unfold Handlers.generate_and_reply.
  destruct (generate_exam total_count s1 s2 s3 s4 s5 w) as [result w1].
  cbn [fst snd] in He, Hrows, Hticks. subst result.
  unfold Handlers.upload_exam_files, datetime_now. cbn [fst snd].
  eexists e, _, _, _. cbn zeta. split; [reflexivity |]. split; [reflexivity |].
  split; [apply try_steps_prefix |].
  split; [intros Hcalm; by apply try_steps_all |].
  split; [intros j err Hj; by eapply try_steps_raise |].
  split; [apply upload_names_differ |].
  cbn [rows ticks set_ticks]. split; [exact Hrows | lia].
Qed.

Lemma exam_command_uploads_documents_witness :
  let w := calm_world (sample_sheet 12) in
  10 <= length (fst (get_random_words 30 w))
  /\ length (fst (Handlers.generate_and_reply 30 15 15 5 5 10 "C1" [] w)) = 8
  /\ ticks (snd (Handlers.generate_and_reply 30 15 15 5 5 10 "C1" [] w)) = 3.
Proof.
  intros w.
  assert (Hk : 10 <= length (fst (get_random_words 30 w))) by (vm_compute; lia).
  split; [exact Hk |].
  destruct (exam_command_uploads_documents 30 15 15 5 5 10 "C1" [] w Hk)
    as (e & exam_name & answer_name & carried & _ & Hevents & _ & Hall & _ & _ & _
        & Hticks).
  split; [| exact Hticks].
  rewrite Hevents, Hall by (intros j err _; by rewrite lookup_nil).
  reflexivity.
Defined.

(** When the first upload raises, the two files have been written; nothing
    is handed to Slack, the files are not removed, and the command is
    answered as if the files had been uploaded. *)
Example exam_command_upload_raises :
  let w := calm_world (sample_sheet 12) in
  exists e,
    fst (generate_exam 30 15 15 5 5 10 w) = Success e
    /\ fst (Handlers.generate_and_reply 30 15 15 5 5 10 "C1"
              [None; None; Some "SlackApiError"] w)
       = [Handlers.Say "📝 30문제 시험지 생성 중... 잠시만 기다려주세요.";
          Handlers.WriteFile "영어시험지_20240305_070900.txt" (exam_content e);
          Handlers.WriteFile "영어시험지_답지_20240305_070900.txt" (answer_content e);
          Handlers.Say (Handlers.result_message e)].
Proof. eexists. split; vm_compute; reflexivity. Qed.

(** ** Sending to Slack *)

(** A call that posts adds the message at the end of what was posted; a
    call that raises adds nothing. *)
Lemma chat_postMessage_delivered (text : string) (s : Notifier.Slack) :
  Notifier.delivered (snd (Notifier.chat_postMessage text s))
  = match fst (Notifier.chat_postMessage text s) with
    | Notifier.Posted => Notifier.delivered s ++ [text]
    | _ => Notifier.delivered s
    end.
Proof.
  unfold Notifier.chat_postMessage. by destruct (Notifier.outcomes s) as [| [| e | e] rest].
Qed.


(** When the loop ends without an exception, all its messages were
    posted, in order. *)
Lemma post_all_posted (messages : list string) (s : Notifier.Slack) :
  fst (Notifier.post_all messages s) = Notifier.Posted ->
  Notifier.delivered (snd (Notifier.post_all messages s))
  = Notifier.delivered s ++ messages.
Proof.
  revert s. induction messages as [| m messages IH]; intros s; cbn [Notifier.post_all].
  - intros _. by rewrite app_nil_r.
  - pose proof (chat_postMessage_delivered m s) as Hd.
    destruct (Notifier.chat_postMessage m s) as [[| e | e] s']; cbn [fst snd] in *;
      try discriminate.
    intros Hposted. rewrite (IH s' Hposted), Hd. by rewrite <- app_assoc.
Qed.

(** The loop only adds to what was posted. *)
Lemma post_all_delivered_prefix (messages : list string) (s : Notifier.Slack) :
  exists added, Notifier.delivered (snd (Notifier.post_all messages s))
                = Notifier.delivered s ++ added.
Proof.
  revert s. induction messages as [| m messages IH]; intros s; cbn [Notifier.post_all].
  - exists []. by rewrite app_nil_r.
  - pose proof (chat_postMessage_delivered m s) as Hd.
    destruct (Notifier.chat_postMessage m s) as [[| e | e] s']; cbn [fst snd] in *.
    + destruct (IH s') as [added Ha]. exists (m :: added).
      rewrite Ha, Hd. by rewrite <- app_assoc.
    + exists []. by rewrite app_nil_r.
    + exists []. by rewrite app_nil_r.
Qed.


(** X23. The report of [send_daily_materials] does not claim more than was
    done: when it says that the mixed content was sent, all its messages
    were posted, in order, after what had been posted before; when it says
    that the commentary was sent, the commentary is the last message
    posted.  The list of errors is empty exactly when both were sent, and
    it never has more than two entries. *)
Theorem send_daily_materials_report (mixed_messages : list string)
    (commentary_message : string) (s : Notifier.Slack) :
  let report := fst (Notifier.send_daily_materials mixed_messages commentary_message s) in
  let s' := snd (Notifier.send_daily_materials mixed_messages commentary_message s) in
  (Pipeline.mixed_content_sent report = true ->
   exists after, Notifier.delivered s'
                 = Notifier.delivered s ++ mixed_messages ++ after)
  /\ (Pipeline.commentary_sent report = true ->
      last (Notifier.delivered s') = Some commentary_message)
  /\ (Pipeline.errors report = []
      <-> Pipeline.mixed_content_sent report = true
          /\ Pipeline.commentary_sent report = true)
  /\ length (Pipeline.errors report) <= 2.
Proof.
  intros report s'. subst report s'. unfold Notifier.send_daily_materials.
  pose proof (post_all_posted mixed_messages s) as Hall.
  destruct (Notifier.post_all mixed_messages s) as [first s1]. cbn [fst snd] in Hall.
  pose proof (chat_postMessage_delivered commentary_message s1) as Hd.
  destruct first as [| e1 | e1];
    destruct (Notifier.chat_postMessage commentary_message s1) as [[| e2 | e2] s2];
    cbn [fst snd Pipeline.mixed_content_sent Pipeline.commentary_sent Pipeline.errors
         app length] in *;
    split_and!;
    first
      [ lia
      | done
      | by (split; [done | intros [? ?]])
      | by (intros _; rewrite Hd, last_snoc)
      | by (intros _; exists [commentary_message];
            rewrite Hd, (Hall eq_refl), <- app_assoc)
      | by (intros _; exists []; rewrite Hd, (Hall eq_refl), app_nil_r) ].
Qed.



(** An exception of another kind while the commentary is sent: the report
    says that nothing was sent although the mixed content was posted in
    full. *)
Example send_daily_materials_other_error :
  let s := Notifier.mkSlack [Notifier.Posted; Notifier.OtherError "timed out"] [] in
  fst (Notifier.send_daily_materials ["mixed"] "commentary" s)
  = Pipeline.mkSlackResult false false ["timed out"]
  /\ Notifier.delivered (snd (Notifier.send_daily_materials ["mixed"] "commentary" s))
     = ["mixed"].
Proof. split; reflexivity. Qed.

(** ** The article extractor *)

(** Stripping what is stripped changes nothing. *)
Lemma lstrip_idem (s : string) : Py.lstrip (Py.lstrip s) = Py.lstrip s.
Proof.
  induction s as [| c s IH]; [done |]. cbn [Py.lstrip].
  destruct (Py.is_space c) eqn:Hc; [exact IH |]. cbn [Py.lstrip]. by rewrite Hc.
Qed.

Lemma rstrip_idem (s : string) : Py.rstrip (Py.rstrip s) = Py.rstrip s.
Proof.
  induction s as [| c s IH]; [done |]. cbn [Py.rstrip].
  destruct (Py.rstrip s) as [| d r] eqn:Hr.
  - destruct (Py.is_space c) eqn:Hc; [done |]. cbn [Py.rstrip]. by rewrite Hc.
  - change (Py.rstrip (String c (String d r)))
      with (match Py.rstrip (String d r) with
            | EmptyString => if Py.is_space c then EmptyString else String c EmptyString
            | x => String c x
            end).
    by rewrite IH.
Qed.

(** Stripping on the left keeps a text stripped on the right. *)
Lemma rstrip_lstrip (r : string) :
  Py.rstrip r = r -> Py.rstrip (Py.lstrip r) = Py.lstrip r.
Proof.
  induction r as [| c r IH]; [done |]. intros Hfix. cbn [Py.lstrip].
  destruct (Py.is_space c) eqn:Hc; [| exact Hfix].
  apply IH. cbn [Py.rstrip] in Hfix. rewrite Hc in Hfix.
  destruct (Py.rstrip r) as [| d x]; [discriminate Hfix |]. by injection Hfix.
Qed.

Lemma strip_idem (s : string) : Py.strip (Py.strip s) = Py.strip s.
Proof.
  unfold Py.strip.
  rewrite (rstrip_lstrip (Py.rstrip s)) by apply rstrip_idem.
  apply lstrip_idem.
Qed.

(** The paragraphs taken from a text are not empty and are their own
    stripped form. *)
Lemma split_paragraphs_stripped (full_content : string) :
  Forall (fun p => p <> "" /\ Py.strip p = p) (Extractor.split_paragraphs full_content).
Proof.
  unfold Extractor.split_paragraphs. apply Forall_forall. intros p Hp.
  apply list_elem_of_fmap in Hp as (q & -> & Hq).
  apply list_elem_of_filter in Hq as [Hq _].
  split; [| apply strip_idem].
  intros Hempty. by rewrite Hempty in Hq.
Qed.

(** The loop returns nothing or the article of one of the entries. *)
Lemma first_article_cases (web : Extractor.Web) (now : DateTime) (topic : string)
    (entries : list Extractor.entry) :
  Extractor.first_article web now topic entries = []
  \/ exists e a, e ∈ entries
       /\ Extractor.article_of_entry web now topic e = Some a
       /\ Extractor.first_article web now topic entries = [a].
Proof.
  induction entries as [| e entries IH]; [by left |]. cbn [Extractor.first_article].
  destruct (Extractor.article_of_entry web now topic e) as [a |] eqn:He.
  - right. exists e, a. split; [apply list_elem_of_here | done].
  - destruct IH as [Hnone | (e' & a & Hin & Ha & Hfirst)]; [by left | right].
    exists e', a. split; [by apply list_elem_of_further | done].
Qed.

(** X25. [extract_articles] returns at most one article, and an article
    that it returns has at least four paragraphs and at least 500 words;
    its paragraphs are not empty and have no white space at their ends; it
    carries the topic that was asked, and its address is neither an
    interactive page nor a page of the learning section. *)
Theorem extract_articles_quality (api_key : option string) (web : Extractor.Web)
    (now : DateTime) (topic : string) :
  let found := Extractor.extract_articles api_key web now topic in
  length found <= 1
  /\ forall data, data ∈ found ->
       let a := Extractor.the_article data in
       let c := Extractor.article_content a in
       (4 <= Py.len (Extractor.paragraphs c))%Z
       /\ Extractor.total_paragraphs c = Py.len (Extractor.paragraphs c)
       /\ (500 <= Extractor.word_count c)%Z
       /\ Forall (fun p => p <> "" /\ Py.strip p = p) (Extractor.paragraphs c)
       /\ Extractor.daily_topic data = topic /\ Extractor.topic a = topic
       /\ Py.contains "/interactive/" (Extractor.link a) = false
       /\ Py.contains "/learning/" (Extractor.link a) = false.
Proof.
  intros found.
  assert (Hcases : found = []
                   \/ exists e data, Extractor.article_of_entry web now topic e = Some data
                                     /\ found = [data]).
  { subst found. unfold Extractor.extract_articles.
    destruct api_key as [key |]; [| by left].
    destruct (negb (Py.truthy_str key)); [by left |].
    destruct (Extractor.search web topic) as [docs |]; [| by left].
    destruct (first_article_cases web now topic docs)
      as [Hnone | (e & a & _ & Ha & Hfirst)]; [by left | right; eauto]. }
  destruct Hcases as [-> | (e & data & He & ->)].
  - split; [cbn; lia |]. intros data Hin. by apply elem_of_nil in Hin.
  - split; [cbn; lia |]. intros data' Hin. apply list_elem_of_singleton in Hin as ->.
    unfold Extractor.article_of_entry in He.
    destruct (Extractor.web_url e) as [url |]; [| done].
    destruct (negb (Py.truthy_str url)); [done |].
    destruct (Py.truthy_str (Extractor._get_full_article_text web url)) eqn:Htext;
      [| done].
    cbn [negb] in He.
    destruct (Z.geb_spec (Py.len (Extractor.split_paragraphs
                                    (Extractor._get_full_article_text web url))) 4);
      [| done].
    destruct (Z.geb_spec (Py.len (Py.split_ws (Extractor._get_full_article_text web url)))
                500); [| done].
    cbn [andb] in He. injection He as <-.
    cbn [Extractor.the_article Extractor.article_content Extractor.paragraphs
         Extractor.total_paragraphs Extractor.word_count Extractor.daily_topic
         Extractor.topic Extractor.link].
    split_and!; try done; try lia.
    + apply split_paragraphs_stripped.
    + unfold Extractor._get_full_article_text in Htext.
      destruct (Py.contains "/interactive/" url); [done | done].
    + unfold Extractor._get_full_article_text in Htext.
      destruct (Py.contains "/interactive/" url); [done |].
      destruct (Py.contains "/learning/" url); [done | done].
Qed.

(** X26. The text that [_get_full_article_text] makes of the paragraphs of
    a page, joined by blank lines, is cut by [extract_articles] into the
    same paragraphs again, stripped and without the blank ones, when no
    paragraph of the page holds a line feed. *)
Theorem page_paragraphs_round_trip (web : Extractor.Web) (url : string)
    (texts : list string) :
  Py.contains "/interactive/" url = false ->
  Py.contains "/learning/" url = false ->
  Extractor.page web url = Some texts ->
  Forall (fun p => Py.has_char (ascii_of_nat 10) p = false) texts ->
  Extractor.split_paragraphs (Extractor._get_full_article_text web url)
  = map Py.strip (filter (fun p => Py.truthy_str (Py.strip p)) texts).
Proof.
  intros Hi Hl Hpage Hfree. unfold Extractor._get_full_article_text.
  rewrite Hi, Hl, Hpage. cbn [orb]. unfold Extractor.split_paragraphs.
  destruct texts as [| x xs]; [reflexivity |].
  change (nl +:+ nl) with (String (ascii_of_nat 10) nl).
  by rewrite split_join.
Qed.

Lemma page_paragraphs_round_trip_witness :
  let texts := [" First paragraph. "; "   "; "Second one."] in
  let web := Extractor.mkWeb (fun _ => None) (fun _ => Some texts) in
  Py.contains "/interactive/" "https://nyt.example/a.html" = false
  /\ Py.contains "/learning/" "https://nyt.example/a.html" = false
  /\ Extractor.page web "https://nyt.example/a.html" = Some texts
  /\ Forall (fun p => Py.has_char (ascii_of_nat 10) p = false) texts
  /\ Extractor.split_paragraphs
       (Extractor._get_full_article_text web "https://nyt.example/a.html")
     = ["First paragraph."; "Second one."].
Proof.
  intros texts web.
  assert (Hi : Py.contains "/interactive/" "https://nyt.example/a.html" = false)
    by reflexivity.
  assert (Hl : Py.contains "/learning/" "https://nyt.example/a.html" = false)
    by reflexivity.
  assert (Hpage : Extractor.page web "https://nyt.example/a.html" = Some texts)
    by reflexivity.
  assert (Hfree : Forall (fun p => Py.has_char (ascii_of_nat 10) p = false) texts)
    by (repeat constructor).
  split; [exact Hi |]. split; [exact Hl |]. split; [exact Hpage |].
  split; [exact Hfree |].
  rewrite (page_paragraphs_round_trip web "https://nyt.example/a.html" texts
             Hi Hl Hpage Hfree).
  vm_compute. reflexivity.
Defined.

(** ** The two documents side by side *)

(** The answer key is its first four sections followed by what the test
    on [synonym_words] adds. *)
Lemma answer_text_sections (timestamp : string) (s1w s2w cw xw yw : list word_data) :
  answer_text timestamp s1w s2w cw xw yw
  = answer_sections_1_to_4 timestamp s1w s2w cw xw +:+ answer_section5 yw.
Proof.
  unfold answer_text, answer_sections_1_to_4. by rewrite !append_assoc.
Qed.

Lemma answer_section5_empty (ws : list word_data) : answer_section5 ws = "" <-> ws = [].
Proof.
  destruct ws as [| x ws]; [done |].
  split; [| done]. unfold answer_section5, nl.
  cbn [Py.truthy String.append]. discriminate.
Qed.

(** X27. The answer key has a Section 5 exactly when the exam has one:
    rendered from the same lists, the exam ends with its Section 4 exactly
    when the answer key ends with its Section 4. *)
Theorem answer_key_mirrors_section5 (a : allocation) (w : World) :
  let documents := fst (render_documents a w) in
  fst documents
  = exam_title (strftime (clock w (ticks w)))
      (exam_title_total (section1_words a) (section2_words a) (synonym_words a))
    +:+ exam_sections_1_to_4 (section1_words a) (section2_words a)
          (composition_words a) (context_words a)
  <-> snd documents
      = answer_sections_1_to_4 (strftime (clock w (S (ticks w)))) (section1_words a)
          (section2_words a) (composition_words a) (context_words a).
Proof.
  intros documents. subst documents. rewrite render_documents_text. cbn [fst snd].
  rewrite answer_text_sections, append_fixed, answer_section5_empty.
  unfold exam_text. rewrite <- append_assoc, append_fixed. apply exam_section5_empty.
Qed.

(** A slice to five of the first five. *)
Lemma slice_to_take {A} (n : nat) (l : list A) :
  Py.slice_to (Z.of_nat n) (take n l) = Py.slice_to (Z.of_nat n) l.
Proof.
  rewrite !slice_to_nonneg by lia. rewrite Nat2Z.id. by rewrite take_take, Nat.min_id.
Qed.

(** X28. Both documents show at most the first five composition words and
    the first five context words: the words after the fifth of either list
    have no part in the exam nor in the answer key. *)
Theorem documents_use_five_words (timestamp : string)
    (s1w s2w cw xw yw : list word_data) :
  exam_text timestamp s1w s2w cw xw yw
  = exam_text timestamp s1w s2w (take 5 cw) (take 5 xw) yw
  /\ answer_text timestamp s1w s2w cw xw yw
     = answer_text timestamp s1w s2w (take 5 cw) (take 5 xw) yw.
Proof.
  unfold exam_text, exam_sections_1_to_4, answer_text.
  assert (Hc : Py.slice_to 5 (take 5 cw) = Py.slice_to 5 cw)
    by exact (slice_to_take 5 cw).
  assert (Hx : Py.slice_to 5 (take 5 xw) = Py.slice_to 5 xw)
    by exact (slice_to_take 5 xw).
  by rewrite Hc, Hx.
Qed.

(** ** Drawing more words than are stored *)

(** X29. While the spreadsheet service answers, when at least as many words
    are asked as the bank holds and the rows have their three cells,
    [get_random_words] returns all the words of the bank, each as often as
    the bank holds it, in some order. *)
Theorem get_random_words_all (count : Z) (w : World) :
  faults w = [] ->
  let bank := drop 1 (rows w) in
  (Py.len bank <= count)%Z ->
  Forall (fun row => 3 <= length row) bank ->
  fst (get_random_words count w) ≡ₚ omap row_to_word bank.
Proof.
  intros Hcalm bank Hcount Hrows.
  unfold get_random_words, get_all_values. rewrite api_call_calm by done.
  rewrite slice_from_1. fold bank.
  assert (Hk : (if (Py.len bank <? count)%Z then Py.len bank else count) = Py.len bank).
  { destruct (Z.ltb_spec (Py.len bank) count); lia. }
  rewrite Hk. unfold random_sample.
  destruct (Z.ltb_spec (Py.len bank) 0) as [Hneg |]; [unfold Py.len in Hneg; lia |].
  rewrite Z.ltb_irrefl. cbn [orb].
  destruct (draw_without_replacement (Z.to_nat (Py.len bank)) bank w) as [Hlen Hsub].
  { unfold Py.len. lia. }
  destruct (draw (Z.to_nat (Py.len bank)) bank w) as [selected w']. cbn [fst] in *.
  assert (Hperm : selected ≡ₚ bank).
  { apply submseteq_length_Permutation; [done |]. rewrite Hlen. unfold Py.len. lia. }
  by rewrite Hperm.
Qed.

Lemma get_random_words_all_witness :
  let w := mkWorld (sample_sheet 3) [] [5; 1] frozen_clock 0 in
  faults w = []
  /\ (Py.len (drop 1 (rows w)) <= 30)%Z
  /\ Forall (fun row => 3 <= length row) (drop 1 (rows w))
  /\ fst (get_random_words 30 w) ≡ₚ sample_words 3.
Proof.
  intros w.
  assert (Hcalm : faults w = []) by reflexivity.
  assert (Hcount : (Py.len (drop 1 (rows w)) <= 30)%Z) by (vm_compute; discriminate).
  assert (Hrows : Forall (fun row => 3 <= length row) (drop 1 (rows w))).
  { vm_compute. repeat constructor. }
  split; [exact Hcalm |]. split; [exact Hcount |]. split; [exact Hrows |].
  exact (get_random_words_all 30 w Hcalm Hcount Hrows).
Defined.
